(** * go-otel-e2e: the telemetry-correlated request pipeline

    A shallow embedding of packages [handlers], [logging] and [routes] of
    the repository, with the OpenTelemetry, [otelhttp], [net/http],
    [math/rand], [time], [log] and [encoding/json] calls they make modelled
    at their interface as operations on an explicit world.  The handlers are written in a
    small state monad so that the Rocq text follows the Go text line by
    line.

    Conventions of the model:
    - randomness is a stream of entropy words in the world; [rand.IntN(n)]
      consumes one word and reduces it modulo [n];
    - the SDK's spans live in a store indexed by handle; a context carries
      the handle of its span, or the no-op span;
    - requests are served one after the other; the mutex of the JSON
      logger and the atomicity of the counter are therefore not modelled;
    - the world keeps, beside the state, the history of the calls made by
      the handlers and by the middleware around them, so that statements
      can speak about their order. *)

From Stdlib Require Import ZArith NArith List String Ascii Bool Lia.
From stdpp Require Import base option list gmap strings fin_maps pretty.

Open Scope string_scope.
Open Scope list_scope.
Open Scope Z_scope.

(* ===================================================================== *)
(** ** go.opentelemetry.io/otel/attribute *)
(* ===================================================================== *)

Module attribute.

(** [attribute.Value]: the four scalar kinds the repository switches on,
    and [OTHER] for the slice kinds and INVALID (their [AsString] is the
    empty string).  A float is kept as its IEEE-754 binary64 bit pattern. *)
Inductive Value :=
| STRING (s : string)
| INT64 (i : Z)
| BOOL (b : bool)
| FLOAT64 (bits : N)
| OTHER.

Record KeyValue := mkKV { Key : string; Val : Value }.

Definition String (k v : string) : KeyValue := mkKV k (STRING v).
Definition Int (k : string) (v : Z) : KeyValue := mkKV k (INT64 v).

Definition AsString (v : Value) : string :=
  match v with STRING s => s | _ => "" end.

End attribute.

Abbreviation KeyValue := attribute.KeyValue.

(* ===================================================================== *)
(** ** go.opentelemetry.io/otel/codes and trace *)
(* ===================================================================== *)

Module codes.
Inductive Code := Unset | Error | Ok.

(** The numeric values of the constants, which [SetStatus] compares:
    Unset = 0, Error = 1, Ok = 2. *)
Definition rank (c : Code) : nat :=
  match c with Unset => 0 | Error => 1 | Ok => 2 end.
End codes.

(** [trace.SpanContext]: a 128-bit trace identifier and a 64-bit span
    identifier; the context is valid when both are non-zero. *)
Record SpanContext := mkSC { TraceID : N; SpanID : N }.

Definition IsValid (sc : SpanContext) : bool :=
  negb (TraceID sc =? 0)%N && negb (SpanID sc =? 0)%N.

Definition emptySpanContext : SpanContext := mkSC 0 0.

(** Lower-case hexadecimal rendering, [digits] characters wide
    ([TraceID.String] is 32 wide, [SpanID.String] 16). *)
Definition hexDigit (n : N) : ascii :=
  match n with
  | 0 => "0" | 1 => "1" | 2 => "2" | 3 => "3" | 4 => "4" | 5 => "5"
  | 6 => "6" | 7 => "7" | 8 => "8" | 9 => "9" | 10 => "a" | 11 => "b"
  | 12 => "c" | 13 => "d" | 14 => "e" | _ => "f"
  end%N%char.

Fixpoint hexString (digits : nat) (n : N) : string :=
  match digits with
  | O => ""
  | S k => hexString k (n / 16)%N +:+ String (hexDigit (n mod 16)%N) ""
  end.

Definition TraceID_String (t : N) : string := hexString 32 t.
Definition SpanID_String (s : N) : string := hexString 16 s.

(** A span event: a name and an ordered attribute list. *)
Record Event := mkEvent { ev_name : string; ev_attrs : list KeyValue }.

(** The state of one SDK span. *)
Record Span := mkSpan {
  sp_name : string;
  sp_context : SpanContext;
  sp_parent : SpanContext;
  sp_status : codes.Code;
  sp_description : string;
  sp_events : list Event;
  sp_ended : bool
}.

(** A [trace.Span] interface value: the no-op span that
    [trace.SpanFromContext] returns for a context without a span, or a
    span of the SDK, named by its index in the world's span store. *)
Inductive SpanRef := noopSpan | sdkSpan (h : nat).

(** [context.Context], reduced to the one value this code reads from it. *)
Record Context := mkCtx { ctx_span : SpanRef }.

Definition trace_SpanFromContext (ctx : Context) : SpanRef := ctx_span ctx.
Definition trace_ContextWithSpan (_ : Context) (s : SpanRef) : Context := mkCtx s.

(* ===================================================================== *)
(** ** encoding/json values, console lines, the HTTP response writer *)
(* ===================================================================== *)

(** The [any] values stored in the log entry ([map[string]any]). *)
#[warnings="-register-all"]
Inductive JVal :=
| JString (s : string)
| JInt (i : Z)
| JBool (b : bool)
| JFloat (bits : N)
| JTime (ms : Z)                      (* time.Time rendered with RFC3339Nano *)
| JObject (m : gmap string JVal).

(** binary64 NaN and infinities have all eleven exponent bits set;
    [encoding/json] refuses them with an UnsupportedValueError. *)
Definition float_finite (bits : N) : bool :=
  negb (((bits / 2 ^ 52) mod 2 ^ 11) =? 2047)%N.

Definition scalar_encodable (v : JVal) : bool :=
  match v with JFloat bits => float_finite bits | _ => true end.

(** What [log.Printf] has printed: the fallback line
    ["[%s] %s %v" level message attrs], or the start-up warning. *)
Inductive ConsoleLine :=
| LogLine (level message : string) (attrs : list KeyValue)
| WarnOpenFailed (path err : string).

Record OrderResponse := mkOrderResponse {
  or_Status : string; or_Message : string }.

Record InventoryResponse := mkInventoryResponse {
  ir_Status : string; ir_Message : string; ir_DelayMS : Z }.

Inductive Body :=
| BodyOrder (resp : OrderResponse)          (* {"status":..,"message":..} *)
| BodyInventory (resp : InventoryResponse)  (* {"status":..,"message":..,"delay_ms":..} *)
| BodyText (s : string).

(** [http.ResponseWriter]: headers, the status line once written, the
    body chunks, and whether the connection refuses writes. *)
Record ResponseWriter := mkRW {
  rw_header : gmap string string;
  rw_status : option Z;
  rw_body : list Body;
  rw_broken : bool
}.

Record Request := mkRequest { r_ctx : Context }.
Definition r_Context (r : Request) : Context := r_ctx r.
Definition r_WithContext (_ : Request) (ctx : Context) : Request := mkRequest ctx.

(* ===================================================================== *)
(** ** The world the handlers act on *)
(* ===================================================================== *)

(** [logging.StructuredLogger]: [encoder] is nil when the file could not
    be opened; otherwise it names the file it appends to. *)
Record StructuredLogger := mkSL { sl_f : option string; sl_encoder : option string }.

(** One entry per call that package [handlers], or the middleware around
    a handler, makes to a collaborator, in program order. *)
Inductive Call :=
| CallIntN (n result : N)
| CallSleep (ms : Z)
| CallStart (parent : Context) (name : string) (h : nat)
| CallSetStatus (s : SpanRef) (c : codes.Code) (description : string)
| CallRecordError (s : SpanRef) (err : string)
| CallEnd (s : SpanRef)
| CallCounterAdd (ctx : Context) (incr : Z) (status : string)
| CallLoggerLog (ctx : Context) (level message : string) (attrs : list KeyValue)
| CallStructuredWrite (ctx : Context) (level message : string) (attrs : list KeyValue)
| CallHeaderSet (k v : string)
| CallEncode (b : Body)
| CallHttpError (msg : string) (code : Z).

Record World := mkWorld {
  rand_src : nat -> N;                    (* the entropy math/rand reads *)
  rand_pos : nat;
  clock : Z;                              (* milliseconds *)
  spans : list Span;                      (* the SDK's spans, by handle *)
  ordersProcessedCounter : gmap string Z; (* total per "status" label *)
  console : list ConsoleLine;
  logfile : list (gmap string JVal);      (* lines of the JSON log file *)
  JSONLogger : StructuredLogger;
  calls : list Call
}.

Definition M (A : Type) : Type := World -> A * World.

Definition ret {A} (a : A) : M A := fun w => (a, w).
Definition bind {A B} (m : M A) (k : A -> M B) : M B :=
  fun w => let (a, w') := m w in k a w'.

Notation "x <- m ;; k" := (bind m (fun x => k))
  (at level 100, m at next level, right associativity).
Notation "m ;; k" := (bind m (fun _ => k))
  (at level 100, right associativity).

Definition exec {A} (m : M A) (w : World) : World := snd (m w).
Definition eval {A} (m : M A) (w : World) : A := fst (m w).

Definition record (c : Call) : M unit := fun w =>
  (tt, mkWorld (rand_src w) (rand_pos w) (clock w) (spans w)
         (ordersProcessedCounter w) (console w) (logfile w) (JSONLogger w)
         (calls w ++ [c])).

Definition set_spans (ss : list Span) (w : World) : World :=
  mkWorld (rand_src w) (rand_pos w) (clock w) ss
    (ordersProcessedCounter w) (console w) (logfile w) (JSONLogger w) (calls w).

Definition set_console (c : list ConsoleLine) (w : World) : World :=
  mkWorld (rand_src w) (rand_pos w) (clock w) (spans w)
    (ordersProcessedCounter w) c (logfile w) (JSONLogger w) (calls w).

Definition set_logfile (f : list (gmap string JVal)) (w : World) : World :=
  mkWorld (rand_src w) (rand_pos w) (clock w) (spans w)
    (ordersProcessedCounter w) (console w) f (JSONLogger w) (calls w).

Definition set_counter (c : gmap string Z) (w : World) : World :=
  mkWorld (rand_src w) (rand_pos w) (clock w) (spans w)
    c (console w) (logfile w) (JSONLogger w) (calls w).

Definition set_JSONLogger (l : StructuredLogger) (w : World) : World :=
  mkWorld (rand_src w) (rand_pos w) (clock w) (spans w)
    (ordersProcessedCounter w) (console w) (logfile w) l (calls w).

(* ===================================================================== *)
(** ** math/rand/v2, time, log *)
(* ===================================================================== *)

(** [rand.IntN(n)]: the next word of entropy reduced into [0, n).  (Go
    panics when [n <= 0]; the handlers pass positive constants only.) *)
Definition rand_IntN (n : N) : M Z := fun w =>
  let v := (rand_src w (rand_pos w) mod n)%N in
  (Z.of_N v,
   mkWorld (rand_src w) (S (rand_pos w)) (clock w) (spans w)
     (ordersProcessedCounter w) (console w) (logfile w) (JSONLogger w)
     (calls w ++ [CallIntN n v])).

(** [time.Sleep(ms * time.Millisecond)]. *)
Definition time_Sleep (ms : Z) : M unit := fun w =>
  (tt,
   mkWorld (rand_src w) (rand_pos w) (clock w + ms) (spans w)
     (ordersProcessedCounter w) (console w) (logfile w) (JSONLogger w)
     (calls w ++ [CallSleep ms])).

Definition time_Now : M Z := fun w => (clock w, w).

Definition log_Printf (line : ConsoleLine) : M unit := fun w =>
  (tt, set_console (console w ++ [line]) w).

(* ===================================================================== *)
(** ** The tracer and span operations (OpenTelemetry SDK) *)
(* ===================================================================== *)

Definition lookupSpan (s : SpanRef) (ss : list Span) : option Span :=
  match s with
  | noopSpan => None
  | sdkSpan h => ss !! h
  end.

(** [span.SpanContext()]: the no-op span has the zero span context. *)
Definition spanContextIn (ss : list Span) (s : SpanRef) : SpanContext :=
  match lookupSpan s ss with
  | Some sp => sp_context sp
  | None => emptySpanContext
  end.

Definition span_SpanContext (s : SpanRef) : M SpanContext := fun w =>
  (spanContextIn (spans w) s, w).

(** Every mutator is dropped on the no-op span and on a span that has
    ended (it no longer records). *)
Definition updateStore (s : SpanRef) (f : Span -> Span) (ss : list Span) : list Span :=
  match s with
  | noopSpan => ss
  | sdkSpan h =>
      match ss !! h with
      | Some sp => if sp_ended sp then ss else <[h := f sp]> ss
      | None => ss
      end
  end.

Definition updateSpan (s : SpanRef) (f : Span -> Span) : M unit := fun w =>
  (tt, set_spans (updateStore s f (spans w)) w).

(** [tracer.Start(ctx, name)]: a new span whose parent is the span of
    [ctx]; it joins the parent's trace when the parent's span context is
    valid and starts a new trace otherwise.  Identifiers are non-zero and
    fresh: handle [h] gets span identifier [h + 1]. *)
Definition newSpan (parent : SpanContext) (h : nat) (name : string) : Span :=
  let fresh := N.of_nat (S h) in
  let tid := if IsValid parent then TraceID parent else fresh in
  mkSpan name (mkSC tid fresh) parent codes.Unset "" [] false.

(** The value [otel.Tracer(name)] returns. *)
Inductive Tracer := mkTracer (name : string).
Definition otel_Tracer (name : string) : Tracer := mkTracer name.

Definition tracer_Start (t : Tracer) (ctx : Context) (name : string)
    : M (Context * SpanRef) :=
  parent <- span_SpanContext (trace_SpanFromContext ctx) ;;
  fun w =>
    let h := length (spans w) in
    let s := sdkSpan h in
    ((trace_ContextWithSpan ctx s, s),
     exec (record (CallStart ctx name h))
       (set_spans (spans w ++ [newSpan parent h name]) w)).

(** What the SDK's [SetStatus] does to a recording span: a code lower than
    the one already set is ignored (so Ok is final), and the description
    is kept for [codes.Error] only. *)
Definition setStatus (c : codes.Code) (description : string) (sp : Span) : Span :=
  if (codes.rank c <? codes.rank (sp_status sp))%nat then sp
  else
    mkSpan (sp_name sp) (sp_context sp) (sp_parent sp) c
      (match c with codes.Error => description | _ => "" end)
      (sp_events sp) (sp_ended sp).

Definition addEvent (e : Event) (sp : Span) : Span :=
  mkSpan (sp_name sp) (sp_context sp) (sp_parent sp) (sp_status sp)
    (sp_description sp) (sp_events sp ++ [e]) (sp_ended sp).

Definition endSpan (sp : Span) : Span :=
  mkSpan (sp_name sp) (sp_context sp) (sp_parent sp) (sp_status sp)
    (sp_description sp) (sp_events sp) true.

(** [span.AddEvent(name, trace.WithAttributes(attrs...))]. *)
Definition span_AddEvent (s : SpanRef) (name : string) (attrs : list KeyValue) : M unit :=
  updateSpan s (addEvent (mkEvent name attrs)).

(** [span.SetStatus(code, description)]. *)
Definition span_SetStatus (s : SpanRef) (c : codes.Code) (description : string) : M unit :=
  record (CallSetStatus s c description) ;;
  updateSpan s (setStatus c description).

(** [span.RecordError(err)]: an "exception" event carrying the error's
    type and message. *)
Definition span_RecordError (s : SpanRef) (err : string) : M unit :=
  record (CallRecordError s err) ;;
  updateSpan s (addEvent (mkEvent "exception"
    [attribute.String "exception.type" "*errors.errorString";
     attribute.String "exception.message" err])).

(** [span.End()]: idempotent. *)
Definition span_End (s : SpanRef) : M unit :=
  record (CallEnd s) ;;
  updateSpan s endSpan.

(* ===================================================================== *)
(** ** The counter instrument (OpenTelemetry metric API) *)
(* ===================================================================== *)

Definition counterTotal (label : string) (w : World) : Z :=
  default 0 (ordersProcessedCounter w !! label).

(** [ordersProcessedCounter.Add(ctx, incr, WithAttributes(status = label))]:
    the sum of the stream labelled [label] grows by [incr]. *)
Definition ordersProcessedCounter_Add (ctx : Context) (incr : Z) (label : string) : M unit :=
  record (CallCounterAdd ctx incr label) ;;
  fun w => (tt, set_counter
                  (<[label := counterTotal label w + incr]> (ordersProcessedCounter w)) w).

(* ===================================================================== *)
(** ** Package logging *)
(* ===================================================================== *)

Module logging.

Definition LogLevel := string.
Definition LevelInfo : LogLevel := "INFO".
Definition LevelError : LogLevel := "ERROR".

(** [type Logger struct{}]. *)
Inductive Logger := mkLogger.

Definition New : Logger := mkLogger.
Definition DefaultLogger : Logger := New.

(** [Logger.log]: a span event when the context's span is valid, the
    standard logger otherwise. *)
Definition Logger_log (l : Logger) (ctx : Context) (level : LogLevel)
    (message : string) (attrs : list KeyValue) : M unit :=
  record (CallLoggerLog ctx level message attrs) ;;
  let span := trace_SpanFromContext ctx in
  sc <- span_SpanContext span ;;
  if negb (IsValid sc) then
    log_Printf (LogLine level message attrs)
  else
    let allAttrs := [] in
    let allAttrs := allAttrs ++ [attribute.String "log.level" level] in
    let allAttrs := allAttrs ++ [attribute.String "log.message" message] in
    let allAttrs := allAttrs ++ attrs in
    span_AddEvent span "log" allAttrs.

Definition Logger_Info (l : Logger) (ctx : Context) (message : string)
    (attrs : list KeyValue) : M unit :=
  Logger_log l ctx LevelInfo message attrs.

Definition Logger_Error (l : Logger) (ctx : Context) (message : string)
    (attrs : list KeyValue) : M unit :=
  Logger_log l ctx LevelError message attrs.

(** [attrsToMap]: a later attribute with the same key overwrites. *)
Definition attrValue (v : attribute.Value) : JVal :=
  match v with
  | attribute.STRING s => JString s
  | attribute.INT64 i => JInt i
  | attribute.BOOL b => JBool b
  | attribute.FLOAT64 bits => JFloat bits
  | attribute.OTHER => JString (attribute.AsString v)
  end.

Fixpoint attrsToMap_from (m : gmap string JVal) (attrs : list KeyValue)
    : gmap string JVal :=
  match attrs with
  | [] => m
  | a :: rest => attrsToMap_from (<[attribute.Key a := attrValue (attribute.Val a)]> m) rest
  end.

Definition attrsToMap (attrs : list KeyValue) : gmap string JVal :=
  attrsToMap_from ∅ attrs.

(** What [json.Encoder.Encode] accepts: every number must be finite.  The
    entries built here nest one object (the attribute map) of scalars. *)
Definition value_encodable (v : JVal) : bool :=
  match v with
  | JObject m => bool_decide (map_Forall (fun _ x => scalar_encodable x = true) m)
  | _ => scalar_encodable v
  end.

Definition entry_encodable (entry : gmap string JVal) : bool :=
  bool_decide (map_Forall (fun _ x => value_encodable x = true) entry).

(** [encoder.Encode(entry)] on the log file: one line appended, or an
    error and nothing written. *)
Definition encoder_Encode (enc : string) (entry : gmap string JVal) : M (option string) :=
  fun w =>
    if entry_encodable entry
    then (None, set_logfile (logfile w ++ [entry]) w)
    else (Some "json: unsupported value", w).

(** The process environment and the paths [os.OpenFile] fails on. *)
Record OS := mkOS {
  environ : gmap string string;
  open_error : gmap string string
}.

Definition os_Getenv (os : OS) (k : string) : string := default "" (environ os !! k).

Definition os_OpenFile (os : OS) (path : string) : string + string :=
  match open_error os !! path with
  | Some err => inr err
  | None => inl path
  end.

(** [NewStructured]. *)
Definition NewStructured (os : OS) : M StructuredLogger :=
  let path := os_Getenv os "APP_LOG_FILE" in
  let path := if String.eqb path "" then "app.log" else path in
  match os_OpenFile os path with
  | inr err =>
      log_Printf (WarnOpenFailed path err) ;;
      ret (mkSL None None)
  | inl f => ret (mkSL (Some f) (Some f))
  end.

(** The entry [StructuredLogger.write] builds: four fixed keys, and the
    two identifiers when the span context is valid. *)
Definition buildEntry (now : Z) (sc : SpanContext) (level : LogLevel)
    (message : string) (attrs : list KeyValue) : gmap string JVal :=
  let entry : gmap string JVal :=
    <["attributes" := JObject (attrsToMap attrs)]>
      (<["message" := JString message]>
         (<["level" := JString level]>
            (<["timestamp" := JTime now]> ∅))) in
  if IsValid sc then
    <["span_id" := JString (SpanID_String (SpanID sc))]>
      (<["trace_id" := JString (TraceID_String (TraceID sc))]> entry)
  else entry.

(** [StructuredLogger.write]; the mutex brackets the final [Encode],
    whose error is discarded. *)
Definition StructuredLogger_write (l : StructuredLogger) (ctx : Context)
    (level : LogLevel) (message : string) (attrs : list KeyValue) : M unit :=
  record (CallStructuredWrite ctx level message attrs) ;;
  match sl_encoder l with
  | None => log_Printf (LogLine level message attrs)
  | Some enc =>
      let span := trace_SpanFromContext ctx in
      sc <- span_SpanContext span ;;
      now <- time_Now ;;
      let entry := buildEntry now sc level message attrs in
      _ <- encoder_Encode enc entry ;;
      ret tt
  end.

Definition StructuredLogger_Info (l : StructuredLogger) (ctx : Context)
    (message : string) (attrs : list KeyValue) : M unit :=
  StructuredLogger_write l ctx LevelInfo message attrs.

Definition StructuredLogger_Error (l : StructuredLogger) (ctx : Context)
    (message : string) (attrs : list KeyValue) : M unit :=
  StructuredLogger_write l ctx LevelError message attrs.

(** The package-level [var JSONLogger = NewStructured()], read by the
    handlers. *)
Definition JSONLogger_Info (ctx : Context) (message : string)
    (attrs : list KeyValue) : M unit :=
  fun w => StructuredLogger_Info (JSONLogger w) ctx message attrs w.

Definition JSONLogger_Error (ctx : Context) (message : string)
    (attrs : list KeyValue) : M unit :=
  fun w => StructuredLogger_Error (JSONLogger w) ctx message attrs w.

End logging.

(* ===================================================================== *)
(** ** net/http and encoding/json on the response writer *)
(* ===================================================================== *)

Definition newline : string := String (ascii_of_nat 10) EmptyString.

Definition rw_HeaderSet (w : ResponseWriter) (k v : string) : ResponseWriter :=
  mkRW (<[k := v]> (rw_header w)) (rw_status w) (rw_body w) (rw_broken w).

Definition rw_HeaderDel (w : ResponseWriter) (k : string) : ResponseWriter :=
  mkRW (delete k (rw_header w)) (rw_status w) (rw_body w) (rw_broken w).

(** [w.WriteHeader(code)]: only the first call sets the status. *)
Definition rw_WriteHeader (w : ResponseWriter) (code : Z) : ResponseWriter :=
  match rw_status w with
  | Some _ => w
  | None => mkRW (rw_header w) (Some code) (rw_body w) (rw_broken w)
  end.

(** [w.Write(b)]: sends the 200 status line first when none was written,
    then the chunk, unless the connection refuses it. *)
Definition rw_Write (w : ResponseWriter) (b : Body) : ResponseWriter * option string :=
  let w := rw_WriteHeader w 200 in
  if rw_broken w then (w, Some "write: broken pipe")
  else (mkRW (rw_header w) (rw_status w) (rw_body w ++ [b]) (rw_broken w), None).

Definition header_Set (w : ResponseWriter) (k v : string) : M ResponseWriter :=
  record (CallHeaderSet k v) ;;
  ret (rw_HeaderSet w k v).

(** [json.NewEncoder(w).Encode(resp)] for the two response structs, whose
    fields (strings and an int) always marshal. *)
Definition json_Encode (w : ResponseWriter) (b : Body) : M (ResponseWriter * option string) :=
  record (CallEncode b) ;;
  ret (rw_Write w b).

(** [http.Error(w, msg, code)]. *)
Definition errorResponse (w : ResponseWriter) (msg : string) (code : Z) : ResponseWriter :=
  let w := rw_HeaderDel w "Content-Length" in
  let w := rw_HeaderSet w "Content-Type" "text/plain; charset=utf-8" in
  let w := rw_HeaderSet w "X-Content-Type-Options" "nosniff" in
  let w := rw_WriteHeader w code in
  fst (rw_Write w (BodyText (msg +:+ newline))).

Definition http_Error (w : ResponseWriter) (msg : string) (code : Z) : M ResponseWriter :=
  record (CallHttpError msg code) ;;
  ret (errorResponse w msg code).

(* ===================================================================== *)
(** ** The otelhttp middleware *)
(* ===================================================================== *)

Module otelhttp.

Definition ScopeName : string :=
  "go.opentelemetry.io/contrib/instrumentation/net/http/otelhttp".

(** The span status the middleware derives from the status code of the
    response: an error for a code outside 100..599 and for a 5xx code,
    unset otherwise. *)
Definition ServerStatus (code : Z) : codes.Code * string :=
  if (code <? 100) || (600 <=? code)
  then (codes.Error, "Invalid HTTP status code " +:+ pretty code)
  else if 500 <=? code then (codes.Error, "") else (codes.Unset, "").

(** The response writer the middleware hands to the handler passes every
    call on to the writer it wraps and records the code of the first
    [WriteHeader] it sees, 200 until then.  [wrap w] is what the handler
    writes to: the writer [w] with the wrapper's own "no header yet";
    [statusCode] reads the recorded code off the writer the handler leaves;
    [unwrap w rww] is [w] after the calls passed on, on which a status
    line written earlier stays. *)
Definition wrap (w : ResponseWriter) : ResponseWriter :=
  mkRW (rw_header w) None (rw_body w) (rw_broken w).

Definition statusCode (rww : ResponseWriter) : Z := default 200 (rw_status rww).

Definition unwrap (w rww : ResponseWriter) : ResponseWriter :=
  mkRW (rw_header rww)
    (match rw_status w with Some code => Some code | None => rw_status rww end)
    (rw_body rww) (rw_broken rww).

(** [otelhttp.NewHandler(handler, operation)]: the request span, named
    [operation], is started under the context of the request (after the
    propagator's [Extract], which leaves a request without trace headers
    as it is); the handler runs with that span in its context; the span
    status is then set from the response status code and the span is
    ended.  The attributes and the HTTP metrics the middleware also
    records are not modelled: they touch neither the span status nor the
    orders counter. *)
Definition NewHandler (handler : ResponseWriter -> Request -> M ResponseWriter)
    (operation : string) (w : ResponseWriter) (r : Request) : M ResponseWriter :=
  let ctx := r_Context r in
  started <- tracer_Start (otel_Tracer ScopeName) ctx operation ;;
  let '(ctx, span) := started in
  rww <- handler (wrap w) (r_WithContext r ctx) ;;
  let '(code, description) := ServerStatus (statusCode rww) in
  span_SetStatus span code description ;;
  span_End span ;;
  ret (unwrap w rww).

End otelhttp.

(* ===================================================================== *)
(** ** Package handlers *)
(* ===================================================================== *)

Module handlers.

Import logging.

Definition instrumentationName : string := "app/handlers".
Definition statusSuccess : string := "success".
Definition statusFailure : string := "failure".

(** [handleRequestError]. *)
Definition handleRequestError (ctx : Context) (span : SpanRef)
    (message err stage : string) : M unit :=
  Logger_Error DefaultLogger ctx message
    [attribute.String "error.stage" stage;
     attribute.String "error.reason" err] ;;
  JSONLogger_Error ctx message
    [attribute.String "error.stage" stage;
     attribute.String "error.reason" err] ;;
  ordersProcessedCounter_Add ctx 1 statusFailure ;;
  span_RecordError span err ;;
  span_SetStatus span codes.Error message ;;
  span_SetStatus (trace_SpanFromContext ctx) codes.Error message.

(** [handleDBError]. *)
Definition handleDBError (w : ResponseWriter) (r : Request) (tracer : Tracer)
    : M ResponseWriter :=
  let ctx := r_Context r in
  started <- tracer_Start tracer ctx "db.insert_order" ;;
  let '(dbCtx, dbSpan) := started in
  n <- rand_IntN 40 ;;
  time_Sleep (n + 10) ;;
  let err := "simulated database constraint violation" in
  handleRequestError dbCtx dbSpan "database operation failed" err "database" ;;
  span_End dbSpan ;;
  http_Error w "Internal Server Error" 500.

(** [handlePaymentError]. *)
Definition handlePaymentError (w : ResponseWriter) (r : Request) (tracer : Tracer)
    : M ResponseWriter :=
  let ctx := r_Context r in
  started <- tracer_Start tracer ctx "payment.process" ;;
  let '(paymentCtx, paymentSpan) := started in
  let err := "simulated payment provider error" in
  handleRequestError paymentCtx paymentSpan "payment processing failed" err "payment" ;;
  span_End paymentSpan ;;
  http_Error w "Internal Server Error" 500.

(** [CreateOrderHandler]. *)
Definition CreateOrderHandler (w : ResponseWriter) (r : Request) : M ResponseWriter :=
  let ctx := r_Context r in
  let tracer := otel_Tracer instrumentationName in
  n <- rand_IntN 50 ;;
  time_Sleep (n + 30) ;;
  bucket <- rand_IntN 10 ;;
  if bucket =? 0 then
    coin <- rand_IntN 2 ;;
    if coin =? 0 then
      handleDBError w r tracer
    else
      started <- tracer_Start tracer ctx "db.insert_order" ;;
      let '(_, dbSpan) := started in
      n <- rand_IntN 100 ;;
      time_Sleep (n + 50) ;;
      span_SetStatus dbSpan codes.Ok "order record inserted" ;;
      span_End dbSpan ;;
      handlePaymentError w r tracer
  else
    started <- tracer_Start tracer ctx "db.insert_order" ;;
    let '(_, dbSpan) := started in
    n <- rand_IntN 100 ;;
    time_Sleep (n + 50) ;;
    span_SetStatus dbSpan codes.Ok "order record inserted" ;;
    span_End dbSpan ;;
    started <- tracer_Start tracer ctx "payment.process" ;;
    let '(_, paySpan) := started in
    n <- rand_IntN 80 ;;
    time_Sleep (n + 40) ;;
    span_SetStatus paySpan codes.Ok "payment processed successfully" ;;
    span_End paySpan ;;
    ordersProcessedCounter_Add ctx 1 statusSuccess ;;
    orderID <- rand_IntN 1000 ;;
    let resp := mkOrderResponse "success" "Order created successfully" in
    span_SetStatus (trace_SpanFromContext ctx) codes.Ok "order created successfully" ;;
    Logger_Info DefaultLogger ctx "Order created successfully"
      [attribute.Int "order.id" orderID] ;;
    JSONLogger_Info ctx "Order created successfully"
      [attribute.Int "order.id" orderID] ;;
    w <- header_Set w "Content-Type" "application/json" ;;
    encoded <- json_Encode w (BodyOrder resp) ;;
    let '(w, err) := encoded in
    match err with
    | Some e =>
        Logger_Error DefaultLogger ctx "Error encoding response"
          [attribute.String "error.reason" e] ;;
        JSONLogger_Error ctx "Error encoding response"
          [attribute.String "error.reason" e] ;;
        ret w
    | None => ret w
    end.

(** [CheckInventoryHandler]. *)
Definition CheckInventoryHandler (w : ResponseWriter) (r : Request) : M ResponseWriter :=
  let ctx := r_Context r in
  n <- rand_IntN 601 ;;
  let delay := n + 200 in
  time_Sleep delay ;;
  let resp := mkInventoryResponse "success" "Inventory checked successfully" delay in
  Logger_Info DefaultLogger ctx "Inventory checked successfully"
    [attribute.Int "inventory.check.delay_ms" delay] ;;
  JSONLogger_Info ctx "Inventory checked successfully"
    [attribute.Int "inventory.check.delay_ms" delay] ;;
  w <- header_Set w "Content-Type" "application/json" ;;
  encoded <- json_Encode w (BodyInventory resp) ;;
  let '(w, err) := encoded in
  match err with
  | Some e =>
      Logger_Error DefaultLogger ctx "Error encoding inventory response"
        [attribute.String "error.reason" e] ;;
      JSONLogger_Error ctx "Error encoding inventory response"
        [attribute.String "error.reason" e] ;;
      ret w
  | None => ret w
  end.

End handlers.

(* ===================================================================== *)
(** ** Process start-up and request dispatch (packages main and routes) *)
(* ===================================================================== *)

Module main.

Import logging.

(** The outcome of package initialisation: the process serves, or
    [log.Fatalf] has ended it. *)
Inductive Boot := Serving (w : World) | Fatal (msg : string).

Definition bootWorld (src : nat -> N) : World :=
  mkWorld src 0 0 [] ∅ [] [] (mkSL None None) [].

(** Package [logging] initialises [JSONLogger] with [NewStructured()]. *)
Definition logging_init (os : OS) : M unit :=
  l <- NewStructured os ;;
  fun w => (tt, set_JSONLogger l w).

(** [handlers.init]: creating the counter instrument; an error is fatal. *)
Definition handlers_init (counterErr : option string) (w : World) : Boot :=
  match counterErr with
  | Some err => Fatal ("failed to create orders_processed_total counter: " +:+ err)
  | None => Serving w
  end.

(** Go initialises an imported package before its importer: [logging]
    first, then [handlers]. *)
Definition startup (os : OS) (counterErr : option string) (src : nat -> N) : Boot :=
  handlers_init counterErr (exec (logging_init os) (bootWorld src)).

(** [routes.SetupRoutes]: the two routes, each handler wrapped in
    [otelhttp.NewHandler] with the name of its request span. *)
Inductive Route := createOrder | checkInventory.

Definition dispatch (route : Route) (w : ResponseWriter) (r : Request)
    : M ResponseWriter :=
  match route with
  | createOrder =>
      otelhttp.NewHandler handlers.CreateOrderHandler "POST /createOrder" w r
  | checkInventory =>
      otelhttp.NewHandler handlers.CheckInventoryHandler "GET /checkInventory" w r
  end.

(** Requests served one after the other. *)
Fixpoint serve (reqs : list (Route * ResponseWriter * Request)) : M (list ResponseWriter) :=
  match reqs with
  | [] => ret []
  | (route, w, r) :: rest =>
      w' <- dispatch route w r ;;
      ws <- serve rest ;;
      ret (w' :: ws)
  end.

End main.

(* ===================================================================== *)
(** ** Vocabulary for the statements *)
(* ===================================================================== *)

Import logging handlers main.

(** The [k]-th value a request starting in [w] obtains from
    [rand.IntN(n)]. *)
Definition draw (w : World) (k : nat) (n : N) : N :=
  (rand_src w (k + rand_pos w) mod n)%N.

(** The calls a computation adds to the history of [w]. *)
Definition requestCalls {A} (m : M A) (w : World) : list Call :=
  drop (length (calls w)) (calls (exec m w)).

(** The terminal outcomes of the order pipeline, recognised by what the
    request did: it sent the order body, or it recorded one of the two
    simulated errors. *)
Inductive Outcome := Success | DBFailure | PaymentFailure.

Definition isOutcome (o : Outcome) (c : Call) : bool :=
  match o, c with
  | Success, CallEncode (BodyOrder _) => true
  | DBFailure, CallRecordError _ e =>
      String.eqb e "simulated database constraint violation"
  | PaymentFailure, CallRecordError _ e =>
      String.eqb e "simulated payment provider error"
  | _, _ => false
  end.

Definition occurs (o : Outcome) (cs : list Call) : bool := existsb (isOutcome o) cs.

(** The increments of the counter among a list of calls. *)
Definition counterAdds (cs : list Call) : list (Z * string) :=
  omap (fun c => match c with
                 | CallCounterAdd _ incr label => Some (incr, label)
                 | _ => None
                 end) cs.

Definition counterSum (w : World) : Z :=
  counterTotal statusSuccess w + counterTotal statusFailure w.

(** A context's span is active in [w]: it is in the span store, its span
    context is valid, and it has not ended. *)
Definition activeSpan (w : World) (ctx : Context) (h : nat) (sp : Span) : Prop :=
  ctx_span ctx = sdkSpan h /\ spans w !! h = Some sp /\
  IsValid (sp_context sp) = true /\ sp_ended sp = false.

(** The span context [trace.SpanFromContext(ctx).SpanContext()] in [w]. *)
Definition contextSpanContext (w : World) (ctx : Context) : SpanContext :=
  eval (span_SpanContext (trace_SpanFromContext ctx)) w.

(** The world with the [k]-th upcoming word of entropy replaced. *)
Definition withDraw (k : nat) (v : N) (w : World) : World :=
  mkWorld (fun i => if Nat.eqb i (k + rand_pos w) then v else rand_src w i)
    (rand_pos w) (clock w) (spans w) (ordersProcessedCounter w) (console w)
    (logfile w) (JSONLogger w) (calls w).

(** The event [Logger.log] attaches, and the one [RecordError] attaches. *)
Definition logEvent (level message : string) (attrs : list KeyValue) : Event :=
  mkEvent "log"
    (attribute.String "log.level" level ::
     attribute.String "log.message" message :: attrs).

Definition exceptionEvent (err : string) : Event :=
  mkEvent "exception"
    [attribute.String "exception.type" "*errors.errorString";
     attribute.String "exception.message" err].

(** The attributes [handleRequestError] logs. *)
Definition errorAttrs (stage err : string) : list KeyValue :=
  [attribute.String "error.stage" stage; attribute.String "error.reason" err].

(** The branch [CreateOrderHandler] takes, decided by its second draw
    (the bucket) and, on the failure side, its third (the coin). *)
Definition pathOf (w : World) : Outcome :=
  if (draw w 1 10 =? 0)%N then
    if (draw w 2 2 =? 0)%N then DBFailure else PaymentFailure
  else Success.

Definition labelOf (o : Outcome) : string :=
  match o with Success => statusSuccess | _ => statusFailure end.

Definition Outcome_eqb (a b : Outcome) : bool :=
  match a, b with
  | Success, Success | DBFailure, DBFailure | PaymentFailure, PaymentFailure => true
  | _, _ => false
  end.

(** The outcome a request made of [cs] ended in, if it is unambiguous. *)
Definition outcomeOf (cs : list Call) : option Outcome :=
  match occurs Success cs, occurs DBFailure cs, occurs PaymentFailure cs with
  | true, false, false => Some Success
  | false, true, false => Some DBFailure
  | false, false, true => Some PaymentFailure
  | _, _, _ => None
  end.

Definition isIntN (n : N) (c : Call) : bool :=
  match c with CallIntN m _ => (m =? n)%N | _ => false end.

Definition sleptDurations (cs : list Call) : list Z :=
  omap (fun c => match c with CallSleep ms => Some ms | _ => None end) cs.

Definition endsIn (o : Outcome) (cs : list Call) : bool :=
  match outcomeOf cs with
  | Some o' => Outcome_eqb o o'
  | None => false
  end.

Definition isSetStatus (c : Call) : bool :=
  match c with CallSetStatus _ _ _ => true | _ => false end.

(** Stage work: starting a span or sleeping. *)
Definition isStageWork (c : Call) : bool :=
  match c with CallStart _ _ _ | CallSleep _ => true | _ => false end.

(** The calls that follow the first counter increment. *)
Fixpoint afterIncrement (cs : list Call) : list Call :=
  match cs with
  | [] => []
  | CallCounterAdd _ _ _ :: rest => rest
  | _ :: rest => afterIncrement rest
  end.

Definition buckets : list N := [0; 1; 2; 3; 4; 5; 6; 7; 8; 9]%N.
Definition coinFaces : list N := [0; 1]%N.

(** Attributes [encoding/json] can render: no NaN, no infinity. *)
Definition attrs_encodable (attrs : list KeyValue) : bool :=
  forallb (fun a => scalar_encodable (attrValue (attribute.Val a))) attrs.

(** A batch of order requests, and the number of order requests in a
    mixed batch. *)
Definition orderRequests (qs : list (ResponseWriter * Request))
    : list (Route * ResponseWriter * Request) :=
  map (fun q => (createOrder, q.1, q.2)) qs.

Definition isCreateOrder (q : Route * ResponseWriter * Request) : bool :=
  match q.1.1 with createOrder => true | checkInventory => false end.

(** A record that went to the console only: no span took an event and
    the log file took no line. *)
Definition consoleOnly (w w' : World) : Prop :=
  spans w' = spans w /\ logfile w' = logfile w.

(** One log call as the handlers make it: the span logger, then the
    JSON logger, with the same arguments. *)
Definition logBoth (ctx : Context) (level message : string) (attrs : list KeyValue)
    : M unit :=
  Logger_log DefaultLogger ctx level message attrs ;;
  fun w => StructuredLogger_write (JSONLogger w) ctx level message attrs w.

(** *** Concrete inputs *)

Definition entropy (l : list N) : nat -> N := fun i => nth i l 0%N.

Definition rootSpan : Span :=
  mkSpan "POST /createOrder" (mkSC 7 9) emptySpanContext codes.Unset "" [] false.

Definition openLogger : StructuredLogger := mkSL (Some "app.log") (Some "app.log").
Definition closedLogger : StructuredLogger := mkSL None None.

(** A serving process with one request span open. *)
Definition exampleWorld (l : list N) (jl : StructuredLogger) : World :=
  mkWorld (entropy l) 0 0 [rootSpan] ∅ [] [] jl [].

Definition exampleWriter : ResponseWriter := mkRW ∅ None [] false.
Definition exampleRequest : Request := mkRequest (mkCtx (sdkSpan 0)).
Definition backgroundContext : Context := mkCtx noopSpan.

(** A serving process with no span open. *)
Definition idleWorld (jl : StructuredLogger) : World :=
  mkWorld (entropy []) 0 0 [] ∅ [] [] jl [].

(** A serving process with no span open and the given words of entropy,
    and a request that arrives without trace headers. *)
Definition servingWorld (l : list N) (jl : StructuredLogger) : World :=
  mkWorld (entropy l) 0 0 [] ∅ [] [] jl [].

Definition incomingRequest : Request := mkRequest backgroundContext.

(** A float attribute holding a NaN (bit pattern 0x7FF8000000000000). *)
Definition notANumber : KeyValue :=
  attribute.mkKV "ratio" (attribute.FLOAT64 9221120237041090560).

(** An operating system on which the default log file cannot be opened. *)
Definition readOnlyOS : OS :=
  mkOS ∅ {["app.log" := "permission denied"]}.

(** The last attribute of [attrs] whose key is [k]. *)
Fixpoint lastAttr (k : string) (attrs : list KeyValue) : option KeyValue :=
  match attrs with
  | [] => None
  | a :: rest =>
      match lastAttr k rest with
      | Some b => Some b
      | None => if String.eqb (attribute.Key a) k then Some a else None
      end
  end.

(** The path [NewStructured] opens. *)
Definition logPath (os : OS) : string :=
  if String.eqb (os_Getenv os "APP_LOG_FILE") "" then "app.log"
  else os_Getenv os "APP_LOG_FILE".

(** The span store after [Logger.log] on the span [s]. *)
Definition logSpans (s : SpanRef) (level message : string) (attrs : list KeyValue)
    (ss : list Span) : list Span :=
  if IsValid (spanContextIn ss s)
  then updateStore s (addEvent (logEvent level message attrs)) ss
  else ss.

(** The handles of the spans a list of calls starts, and of those it ends. *)
Definition startedHandles (cs : list Call) : list nat :=
  omap (fun c => match c with CallStart _ _ h => Some h | _ => None end) cs.

Definition endedHandles (cs : list Call) : list nat :=
  omap (fun c => match c with CallEnd (sdkSpan h) => Some h | _ => None end) cs.

(** The calls made before the response is written. *)
Fixpoint beforeResponse (cs : list Call) : list Call :=
  match cs with
  | [] => []
  | CallEncode _ :: _ | CallHttpError _ _ :: _ => []
  | c :: rest => c :: beforeResponse rest
  end.

(** The status codes set on the span with handle [h], in order. *)
Definition statusesSet (h : nat) (cs : list Call) : list codes.Code :=
  omap (fun c => match c with
                 | CallSetStatus (sdkSpan h') code _ =>
                     if Nat.eqb h h' then Some code else None
                 | _ => None
                 end) cs.

(** A response writer whose connection refuses every write. *)
Definition brokenWriter : ResponseWriter := mkRW ∅ None [] true.

(** The level-ERROR logger calls among a list of calls. *)
Definition errorLogs (cs : list Call) : list Call :=
  List.filter (fun c => match c with
                        | CallLoggerLog _ level _ _
                        | CallStructuredWrite _ level _ _ => String.eqb level "ERROR"
                        | _ => false
                        end) cs.

(** [sp'] is a later state of the span [sp]: same name, identifiers and
    parent, events only appended, and no change at all once [sp] has
    ended. *)
Definition laterSpan (sp sp' : Span) : Prop :=
  sp_name sp' = sp_name sp /\ sp_context sp' = sp_context sp /\
  sp_parent sp' = sp_parent sp /\
  sp_events sp `prefix_of` sp_events sp' /\
  (sp_ended sp = true -> sp' = sp).

(** [w'] is a later state of the process [w]: the entropy and the JSON
    logger are the same, the history, the console and the log file have
    only been appended to, no counter total has gone down, no span has left
    the store and every span is a later state of itself. *)
Definition laterWorld (w w' : World) : Prop :=
  rand_src w' = rand_src w /\ (rand_pos w <= rand_pos w')%nat /\
  JSONLogger w' = JSONLogger w /\
  calls w `prefix_of` calls w' /\
  console w `prefix_of` console w' /\
  logfile w `prefix_of` logfile w' /\
  (forall label, counterTotal label w <= counterTotal label w') /\
  (forall i sp, spans w !! i = Some sp ->
     exists sp', spans w' !! i = Some sp' /\ laterSpan sp sp').

(** A computation that only moves the process forward. *)
Definition advances {A} (m : M A) : Prop := forall w, laterWorld w (exec m w).

(* ===================================================================== *)
(** ** Basic facts *)
(* ===================================================================== *)

Lemma bind_unfold {A B} (m : M A) (k : A -> M B) (w : World) :
  bind m k w = k (m w).1 (m w).2.
Proof. unfold bind. destruct (m w); reflexivity. Qed.

Lemma lookup_snoc {A} (l : list A) (x : A) : (l ++ [x]) !! length l = Some x.
Proof. rewrite lookup_app_r by lia. rewrite Nat.sub_diag. reflexivity. Qed.

Lemma insert_snoc {A} (l : list A) (x y : A) : <[length l := y]> (l ++ [x]) = l ++ [y].
Proof.
  rewrite insert_app_r_alt by lia. rewrite Nat.sub_diag. reflexivity.
Qed.

Lemma updateStore_snoc (f : Span -> Span) (ss : list Span) (sp : Span) :
  sp_ended sp = false ->
  updateStore (sdkSpan (length ss)) f (ss ++ [sp]) = ss ++ [f sp].
Proof.
  intros He. unfold updateStore. rewrite lookup_snoc, He. apply insert_snoc.
Qed.

Lemma IsValid_nonzero (sc : SpanContext) :
  IsValid sc = true <-> (TraceID sc <> 0 /\ SpanID sc <> 0)%N.
Proof.
  unfold IsValid. rewrite andb_true_iff, !negb_true_iff, !N.eqb_neq. tauto.
Qed.

(** The span context [tracer.Start] gives a new span is valid. *)
Lemma started_valid (parent : SpanContext) (h : nat) (name : string) :
  IsValid (sp_context (newSpan parent h name)) = true.
Proof.
  apply IsValid_nonzero. cbn [newSpan sp_context TraceID SpanID]. split; [|lia].
  destruct (IsValid parent) eqn:Hp; [|lia].
  apply IsValid_nonzero in Hp. tauto.
Qed.

(** [Logger.log] changes the span store and the console only. *)
Lemma Logger_log_frame l ctx level message attrs w :
  exists ss con,
    Logger_log l ctx level message attrs w =
      (tt, mkWorld (rand_src w) (rand_pos w) (clock w) ss
             (ordersProcessedCounter w) con (logfile w) (JSONLogger w)
             (calls w ++ [CallLoggerLog ctx level message attrs])).
Proof.
  unfold Logger_log, bind, record, span_SpanContext. cbn.
  match goal with |- context [if ?c then _ else _] => destruct c end; cbn;
    eauto.
Qed.

(** [StructuredLogger.write] changes the console and the log file only. *)
Lemma StructuredLogger_write_frame l ctx level message attrs w :
  exists con lf,
    StructuredLogger_write l ctx level message attrs w =
      (tt, mkWorld (rand_src w) (rand_pos w) (clock w) (spans w)
             (ordersProcessedCounter w) con lf (JSONLogger w)
             (calls w ++ [CallStructuredWrite ctx level message attrs])).
Proof.
  unfold StructuredLogger_write, bind, record. cbn.
  destruct (sl_encoder l); cbn; [|eauto].
  unfold encoder_Encode.
  match goal with |- context [if entry_encodable ?e then _ else _] =>
    destruct (entry_encodable e) end; cbn; eauto.
Qed.

Lemma Logger_log_active l ctx level message attrs w h sp :
  activeSpan w ctx h sp ->
  Logger_log l ctx level message attrs w =
    (tt, mkWorld (rand_src w) (rand_pos w) (clock w)
           (<[h := addEvent (logEvent level message attrs) sp]> (spans w))
           (ordersProcessedCounter w) (console w) (logfile w) (JSONLogger w)
           (calls w ++ [CallLoggerLog ctx level message attrs])).
Proof.
  intros (Hc & Hl & Hv & He).
  unfold Logger_log, bind, record, span_SpanContext, trace_SpanFromContext,
    span_AddEvent, updateSpan, updateStore, spanContextIn, lookupSpan.
  cbn. rewrite Hc. cbn. rewrite Hl, Hv. cbn. rewrite Hl, He. reflexivity.
Qed.

Lemma Logger_log_fallback l ctx level message attrs w :
  IsValid (contextSpanContext w ctx) = false ->
  Logger_log l ctx level message attrs w =
    (tt, mkWorld (rand_src w) (rand_pos w) (clock w) (spans w)
           (ordersProcessedCounter w) (console w ++ [LogLine level message attrs])
           (logfile w) (JSONLogger w)
           (calls w ++ [CallLoggerLog ctx level message attrs])).
Proof.
  unfold contextSpanContext, eval, span_SpanContext. cbn. intros Hv.
  unfold Logger_log, bind, record, span_SpanContext. cbn.
  rewrite Hv. reflexivity.
Qed.

Lemma bind_assoc {A B C} (m : M A) (k : A -> M B) (k' : B -> M C) (w : World) :
  bind (bind m k) k' w = bind m (fun x => bind (k x) k') w.
Proof. unfold bind. destruct (m w). reflexivity. Qed.

Lemma bind_step {A B} (m : M A) (k : A -> M B) (w w' : World) (a : A) :
  m w = (a, w') -> bind m k w = k a w'.
Proof. intros E. unfold bind. rewrite E. reflexivity. Qed.

Lemma JSONLogger_Info_frame ctx message attrs w :
  exists con lf,
    JSONLogger_Info ctx message attrs w =
      (tt, mkWorld (rand_src w) (rand_pos w) (clock w) (spans w)
             (ordersProcessedCounter w) con lf (JSONLogger w)
             (calls w ++ [CallStructuredWrite ctx LevelInfo message attrs])).
Proof. apply StructuredLogger_write_frame. Qed.

Lemma JSONLogger_Error_frame ctx message attrs w :
  exists con lf,
    JSONLogger_Error ctx message attrs w =
      (tt, mkWorld (rand_src w) (rand_pos w) (clock w) (spans w)
             (ordersProcessedCounter w) con lf (JSONLogger w)
             (calls w ++ [CallStructuredWrite ctx LevelError message attrs])).
Proof. apply StructuredLogger_write_frame. Qed.

Ltac active_started :=
  unfold activeSpan;
  split; [reflexivity | split; [apply lookup_snoc | split; [apply started_valid | reflexivity]]].

Ltac run_cbn :=
  cbn -[insert lookup Logger_log JSONLogger_Info JSONLogger_Error updateStore newSpan
        spanContextIn
        errorResponse rw_Write Z.add N.modulo length];
  unfold trace_ContextWithSpan.

Ltac run_logger :=
  lazymatch goal with
  | |- context [bind (Logger_log ?l ?c ?lv ?m ?a) ?k ?W] =>
      first
        [ rewrite (bind_step _ k W _ _
                     (Logger_log_active l c lv m a W _ _ ltac:(active_started)))
        | let E := fresh "E" in
          destruct (Logger_log_frame l c lv m a W) as (? & ? & E);
          rewrite (bind_step _ k W _ _ E); clear E ]
  | |- context [bind (JSONLogger_Info ?c ?m ?a) ?k ?W] =>
      let E := fresh "E" in
      destruct (JSONLogger_Info_frame c m a W) as (? & ? & E);
      rewrite (bind_step _ k W _ _ E); clear E
  | |- context [bind (JSONLogger_Error ?c ?m ?a) ?k ?W] =>
      let E := fresh "E" in
      destruct (JSONLogger_Error_frame c m a W) as (? & ? & E);
      rewrite (bind_step _ k W _ _ E); clear E
  end.

Ltac run_simpl :=
  run_cbn; rewrite ?insert_snoc; rewrite ?updateStore_snoc by reflexivity.

(** One step of symbolic execution: the first action of the computation
    is run on the current world and its continuation is entered. *)
Ltac run_step :=
  rewrite ?bind_assoc;
  unfold Logger_Info, Logger_Error;
  first
    [ run_logger
    | lazymatch goal with
      | |- context [bind ?m ?k ?W] =>
          erewrite (bind_step m k W) by (run_simpl; reflexivity)
      end ];
  cbv beta iota.

Ltac run := repeat run_step; run_simpl.

Ltac run_writer :=
  unfold rw_Write, rw_WriteHeader, rw_HeaderSet;
  cbn [rw_status rw_broken rw_header rw_body fst snd].

Ltac run_finish :=
  unfold counterTotal, errorAttrs; run_cbn;
  rewrite ?length_app; cbn [length]; rewrite ?Nat.add_1_r;
  rewrite <- ?app_assoc; run_cbn; eauto.

Lemma CreateOrderHandler_db_failure w rw r :
  draw w 1 10 = 0%N -> draw w 2 2 = 0%N ->
  let h := length (spans w) in
  let dbCtx := mkCtx (sdkSpan h) in
  let n0 := Z.of_N (draw w 0 50) in
  let n := Z.of_N (draw w 3 40) in
  let err := "simulated database constraint violation" in
  let msg := "database operation failed" in
  exists con lf,
    CreateOrderHandler rw r w =
      (errorResponse rw "Internal Server Error" 500,
       mkWorld (rand_src w) (4 + rand_pos w) (clock w + (n0 + 30) + (n + 10))
         (spans w ++
            [endSpan (setStatus codes.Error msg (setStatus codes.Error msg
               (addEvent (exceptionEvent err)
                  (addEvent (logEvent "ERROR" msg (errorAttrs "database" err))
                     (newSpan (contextSpanContext w (r_ctx r)) h "db.insert_order")))))])
         (<[statusFailure := counterTotal statusFailure w + 1]> (ordersProcessedCounter w))
         con lf (JSONLogger w)
         (calls w ++
            [CallIntN 50 (draw w 0 50); CallSleep (n0 + 30);
             CallIntN 10 0; CallIntN 2 0;
             CallStart (r_ctx r) "db.insert_order" h;
             CallIntN 40 (draw w 3 40); CallSleep (n + 10);
             CallLoggerLog dbCtx "ERROR" msg (errorAttrs "database" err);
             CallStructuredWrite dbCtx "ERROR" msg (errorAttrs "database" err);
             CallCounterAdd dbCtx 1 statusFailure;
             CallRecordError (sdkSpan h) err;
             CallSetStatus (sdkSpan h) codes.Error msg;
             CallSetStatus (sdkSpan h) codes.Error msg;
             CallEnd (sdkSpan h);
             CallHttpError "Internal Server Error" 500])).
Proof.
  destruct w as [src pos clk sps cnt con lf jl cs]; destruct r as [ctx].
  unfold draw, contextSpanContext, eval, counterTotal. cbn -[N.modulo]. intros Hb Hc.
  unfold CreateOrderHandler. run_cbn. rewrite Hb. run_cbn. rewrite Hc. run_cbn.
  unfold handleDBError, handleRequestError.
  run.
  run_finish.
Qed.

Lemma CreateOrderHandler_payment_failure w rw r :
  draw w 1 10 = 0%N -> draw w 2 2 <> 0%N ->
  let h := length (spans w) in
  let payCtx := mkCtx (sdkSpan (S h)) in
  let n0 := Z.of_N (draw w 0 50) in
  let n := Z.of_N (draw w 3 100) in
  let err := "simulated payment provider error" in
  let msg := "payment processing failed" in
  exists parent con lf,
    CreateOrderHandler rw r w =
      (errorResponse rw "Internal Server Error" 500,
       mkWorld (rand_src w) (4 + rand_pos w) (clock w + (n0 + 30) + (n + 50))
         (spans w ++
            [endSpan (setStatus codes.Ok "order record inserted"
               (newSpan (contextSpanContext w (r_ctx r)) h "db.insert_order"));
             endSpan (setStatus codes.Error msg (setStatus codes.Error msg
               (addEvent (exceptionEvent err)
                  (addEvent (logEvent "ERROR" msg (errorAttrs "payment" err))
                     (newSpan parent (S h) "payment.process")))))])
         (<[statusFailure := counterTotal statusFailure w + 1]> (ordersProcessedCounter w))
         con lf (JSONLogger w)
         (calls w ++
            [CallIntN 50 (draw w 0 50); CallSleep (n0 + 30);
             CallIntN 10 0; CallIntN 2 (draw w 2 2);
             CallStart (r_ctx r) "db.insert_order" h;
             CallIntN 100 (draw w 3 100); CallSleep (n + 50);
             CallSetStatus (sdkSpan h) codes.Ok "order record inserted";
             CallEnd (sdkSpan h);
             CallStart (r_ctx r) "payment.process" (S h);
             CallLoggerLog payCtx "ERROR" msg (errorAttrs "payment" err);
             CallStructuredWrite payCtx "ERROR" msg (errorAttrs "payment" err);
             CallCounterAdd payCtx 1 statusFailure;
             CallRecordError (sdkSpan (S h)) err;
             CallSetStatus (sdkSpan (S h)) codes.Error msg;
             CallSetStatus (sdkSpan (S h)) codes.Error msg;
             CallEnd (sdkSpan (S h));
             CallHttpError "Internal Server Error" 500])).
Proof.
  destruct w as [src pos clk sps cnt con lf jl cs]; destruct r as [ctx].
  unfold draw, contextSpanContext, eval, counterTotal. cbn -[N.modulo]. intros Hb Hc.
  unfold CreateOrderHandler. run_cbn. rewrite Hb. run_cbn.
  destruct (Z.of_N (src (S (S pos)) mod 2) =? 0) eqn:Hz; [apply Z.eqb_eq in Hz; lia|].
  unfold handlePaymentError, handleRequestError.
  run.
  run_finish.
Qed.


Lemma CreateOrderHandler_success w rw r :
  draw w 1 10 <> 0%N ->
  let h := length (spans w) in
  let ctx := r_ctx r in
  let n0 := Z.of_N (draw w 0 50) in
  let n1 := Z.of_N (draw w 2 100) in
  let n2 := Z.of_N (draw w 3 80) in
  let orderID := Z.of_N (draw w 4 1000) in
  let body := BodyOrder (mkOrderResponse "success" "Order created successfully") in
  exists ss con lf,
    CreateOrderHandler rw r w =
      ((rw_Write (rw_HeaderSet rw "Content-Type" "application/json") body).1,
       mkWorld (rand_src w) (5 + rand_pos w)
         (clock w + (n0 + 30) + (n1 + 50) + (n2 + 40)) ss
         (<[statusSuccess := counterTotal statusSuccess w + 1]> (ordersProcessedCounter w))
         con lf (JSONLogger w)
         (calls w ++
            [CallIntN 50 (draw w 0 50); CallSleep (n0 + 30);
             CallIntN 10 (draw w 1 10);
             CallStart ctx "db.insert_order" h;
             CallIntN 100 (draw w 2 100); CallSleep (n1 + 50);
             CallSetStatus (sdkSpan h) codes.Ok "order record inserted";
             CallEnd (sdkSpan h);
             CallStart ctx "payment.process" (S h);
             CallIntN 80 (draw w 3 80); CallSleep (n2 + 40);
             CallSetStatus (sdkSpan (S h)) codes.Ok "payment processed successfully";
             CallEnd (sdkSpan (S h));
             CallCounterAdd ctx 1 statusSuccess;
             CallIntN 1000 (draw w 4 1000);
             CallSetStatus (ctx_span ctx) codes.Ok "order created successfully";
             CallLoggerLog ctx "INFO" "Order created successfully"
               [attribute.Int "order.id" orderID];
             CallStructuredWrite ctx "INFO" "Order created successfully"
               [attribute.Int "order.id" orderID];
             CallHeaderSet "Content-Type" "application/json";
             CallEncode body]
            ++ (if rw_broken rw then
                  [CallLoggerLog ctx "ERROR" "Error encoding response"
                     [attribute.String "error.reason" "write: broken pipe"];
                   CallStructuredWrite ctx "ERROR" "Error encoding response"
                     [attribute.String "error.reason" "write: broken pipe"]]
                else []))).
Proof.
  destruct w as [src pos clk sps cnt con lf jl cs]; destruct r as [ctx];
    destruct rw as [hd st bd br].
  unfold draw, counterTotal. cbn -[N.modulo]. intros Hb.
  unfold CreateOrderHandler. run_cbn.
  destruct (Z.of_N (src (S pos) mod 10) =? 0) eqn:Hz; [apply Z.eqb_eq in Hz; lia|].
  unfold trace_SpanFromContext.
  run.
  destruct br, st; run_writer; run; run_finish.
Qed.

Lemma CheckInventoryHandler_run w rw r :
  let d := Z.of_N (draw w 0 601) + 200 in
  let body :=
    BodyInventory (mkInventoryResponse "success" "Inventory checked successfully" d) in
  exists ss con lf,
    CheckInventoryHandler rw r w =
      ((rw_Write (rw_HeaderSet rw "Content-Type" "application/json") body).1,
       mkWorld (rand_src w) (S (rand_pos w)) (clock w + d) ss
         (ordersProcessedCounter w) con lf (JSONLogger w)
         (calls w ++
            [CallIntN 601 (draw w 0 601); CallSleep d;
             CallLoggerLog (r_ctx r) "INFO" "Inventory checked successfully"
               [attribute.Int "inventory.check.delay_ms" d];
             CallStructuredWrite (r_ctx r) "INFO" "Inventory checked successfully"
               [attribute.Int "inventory.check.delay_ms" d];
             CallHeaderSet "Content-Type" "application/json";
             CallEncode body]
            ++ (if rw_broken rw then
                  [CallLoggerLog (r_ctx r) "ERROR" "Error encoding inventory response"
                     [attribute.String "error.reason" "write: broken pipe"];
                   CallStructuredWrite (r_ctx r) "ERROR" "Error encoding inventory response"
                     [attribute.String "error.reason" "write: broken pipe"]]
                else []))).
Proof.
  destruct w as [src pos clk sps cnt con lf jl cs]; destruct rw as [hd st bd br];
    destruct r as [ctx].
  unfold draw, CheckInventoryHandler. run.
  destruct br, st; run_writer; run; run_finish.
Qed.

Lemma requestCalls_app {A} (m : M A) (w : World) (cs : list Call) :
  calls (exec m w) = calls w ++ cs -> requestCalls m w = cs.
Proof. intros E. unfold requestCalls. rewrite E. apply drop_app_length. Qed.

Lemma draw_lt (w : World) (k : nat) (n : N) : (n <> 0)%N -> (draw w k n < n)%N.
Proof. intros Hn. unfold draw. apply N.mod_lt. exact Hn. Qed.

Lemma exec_bind {A B} (m : M A) (k : A -> M B) (w : World) :
  exec (bind m k) w = exec (k (eval m w)) (exec m w).
Proof. unfold exec, eval, bind. destruct (m w). reflexivity. Qed.

Lemma counterSum_insert (o : Outcome) (w w' : World) :
  ordersProcessedCounter w' =
    <[labelOf o := counterTotal (labelOf o) w + 1]> (ordersProcessedCounter w) ->
  counterTotal (labelOf o) w' = counterTotal (labelOf o) w + 1 /\
  counterSum w' = counterSum w + 1.
Proof.
  intros E. unfold counterSum, counterTotal in *. rewrite E.
  destruct o; cbn [labelOf]; unfold statusSuccess, statusFailure;
    rewrite ?lookup_insert_eq, ?lookup_insert_ne by discriminate; cbn; lia.
Qed.

(** What one order request does, in terms of the branch it takes. *)
Lemma CreateOrderHandler_summary w rw r :
  let cs := requestCalls (CreateOrderHandler rw r) w in
  let w' := exec (CreateOrderHandler rw r) w in
  outcomeOf cs = Some (pathOf w) /\
  counterAdds cs = [(1, labelOf (pathOf w))] /\
  List.forallb (fun c => negb (isStageWork c)) (afterIncrement cs) = true /\
  ordersProcessedCounter w' =
    <[labelOf (pathOf w) := counterTotal (labelOf (pathOf w)) w + 1]>
      (ordersProcessedCounter w).
Proof.
  intros cs w'. subst cs w'. unfold pathOf.
  destruct (N.eqb_spec (draw w 1 10) 0) as [Hb|Hb].
  - destruct (N.eqb_spec (draw w 2 2) 0) as [Hc|Hc].
    + destruct (CreateOrderHandler_db_failure w rw r Hb Hc) as (con & lf & E).
      rewrite (requestCalls_app _ _ _ (f_equal (fun p => calls p.2) E)).
      unfold exec. rewrite E. repeat split; reflexivity.
    + destruct (CreateOrderHandler_payment_failure w rw r Hb Hc) as (p & con & lf & E).
      rewrite (requestCalls_app _ _ _ (f_equal (fun p => calls p.2) E)).
      unfold exec. rewrite E. repeat split; reflexivity.
  - destruct (CreateOrderHandler_success w rw r Hb) as (ss & con & lf & E).
    rewrite (requestCalls_app _ _ _ (f_equal (fun p => calls p.2) E)).
    unfold exec. rewrite E. destruct (rw_broken rw); repeat split; reflexivity.
Qed.

Lemma CheckInventoryHandler_counter w rw r :
  counterAdds (requestCalls (CheckInventoryHandler rw r) w) = [] /\
  ordersProcessedCounter (exec (CheckInventoryHandler rw r) w) = ordersProcessedCounter w.
Proof.
  destruct (CheckInventoryHandler_run w rw r) as (ss & con & lf & E).
  rewrite (requestCalls_app _ _ _ (f_equal (fun p => calls p.2) E)).
  unfold exec. rewrite E. destruct (rw_broken rw); split; reflexivity.
Qed.

(* ===================================================================== *)
(** ** The middleware around a handler *)
(* ===================================================================== *)

Lemma setStatus_fields c description sp :
  sp_name (setStatus c description sp) = sp_name sp /\
  sp_context (setStatus c description sp) = sp_context sp /\
  sp_parent (setStatus c description sp) = sp_parent sp /\
  sp_events (setStatus c description sp) = sp_events sp /\
  sp_ended (setStatus c description sp) = sp_ended sp.
Proof. unfold setStatus. destruct (_ <? _)%nat; repeat split; reflexivity. Qed.

Lemma setStatus_ended c description sp :
  sp_ended (setStatus c description sp) = sp_ended sp.
Proof. apply setStatus_fields. Qed.

Lemma updateStore_middle f ss sp more :
  sp_ended sp = false ->
  updateStore (sdkSpan (length ss)) f (ss ++ sp :: more) = ss ++ f sp :: more.
Proof.
  intros He. unfold updateStore. rewrite list_lookup_middle by reflexivity.
  rewrite He. rewrite insert_app_r_alt by reflexivity.
  rewrite Nat.sub_diag. reflexivity.
Qed.

(** What [otelhttp.NewHandler] adds around a handler: the request span is
    appended to the store before the handler runs, and its status and its
    end are the last two calls. *)
Lemma NewHandler_run handler operation rw r w :
  let h := length (spans w) in
  let root := newSpan (spanContextIn (spans w) (ctx_span (r_ctx r))) h operation in
  let w1 := mkWorld (rand_src w) (rand_pos w) (clock w) (spans w ++ [root])
              (ordersProcessedCounter w) (console w) (logfile w) (JSONLogger w)
              (calls w ++ [CallStart (r_ctx r) operation h]) in
  let res := handler (otelhttp.wrap rw) (mkRequest (mkCtx (sdkSpan h))) w1 in
  let st := otelhttp.ServerStatus (otelhttp.statusCode res.1) in
  otelhttp.NewHandler handler operation rw r w =
    (otelhttp.unwrap rw res.1,
     mkWorld (rand_src res.2) (rand_pos res.2) (clock res.2)
       (updateStore (sdkSpan h) endSpan
          (updateStore (sdkSpan h) (setStatus st.1 st.2) (spans res.2)))
       (ordersProcessedCounter res.2) (console res.2) (logfile res.2)
       (JSONLogger res.2)
       (calls res.2 ++ [CallSetStatus (sdkSpan h) st.1 st.2; CallEnd (sdkSpan h)])).
Proof.
  cbv zeta.
  unfold otelhttp.NewHandler, tracer_Start, span_SpanContext, trace_SpanFromContext,
    trace_ContextWithSpan, r_Context, r_WithContext, bind, exec, record, set_spans.
  cbn [fst snd rand_src rand_pos clock spans ordersProcessedCounter console logfile
       JSONLogger calls].
  destruct (handler _ _ _) as [rww w2]. cbn [fst snd].
  destruct (otelhttp.ServerStatus _) as [code description]. cbn [fst snd].
  unfold span_SetStatus, span_End, updateSpan, bind, record, set_spans, ret.
  cbn [fst snd rand_src rand_pos clock spans ordersProcessedCounter console logfile
       JSONLogger calls].
  rewrite <- app_assoc. reflexivity.
Qed.

Lemma dispatch_counterSum route rw r w :
  counterSum (exec (dispatch route rw r) w) =
    counterSum w + (if isCreateOrder (route, rw, r) then 1 else 0).
Proof.
  destruct route; cbn [fst snd dispatch isCreateOrder]; unfold exec;
    rewrite NewHandler_run; cbn [snd].
  - match goal with |- context [CreateOrderHandler ?a ?b ?c] =>
      destruct (CreateOrderHandler_summary c a b) as (_ & _ & _ & E);
      apply (counterSum_insert (pathOf c)) in E; destruct E as [_ E]
    end.
    exact E.
  - match goal with |- context [CheckInventoryHandler ?a ?b ?c] =>
      destruct (CheckInventoryHandler_counter c a b) as [_ E]
    end.
    unfold counterSum, counterTotal in *. cbn [ordersProcessedCounter].
    unfold exec in E. rewrite E. cbn [ordersProcessedCounter]. lia.
Qed.

Lemma serve_counterSum reqs w :
  counterSum (exec (serve reqs) w) =
    counterSum w + Z.of_nat (length (List.filter isCreateOrder reqs)).
Proof.
  revert w. induction reqs as [|q reqs IH]; intros w.
  - cbn. lia.
  - destruct q as [[route rw] r]. cbn [serve].
    rewrite exec_bind, exec_bind. cbn [exec ret snd].
    change (exec (ret (eval (dispatch route rw r) w :: eval (serve reqs) (exec (dispatch route rw r) w)))
              (exec (serve reqs) (exec (dispatch route rw r) w)))
      with (exec (serve reqs) (exec (dispatch route rw r) w)).
    rewrite IH. rewrite dispatch_counterSum.
    cbn [List.filter]. destruct (isCreateOrder (route, rw, r)); cbn [length]; lia.
Qed.

Lemma filter_orderRequests qs :
  List.filter isCreateOrder (orderRequests qs) = orderRequests qs.
Proof.
  induction qs as [|q qs IH]; [reflexivity|]. cbn. unfold orderRequests in IH.
  rewrite IH. reflexivity.
Qed.

(** C1. Every createOrder request ends in exactly one of the outcomes
    success, db-failure and payment-failure; it increments the counter
    exactly once, by one, under the label success on the success path and
    failure on either failure path; and after N createOrder requests served
    from a counter at zero the success and failure totals sum to N. *)
Theorem C1_one_outcome_one_increment :
  (forall w rw r,
     let cs := requestCalls (CreateOrderHandler rw r) w in
     let w' := exec (CreateOrderHandler rw r) w in
     exists o,
       outcomeOf cs = Some o /\
       counterAdds cs = [(1, match o with Success => "success" | _ => "failure" end)] /\
       counterTotal (labelOf o) w' = counterTotal (labelOf o) w + 1 /\
       counterSum w' = counterSum w + 1) /\
  (forall qs w,
     counterSum (exec (serve (orderRequests qs)) (set_counter ∅ w)) =
       Z.of_nat (length qs)).
Proof.
  split.
  - intros w rw r cs w'. subst cs w'.
    destruct (CreateOrderHandler_summary w rw r) as (Ho & Ha & _ & E).
    exists (pathOf w). split; [exact Ho|]. split.
    + rewrite Ha. destruct (pathOf w); reflexivity.
    + apply (counterSum_insert _ _ _ E).
  - intros qs w. rewrite serve_counterSum, filter_orderRequests.
    unfold orderRequests. rewrite length_map.
    unfold counterSum, counterTotal. cbn. rewrite !lookup_empty. cbn. lia.
Qed.

(** C9. The inventory handler never touches the orders counter; each
    increment belongs to an order request, where it is followed by no
    further stage work; so the totals count order requests only. *)
Theorem C9_only_createOrder_counts :
  (forall w rw r,
     counterAdds (requestCalls (CheckInventoryHandler rw r) w) = [] /\
     ordersProcessedCounter (exec (CheckInventoryHandler rw r) w) =
       ordersProcessedCounter w) /\
  (forall w rw r,
     let cs := requestCalls (CreateOrderHandler rw r) w in
     length (counterAdds cs) = 1%nat /\
     List.forallb (fun c => negb (isStageWork c)) (afterIncrement cs) = true) /\
  (forall reqs w,
     counterSum (exec (serve reqs) w) =
       counterSum w + Z.of_nat (length (List.filter isCreateOrder reqs))).
Proof.
  split; [|split].
  - intros w rw r. apply CheckInventoryHandler_counter.
  - intros w rw r cs.
    destruct (CreateOrderHandler_summary w rw r) as (_ & Ha & Hs & _).
    subst cs. rewrite Ha. split; [reflexivity | exact Hs].
  - apply serve_counterSum.
Qed.

Lemma draw_withDraw_eq (k : nat) (v n : N) (w : World) :
  draw (withDraw k v w) k n = (v mod n)%N.
Proof. unfold draw, withDraw. cbn. rewrite Nat.eqb_refl. reflexivity. Qed.

Lemma draw_withDraw_ne (k k' : nat) (v n : N) (w : World) :
  k' <> k -> draw (withDraw k v w) k' n = draw w k' n.
Proof.
  intros Hk. unfold draw, withDraw. cbn.
  destruct (Nat.eqb_spec (k' + rand_pos w) (k + rand_pos w)); [lia | reflexivity].
Qed.

Lemma endsIn_pathOf (o : Outcome) w rw r :
  endsIn o (requestCalls (CreateOrderHandler rw r) w) = Outcome_eqb o (pathOf w).
Proof.
  unfold endsIn. destruct (CreateOrderHandler_summary w rw r) as (Ho & _).
  rewrite Ho. reflexivity.
Qed.

Lemma CreateOrderHandler_prefix w rw r :
  exists rest,
    requestCalls (CreateOrderHandler rw r) w =
      [CallIntN 50 (draw w 0 50); CallSleep (Z.of_N (draw w 0 50) + 30);
       CallIntN 10 (draw w 1 10)] ++
      (if (draw w 1 10 =? 0)%N then [CallIntN 2 (draw w 2 2)] else []) ++ rest /\
    List.filter (isIntN 10) rest = [] /\ List.filter (isIntN 2) rest = [].
Proof.
  destruct (N.eqb_spec (draw w 1 10) 0) as [Hb|Hb].
  - destruct (N.eqb_spec (draw w 2 2) 0) as [Hc|Hc].
    + destruct (CreateOrderHandler_db_failure w rw r Hb Hc) as (con & lf & E).
      rewrite (requestCalls_app _ _ _ (f_equal (fun p => calls p.2) E)).
      rewrite Hb, Hc. eexists. split; [reflexivity|]. split; reflexivity.
    + destruct (CreateOrderHandler_payment_failure w rw r Hb Hc) as (p & con & lf & E).
      rewrite (requestCalls_app _ _ _ (f_equal (fun p => calls p.2) E)).
      rewrite Hb. eexists. split; [reflexivity|]. split; reflexivity.
  - destruct (CreateOrderHandler_success w rw r Hb) as (ss & con & lf & E).
    rewrite (requestCalls_app _ _ _ (f_equal (fun p => calls p.2) E)).
    eexists. split; [reflexivity|]. destruct (rw_broken rw); split; reflexivity.
Qed.

(** C2. After the validation delay an order request draws one value
    among ten buckets; bucket 0 alone leads to the failure path and the
    other nine to the success path; the failure path then draws a second,
    separate two-valued coin, whose face 0 selects the database failure and
    whose face 1 selects the payment failure. *)
Theorem C2_bucket_then_coin (w : World) (rw : ResponseWriter) (r : Request) :
  let run := fun w0 => requestCalls (CreateOrderHandler rw r) w0 in
  let cs := run w in
  let bucket := draw w 1 10 in
  let coin := draw w 2 2 in
  take 3 cs = [CallIntN 50 (draw w 0 50); CallSleep (Z.of_N (draw w 0 50) + 30);
               CallIntN 10 bucket] /\
  (bucket < 10)%N /\
  length (List.filter (isIntN 10) cs) = 1%nat /\
  (outcomeOf cs = Some Success <-> bucket <> 0%N) /\
  (bucket = 0%N ->
     cs !! 3%nat = Some (CallIntN 2 coin) /\ (coin < 2)%N /\
     length (List.filter (isIntN 2) cs) = 1%nat /\
     (outcomeOf cs = Some DBFailure <-> coin = 0%N) /\
     (outcomeOf cs = Some PaymentFailure <-> coin = 1%N)) /\
  (bucket <> 0%N -> List.filter (isIntN 2) cs = []) /\
  length (List.filter (fun b => endsIn Success (run (withDraw 1 b w))) buckets) = 9%nat /\
  length (List.filter (fun b => negb (endsIn Success (run (withDraw 1 b w)))) buckets) = 1%nat /\
  length (List.filter (fun c => endsIn DBFailure (run (withDraw 2 c (withDraw 1 0 w))))
            coinFaces) = 1%nat /\
  length (List.filter (fun c => endsIn PaymentFailure (run (withDraw 2 c (withDraw 1 0 w))))
            coinFaces) = 1%nat.
Proof.
  intros run cs bucket coin. subst run cs bucket coin. cbv beta.
  destruct (CreateOrderHandler_summary w rw r) as (Ho & _).
  destruct (CreateOrderHandler_prefix w rw r) as (rest & Hcs & H10 & H2).
  assert (Hb10 : (draw w 1 10 < 10)%N) by (apply draw_lt; lia).
  assert (Hc2 : (draw w 2 2 < 2)%N) by (apply draw_lt; lia).
  rewrite Ho, Hcs. unfold pathOf.
  split; [reflexivity|]. split; [exact Hb10|].
  split.
  { cbn [app List.filter isIntN]. rewrite N.eqb_refl.
    destruct (draw w 1 10 =? 0)%N; cbn [app List.filter isIntN];
      rewrite ?List.filter_app, H10; reflexivity. }
  split.
  { destruct (N.eqb_spec (draw w 1 10) 0) as [Hb|Hb].
    - destruct (draw w 2 2 =? 0)%N; split; [discriminate|tauto|discriminate|tauto].
    - tauto. }
  split.
  { intros Hb. rewrite Hb. cbn [N.eqb app]. split; [reflexivity|].
    split; [exact Hc2|]. split.
    - cbn [app List.filter isIntN N.eqb Pos.eqb]. rewrite H2. reflexivity.
    - destruct (N.eqb_spec (draw w 2 2) 0) as [Hc|Hc].
      + rewrite Hc. split; split; try reflexivity; discriminate.
      + split; split; try discriminate; try tauto; intros _; try reflexivity. lia. }
  split.
  { intros Hb. destruct (N.eqb_spec (draw w 1 10) 0); [tauto|].
    cbn [app List.filter isIntN N.eqb Pos.eqb]. exact H2. }
  unfold buckets, coinFaces. cbn [List.filter].
  rewrite !endsIn_pathOf. unfold pathOf.
  rewrite !draw_withDraw_eq.
  rewrite !(draw_withDraw_ne 2 1) by lia. rewrite !draw_withDraw_eq.
  rewrite !(draw_withDraw_ne 1 2) by lia.
  cbn. destruct (draw w 2 2 =? 0)%N; repeat split; reflexivity.
Qed.

(** The entropy words 5, 0, 1 give bucket 0 and coin 1: the payment failure. *)
Lemma C2_bucket_then_coin_witness :
  let w := exampleWorld [5; 0; 1; 7]%N openLogger in
  draw w 1 10 = 0%N /\
  requestCalls (CreateOrderHandler exampleWriter exampleRequest) w !! 3%nat
    = Some (CallIntN 2 1) /\
  outcomeOf (requestCalls (CreateOrderHandler exampleWriter exampleRequest) w)
    = Some PaymentFailure.
Proof.
  intros w.
  pose proof (C2_bucket_then_coin w exampleWriter exampleRequest) as H.
  cbv zeta in H. destruct H as (_ & _ & _ & _ & H & _).
  destruct (H eq_refl) as (H3 & _ & _ & _ & Hp).
  split; [reflexivity|]. split; [exact H3|]. apply Hp. reflexivity.
Defined.

Lemma lookup_app_Some_l {A} (l k : list A) (i : nat) (x : A) :
  l !! i = Some x -> (l ++ k) !! i = Some x.
Proof. intros H. apply lookup_app_l_Some. exact H. Qed.

(* ===================================================================== *)
(** ** The failure paths of a routed order request *)
(* ===================================================================== *)

Lemma statusCode_errorResponse rw msg :
  otelhttp.statusCode (errorResponse (otelhttp.wrap rw) msg 500) = 500.
Proof. destruct rw as [hd st bd br]. destruct br; reflexivity. Qed.

Lemma unwrap_fresh rw rww :
  rw_status rw = None -> otelhttp.unwrap rw rww = rww.
Proof. intros E. unfold otelhttp.unwrap. rewrite E. destruct rww; reflexivity. Qed.

Lemma wrap_fresh rw : rw_status rw = None -> otelhttp.wrap rw = rw.
Proof. destruct rw as [hd st bd br]. cbn. intros ->. reflexivity. Qed.

Lemma contextSpanContext_snoc w ss sp :
  spans w = ss ++ [sp] ->
  contextSpanContext w (mkCtx (sdkSpan (length ss))) = sp_context sp.
Proof.
  intros E. unfold contextSpanContext, eval, span_SpanContext, spanContextIn,
    lookupSpan, trace_SpanFromContext. cbn. rewrite E, lookup_snoc. reflexivity.
Qed.

(** The payment-failure path of the handler, with the parent of the
    payment span spelt out. *)
Lemma CreateOrderHandler_payment_failure_spans w rw r :
  draw w 1 10 = 0%N -> draw w 2 2 <> 0%N ->
  let h := length (spans w) in
  let err := "simulated payment provider error" in
  let msg := "payment processing failed" in
  let db := endSpan (setStatus codes.Ok "order record inserted"
              (newSpan (contextSpanContext w (r_ctx r)) h "db.insert_order")) in
  spans (exec (CreateOrderHandler rw r) w) =
    spans w ++
      [db;
       endSpan (setStatus codes.Error msg (setStatus codes.Error msg
         (addEvent (exceptionEvent err)
            (addEvent (logEvent "ERROR" msg (errorAttrs "payment" err))
               (newSpan (spanContextIn (spans w ++ [db]) (ctx_span (r_ctx r)))
                  (S h) "payment.process")))))].
Proof.
  destruct w as [src pos clk sps cnt con lf jl cs]; destruct r as [ctx].
  unfold draw, contextSpanContext, eval, counterTotal, exec. cbn -[N.modulo]. intros Hb Hc.
  unfold CreateOrderHandler. run_cbn. rewrite Hb. run_cbn.
  destruct (Z.of_N (src (S (S pos)) mod 2) =? 0) eqn:Hz; [apply Z.eqb_eq in Hz; lia|].
  unfold handlePaymentError, handleRequestError.
  run.
  run_finish.
Qed.

(** The database-failure path of a routed order request. *)
Lemma dispatch_db_failure w rw r :
  draw w 1 10 = 0%N -> draw w 2 2 = 0%N ->
  let h := length (spans w) in
  let rootCtx := mkCtx (sdkSpan h) in
  let dbCtx := mkCtx (sdkSpan (S h)) in
  let root := newSpan (spanContextIn (spans w) (ctx_span (r_ctx r))) h "POST /createOrder" in
  let n0 := Z.of_N (draw w 0 50) in
  let n := Z.of_N (draw w 3 40) in
  let err := "simulated database constraint violation" in
  let msg := "database operation failed" in
  exists con lf,
    dispatch createOrder rw r w =
      (otelhttp.unwrap rw (errorResponse (otelhttp.wrap rw) "Internal Server Error" 500),
       mkWorld (rand_src w) (4 + rand_pos w) (clock w + (n0 + 30) + (n + 10))
         (spans w ++
            [endSpan (setStatus codes.Error "" root);
             endSpan (setStatus codes.Error msg (setStatus codes.Error msg
               (addEvent (exceptionEvent err)
                  (addEvent (logEvent "ERROR" msg (errorAttrs "database" err))
                     (newSpan (sp_context root) (S h) "db.insert_order")))))])
         (<[statusFailure := counterTotal statusFailure w + 1]> (ordersProcessedCounter w))
         con lf (JSONLogger w)
         (calls w ++
            [CallStart (r_ctx r) "POST /createOrder" h;
             CallIntN 50 (draw w 0 50); CallSleep (n0 + 30);
             CallIntN 10 0; CallIntN 2 0;
             CallStart rootCtx "db.insert_order" (S h);
             CallIntN 40 (draw w 3 40); CallSleep (n + 10);
             CallLoggerLog dbCtx "ERROR" msg (errorAttrs "database" err);
             CallStructuredWrite dbCtx "ERROR" msg (errorAttrs "database" err);
             CallCounterAdd dbCtx 1 statusFailure;
             CallRecordError (sdkSpan (S h)) err;
             CallSetStatus (sdkSpan (S h)) codes.Error msg;
             CallSetStatus (sdkSpan (S h)) codes.Error msg;
             CallEnd (sdkSpan (S h));
             CallHttpError "Internal Server Error" 500;
             CallSetStatus (sdkSpan h) codes.Error "";
             CallEnd (sdkSpan h)])).
Proof.
  intros Hb Hc. cbv zeta. cbn [dispatch]. rewrite NewHandler_run. cbv zeta.
  set (root := newSpan _ (length (spans w)) "POST /createOrder").
  set (w1 := mkWorld _ _ _ (spans w ++ [root]) _ _ _ _ _).
  destruct (CreateOrderHandler_db_failure w1 (otelhttp.wrap rw)
              (mkRequest (mkCtx (sdkSpan (length (spans w))))) Hb Hc)
    as (con & lf & E).
  rewrite E. clear E. cbn [fst snd rand_src rand_pos clock spans ordersProcessedCounter
    console logfile JSONLogger calls r_ctx].
  rewrite statusCode_errorResponse.
  change (otelhttp.ServerStatus 500) with (codes.Error, "").
  cbn [fst snd].
  rewrite (contextSpanContext_snoc w1 (spans w) root eq_refl).
  subst w1. cbn [spans calls rand_src rand_pos clock ordersProcessedCounter JSONLogger].
  rewrite !length_app. cbn [length]. rewrite !Nat.add_1_r.
  rewrite <- !app_assoc. cbn [app].
  rewrite updateStore_middle by reflexivity.
  rewrite updateStore_middle by reflexivity.
  exists con, lf. reflexivity.
Qed.

(** The payment-failure path of a routed order request. *)
Lemma dispatch_payment_failure w rw r :
  draw w 1 10 = 0%N -> draw w 2 2 <> 0%N ->
  let h := length (spans w) in
  let rootCtx := mkCtx (sdkSpan h) in
  let payCtx := mkCtx (sdkSpan (S (S h))) in
  let root := newSpan (spanContextIn (spans w) (ctx_span (r_ctx r))) h "POST /createOrder" in
  let n0 := Z.of_N (draw w 0 50) in
  let n := Z.of_N (draw w 3 100) in
  let err := "simulated payment provider error" in
  let msg := "payment processing failed" in
  exists con lf,
    dispatch createOrder rw r w =
      (otelhttp.unwrap rw (errorResponse (otelhttp.wrap rw) "Internal Server Error" 500),
       mkWorld (rand_src w) (4 + rand_pos w) (clock w + (n0 + 30) + (n + 50))
         (spans w ++
            [endSpan (setStatus codes.Error "" root);
             endSpan (setStatus codes.Ok "order record inserted"
               (newSpan (sp_context root) (S h) "db.insert_order"));
             endSpan (setStatus codes.Error msg (setStatus codes.Error msg
               (addEvent (exceptionEvent err)
                  (addEvent (logEvent "ERROR" msg (errorAttrs "payment" err))
                     (newSpan (sp_context root) (S (S h)) "payment.process")))))])
         (<[statusFailure := counterTotal statusFailure w + 1]> (ordersProcessedCounter w))
         con lf (JSONLogger w)
         (calls w ++
            [CallStart (r_ctx r) "POST /createOrder" h;
             CallIntN 50 (draw w 0 50); CallSleep (n0 + 30);
             CallIntN 10 0; CallIntN 2 (draw w 2 2);
             CallStart rootCtx "db.insert_order" (S h);
             CallIntN 100 (draw w 3 100); CallSleep (n + 50);
             CallSetStatus (sdkSpan (S h)) codes.Ok "order record inserted";
             CallEnd (sdkSpan (S h));
             CallStart rootCtx "payment.process" (S (S h));
             CallLoggerLog payCtx "ERROR" msg (errorAttrs "payment" err);
             CallStructuredWrite payCtx "ERROR" msg (errorAttrs "payment" err);
             CallCounterAdd payCtx 1 statusFailure;
             CallRecordError (sdkSpan (S (S h))) err;
             CallSetStatus (sdkSpan (S (S h))) codes.Error msg;
             CallSetStatus (sdkSpan (S (S h))) codes.Error msg;
             CallEnd (sdkSpan (S (S h)));
             CallHttpError "Internal Server Error" 500;
             CallSetStatus (sdkSpan h) codes.Error "";
             CallEnd (sdkSpan h)])).
Proof.
  intros Hb Hc. cbv zeta. cbn [dispatch]. rewrite NewHandler_run. cbv zeta.
  set (root := newSpan _ (length (spans w)) "POST /createOrder").
  set (w1 := mkWorld _ _ _ (spans w ++ [root]) _ _ _ _ _).
  set (r1 := mkRequest (mkCtx (sdkSpan (length (spans w))))).
  pose proof (CreateOrderHandler_payment_failure_spans w1 (otelhttp.wrap rw) r1 Hb Hc)
    as Hs. cbv zeta in Hs.
  destruct (CreateOrderHandler_payment_failure w1 (otelhttp.wrap rw) r1 Hb Hc)
    as (p & con & lf & E).
  unfold exec in Hs. rewrite E in Hs. cbn [snd spans] in Hs.
  apply app_inv_head in Hs. injection Hs as _ Hs.
  rewrite E. clear E. cbn [fst snd rand_src rand_pos clock spans ordersProcessedCounter
    console logfile JSONLogger calls r_ctx].
  rewrite Hs. clear Hs p.
  rewrite statusCode_errorResponse.
  change (otelhttp.ServerStatus 500) with (codes.Error, "").
  cbn [fst snd].
  unfold contextSpanContext, eval, span_SpanContext, trace_SpanFromContext.
  subst w1 r1. cbn [fst spans calls rand_src rand_pos clock ordersProcessedCounter
    JSONLogger r_ctx ctx_span].
  assert (Hp : forall more, spanContextIn (spans w ++ root :: more)
                              (sdkSpan (length (spans w))) = sp_context root).
  { intros more. unfold spanContextIn, lookupSpan.
    rewrite list_lookup_middle by reflexivity. reflexivity. }
  rewrite <- !app_assoc. cbn [app]. rewrite !Hp. clear Hp.
  rewrite !length_app. cbn [length]. rewrite !Nat.add_1_r.
  rewrite updateStore_middle by reflexivity.
  rewrite updateStore_middle by reflexivity.
  exists con, lf. reflexivity.
Qed.

(** C3. The database-failure path of a createOrder request as routed:
    under the request span "POST /createOrder" the handler opens the
    "db.insert_order" span, sleeps 10 to 49 ms, logs the error record with
    stage "database" at Error level, increments the failure counter once,
    records the error "simulated database constraint violation" on that
    span, sets that span's status to Error, ends it and answers with the
    generic 500 text, which carries none of the error's detail; the
    request span is then set to Error, on the 500, and ended.  (The
    handler's own last [SetStatus] reaches the "db.insert_order" span a
    second time, through the derived context; it is the middleware that
    marks the request span.)  Spans that existed before are left as they
    were. *)
Theorem C3_db_failure_path (w : World) (rw : ResponseWriter) (r : Request) :
  draw w 1 10 = 0%N -> draw w 2 2 = 0%N ->
  let w' := exec (dispatch createOrder rw r) w in
  let rw' := eval (dispatch createOrder rw r) w in
  let cs := requestCalls (dispatch createOrder rw r) w in
  let h := length (spans w) in
  let rootCtx := mkCtx (sdkSpan h) in
  let dbCtx := mkCtx (sdkSpan (S h)) in
  let d := Z.of_N (draw w 3 40) + 10 in
  let err := "simulated database constraint violation" in
  let msg := "database operation failed" in
  let attrs := [attribute.String "error.stage" "database";
                attribute.String "error.reason" err] in
  (exists root dbSpan,
     spans w' = spans w ++ [root; dbSpan] /\
     sp_name root = "POST /createOrder" /\ sp_status root = codes.Error /\
     sp_events root = [] /\ sp_ended root = true /\
     sp_name dbSpan = "db.insert_order" /\ sp_parent dbSpan = sp_context root /\
     sp_status dbSpan = codes.Error /\ sp_description dbSpan = msg /\
     sp_events dbSpan = [logEvent "ERROR" msg attrs; exceptionEvent err] /\
     sp_ended dbSpan = true) /\
  10 <= d <= 49 /\
  cs = [CallStart (r_ctx r) "POST /createOrder" h;
        CallIntN 50 (draw w 0 50); CallSleep (Z.of_N (draw w 0 50) + 30);
        CallIntN 10 0; CallIntN 2 0;
        CallStart rootCtx "db.insert_order" (S h);
        CallIntN 40 (draw w 3 40); CallSleep d;
        CallLoggerLog dbCtx "ERROR" msg attrs;
        CallStructuredWrite dbCtx "ERROR" msg attrs;
        CallCounterAdd dbCtx 1 "failure";
        CallRecordError (sdkSpan (S h)) err;
        CallSetStatus (sdkSpan (S h)) codes.Error msg;
        CallSetStatus (sdkSpan (S h)) codes.Error msg;
        CallEnd (sdkSpan (S h));
        CallHttpError "Internal Server Error" 500;
        CallSetStatus (sdkSpan h) codes.Error "";
        CallEnd (sdkSpan h)] /\
  sleptDurations cs = [Z.of_N (draw w 0 50) + 30; d] /\
  counterAdds cs = [(1, "failure")] /\
  counterTotal "failure" w' = counterTotal "failure" w + 1 /\
  counterTotal "success" w' = counterTotal "success" w /\
  (rw_status rw = None -> rw' = errorResponse rw "Internal Server Error" 500) /\
  (rw_status rw = None -> rw_status rw' = Some 500) /\
  (rw_broken rw = false ->
     rw_body rw' = rw_body rw ++ [BodyText ("Internal Server Error" +:+ newline)]) /\
  (forall i sp, spans w !! i = Some sp -> spans w' !! i = Some sp).
Proof.
  intros Hb Hc w' rw' cs h rootCtx dbCtx d err msg attrs. subst w' rw' cs.
  destruct (dispatch_db_failure w rw r Hb Hc) as (con & lf & E).
  rewrite (requestCalls_app _ _ _ (f_equal (fun p => calls p.2) E)).
  unfold exec, eval. rewrite E. cbn [fst snd spans].
  assert (Hd : (draw w 3 40 < 40)%N) by (apply draw_lt; lia).
  split; [do 2 eexists; split; [reflexivity|]; repeat split; reflexivity|].
  split; [subst d; lia|].
  split; [reflexivity|]. split; [reflexivity|]. split; [reflexivity|].
  split.
  { unfold counterTotal, statusFailure. cbn [ordersProcessedCounter].
    rewrite lookup_insert_eq. reflexivity. }
  split.
  { unfold counterTotal, statusFailure. cbn [ordersProcessedCounter].
    rewrite lookup_insert_ne by discriminate. reflexivity. }
  split; [intros Hs; rewrite (wrap_fresh rw Hs); apply unwrap_fresh; exact Hs|].
  split; [intros Hs; destruct rw as [hd st bd br]; cbn in Hs; subst st;
          unfold errorResponse; cbn; destruct br; reflexivity|].
  split; [intros Hs; destruct rw as [hd st bd br]; cbn in Hs; subst br;
          unfold errorResponse; cbn; destruct st; reflexivity|].
  intros i sp Hi. apply lookup_app_Some_l. exact Hi.
Qed.

(** With every word of entropy zero a request takes the database-failure
    path; served from an idle process, its request span is the first span
    of the store and ends up Error. *)
Lemma C3_db_failure_path_witness :
  let w := idleWorld openLogger in
  let w' := exec (dispatch createOrder exampleWriter incomingRequest) w in
  draw w 1 10 = 0%N /\ draw w 2 2 = 0%N /\
  (fun sp => (sp_name sp, sp_status sp, sp_ended sp)) <$> spans w' !! 0%nat
    = Some ("POST /createOrder", codes.Error, true).
Proof.
  intros w w'.
  pose proof (C3_db_failure_path w exampleWriter incomingRequest eq_refl eq_refl) as H.
  cbv zeta in H.
  destruct H as ((root & dbSpan & Hs & Hn & Hst & _ & He & _) & _).
  split; [reflexivity|]. split; [reflexivity|].
  subst w'. rewrite Hs. cbn. rewrite Hn, Hst, He. reflexivity.
Defined.

(** C4. The payment-failure path of a createOrder request as routed:
    under the request span the "db.insert_order" span is opened, given 50
    to 149 ms, set to Ok and ended before the "payment.process" span is
    opened; the error record with stage "payment" is logged at Error
    level, the failure counter is incremented once, the error "simulated
    payment provider error" is recorded on the payment span, that span's
    status is set to Error and the span is ended, and the generic 500 text
    is sent; the request span is then set to Error, on the 500, and ended.
    (The handler's own last [SetStatus] reaches the payment span a second
    time; it is the middleware that marks the request span.)  Spans that
    existed before are left as they were. *)
Theorem C4_payment_failure_path (w : World) (rw : ResponseWriter) (r : Request) :
  draw w 1 10 = 0%N -> draw w 2 2 <> 0%N ->
  let w' := exec (dispatch createOrder rw r) w in
  let rw' := eval (dispatch createOrder rw r) w in
  let cs := requestCalls (dispatch createOrder rw r) w in
  let h := length (spans w) in
  let rootCtx := mkCtx (sdkSpan h) in
  let payCtx := mkCtx (sdkSpan (S (S h))) in
  let d := Z.of_N (draw w 3 100) + 50 in
  let err := "simulated payment provider error" in
  let msg := "payment processing failed" in
  let attrs := [attribute.String "error.stage" "payment";
                attribute.String "error.reason" err] in
  (exists root dbSpan paySpan,
     spans w' = spans w ++ [root; dbSpan; paySpan] /\
     sp_name root = "POST /createOrder" /\ sp_status root = codes.Error /\
     sp_events root = [] /\ sp_ended root = true /\
     sp_name dbSpan = "db.insert_order" /\ sp_parent dbSpan = sp_context root /\
     sp_status dbSpan = codes.Ok /\
     sp_events dbSpan = [] /\ sp_ended dbSpan = true /\
     sp_name paySpan = "payment.process" /\ sp_parent paySpan = sp_context root /\
     sp_status paySpan = codes.Error /\ sp_description paySpan = msg /\
     sp_events paySpan = [logEvent "ERROR" msg attrs; exceptionEvent err] /\
     sp_ended paySpan = true) /\
  50 <= d <= 149 /\
  cs = [CallStart (r_ctx r) "POST /createOrder" h;
        CallIntN 50 (draw w 0 50); CallSleep (Z.of_N (draw w 0 50) + 30);
        CallIntN 10 0; CallIntN 2 (draw w 2 2);
        CallStart rootCtx "db.insert_order" (S h);
        CallIntN 100 (draw w 3 100); CallSleep d;
        CallSetStatus (sdkSpan (S h)) codes.Ok "order record inserted";
        CallEnd (sdkSpan (S h));
        CallStart rootCtx "payment.process" (S (S h));
        CallLoggerLog payCtx "ERROR" msg attrs;
        CallStructuredWrite payCtx "ERROR" msg attrs;
        CallCounterAdd payCtx 1 "failure";
        CallRecordError (sdkSpan (S (S h))) err;
        CallSetStatus (sdkSpan (S (S h))) codes.Error msg;
        CallSetStatus (sdkSpan (S (S h))) codes.Error msg;
        CallEnd (sdkSpan (S (S h)));
        CallHttpError "Internal Server Error" 500;
        CallSetStatus (sdkSpan h) codes.Error "";
        CallEnd (sdkSpan h)] /\
  sleptDurations cs = [Z.of_N (draw w 0 50) + 30; d] /\
  counterAdds cs = [(1, "failure")] /\
  counterTotal "failure" w' = counterTotal "failure" w + 1 /\
  counterTotal "success" w' = counterTotal "success" w /\
  (rw_status rw = None -> rw' = errorResponse rw "Internal Server Error" 500) /\
  (rw_status rw = None -> rw_status rw' = Some 500) /\
  (rw_broken rw = false ->
     rw_body rw' = rw_body rw ++ [BodyText ("Internal Server Error" +:+ newline)]) /\
  (forall i sp, spans w !! i = Some sp -> spans w' !! i = Some sp).
Proof.
  intros Hb Hc w' rw' cs h rootCtx payCtx d err msg attrs. subst w' rw' cs.
  destruct (dispatch_payment_failure w rw r Hb Hc) as (con & lf & E).
  rewrite (requestCalls_app _ _ _ (f_equal (fun p => calls p.2) E)).
  unfold exec, eval. rewrite E. cbn [fst snd spans].
  assert (Hd : (draw w 3 100 < 100)%N) by (apply draw_lt; lia).
  split; [do 3 eexists; split; [reflexivity|]; repeat split; reflexivity|].
  split; [subst d; lia|].
  split; [reflexivity|]. split; [reflexivity|]. split; [reflexivity|].
  split.
  { unfold counterTotal, statusFailure. cbn [ordersProcessedCounter].
    rewrite lookup_insert_eq. reflexivity. }
  split.
  { unfold counterTotal, statusFailure. cbn [ordersProcessedCounter].
    rewrite lookup_insert_ne by discriminate. reflexivity. }
  split; [intros Hs; rewrite (wrap_fresh rw Hs); apply unwrap_fresh; exact Hs|].
  split; [intros Hs; destruct rw as [hd st bd br]; cbn in Hs; subst st;
          unfold errorResponse; cbn; destruct br; reflexivity|].
  split; [intros Hs; destruct rw as [hd st bd br]; cbn in Hs; subst br;
          unfold errorResponse; cbn; destruct st; reflexivity|].
  intros i sp Hi. apply lookup_app_Some_l. exact Hi.
Qed.

(** With the coin word set to 1 and every other word zero a request takes
    the payment-failure path; its request span ends up Error. *)
Lemma C4_payment_failure_path_witness :
  let w := withDraw 2 1 (idleWorld openLogger) in
  let w' := exec (dispatch createOrder exampleWriter incomingRequest) w in
  draw w 1 10 = 0%N /\ draw w 2 2 <> 0%N /\
  (fun sp => (sp_name sp, sp_status sp, sp_ended sp)) <$> spans w' !! 0%nat
    = Some ("POST /createOrder", codes.Error, true).
Proof.
  intros w w'.
  assert (Hc : draw w 2 2 <> 0%N) by (vm_compute; discriminate).
  pose proof (C4_payment_failure_path w exampleWriter incomingRequest eq_refl Hc) as H.
  cbv zeta in H.
  destruct H as ((root & dbSpan & paySpan & Hs & Hn & Hst & _ & He & _) & _).
  split; [reflexivity|]. split; [exact Hc|].
  subst w'. rewrite Hs. cbn. rewrite Hn, Hst, He. reflexivity.
Defined.

(** C10. An inventory request draws one random value, and that one
    value is the duration slept, the "inventory.check.delay_ms" attribute
    of both Info log calls, and the delay_ms field of the response body. *)
Theorem C10_checkInventory_single_delay (w : World) (rw : ResponseWriter) (r : Request) :
  let d := Z.of_N (draw w 0 601) + 200 in
  let w' := exec (CheckInventoryHandler rw r) w in
  let cs := requestCalls (CheckInventoryHandler rw r) w in
  rand_pos w' = S (rand_pos w) /\
  List.filter (fun c => match c with CallIntN _ _ => true | _ => false end) cs
    = [CallIntN 601 (draw w 0 601)] /\
  sleptDurations cs = [d] /\
  clock w' = clock w + d /\
  take 5 (drop 1 cs) =
    [CallSleep d;
     CallLoggerLog (r_ctx r) "INFO" "Inventory checked successfully"
       [attribute.Int "inventory.check.delay_ms" d];
     CallStructuredWrite (r_ctx r) "INFO" "Inventory checked successfully"
       [attribute.Int "inventory.check.delay_ms" d];
     CallHeaderSet "Content-Type" "application/json";
     CallEncode (BodyInventory
       (mkInventoryResponse "success" "Inventory checked successfully" d))] /\
  (rw_broken rw = false ->
     rw_body (eval (CheckInventoryHandler rw r) w) =
       rw_body rw ++
         [BodyInventory (mkInventoryResponse "success" "Inventory checked successfully" d)]).
Proof.
  intros d w' cs. subst w' cs.
  destruct (CheckInventoryHandler_run w rw r) as (ss & con & lf & E). fold d in E.
  rewrite (requestCalls_app _ _ _ (f_equal (fun p => calls p.2) E)).
  unfold exec, eval. rewrite E. cbn [fst snd rand_pos clock].
  split; [reflexivity|].
  split; [destruct (rw_broken rw); reflexivity|].
  split; [destruct (rw_broken rw); reflexivity|].
  split; [reflexivity|]. split; [reflexivity|].
  intros Hb. destruct rw as [hd st bd br]. cbn in Hb. subst br.
  unfold rw_Write, rw_WriteHeader, rw_HeaderSet. cbn. destruct st; reflexivity.
Qed.

(** The entropy word 345 gives the delay 545 in the response body. *)
Lemma C10_checkInventory_single_delay_witness :
  let w := exampleWorld [345]%N openLogger in
  rw_broken exampleWriter = false /\
  rw_body (eval (CheckInventoryHandler exampleWriter exampleRequest) w) =
    [BodyInventory (mkInventoryResponse "success" "Inventory checked successfully" 545)].
Proof.
  intros w. split; [reflexivity|].
  pose proof (C10_checkInventory_single_delay w exampleWriter exampleRequest) as H.
  cbv zeta in H. destruct H as (_ & _ & _ & _ & _ & H).
  exact (H eq_refl).
Defined.

(** C6 as the code has it.  An inventory request draws its delay once from
    200 to 800 ms inclusive, sleeps for it, cannot fail (no error is
    recorded, no 500 is sent, the counter is not touched), calls both
    loggers at Info level with the delay attribute, sets the JSON content
    type and writes status 200 with the body status, message, delay_ms.
    Each of the 601 delays 200, ..., 800 is the one slept for exactly one
    residue of the entropy word. *)
Theorem C6_checkInventory_delay_200_to_800 (w : World) (rw : ResponseWriter) (r : Request) :
  rw_status rw = None ->
  let d := Z.of_N (draw w 0 601) + 200 in
  let rw' := eval (CheckInventoryHandler rw r) w in
  let cs := requestCalls (CheckInventoryHandler rw r) w in
  let body := BodyInventory
    (mkInventoryResponse "success" "Inventory checked successfully" d) in
  200 <= d <= 800 /\
  sleptDurations cs = [d] /\
  take 6 cs =
    [CallIntN 601 (draw w 0 601); CallSleep d;
     CallLoggerLog (r_ctx r) "INFO" "Inventory checked successfully"
       [attribute.Int "inventory.check.delay_ms" d];
     CallStructuredWrite (r_ctx r) "INFO" "Inventory checked successfully"
       [attribute.Int "inventory.check.delay_ms" d];
     CallHeaderSet "Content-Type" "application/json";
     CallEncode body] /\
  List.forallb (fun c => match c with
                         | CallRecordError _ _ | CallHttpError _ _
                         | CallCounterAdd _ _ _ => false
                         | _ => true
                         end) cs = true /\
  rw_status rw' = Some 200 /\
  rw_header rw' !! "Content-Type" = Some "application/json" /\
  (rw_broken rw = false -> rw_body rw' = rw_body rw ++ [body]) /\
  (forall k, (k <= 600)%N ->
     sleptDurations (requestCalls (CheckInventoryHandler rw r) (withDraw 0 k w))
       = [Z.of_N k + 200]).
Proof.
  intros Hs d rw' cs body. subst rw' cs.
  assert (Hslept : forall w0,
            sleptDurations (requestCalls (CheckInventoryHandler rw r) w0)
              = [Z.of_N (draw w0 0 601) + 200]).
  { intros w0. destruct (CheckInventoryHandler_run w0 rw r) as (ss & con & lf & E).
    rewrite (requestCalls_app _ _ _ (f_equal (fun p => calls p.2) E)).
    destruct (rw_broken rw); reflexivity. }
  assert (Hall : forall k, (k <= 600)%N ->
            sleptDurations (requestCalls (CheckInventoryHandler rw r) (withDraw 0 k w))
              = [Z.of_N k + 200]).
  { intros k Hk. rewrite Hslept, draw_withDraw_eq, N.mod_small by lia. reflexivity. }
  clear Hslept. revert Hall. generalize (withDraw 0). intros wd Hall.
  destruct (CheckInventoryHandler_run w rw r) as (ss & con & lf & E). fold d body in E.
  rewrite (requestCalls_app _ _ _ (f_equal (fun p => calls p.2) E)).
  unfold eval. rewrite E. cbn [fst snd].
  assert (Hd : (draw w 0 601 < 601)%N) by (apply draw_lt; lia).
  destruct rw as [hd st bd br]. cbn in Hs. subst st.
  unfold rw_Write, rw_WriteHeader, rw_HeaderSet. cbn -[insert lookup].
  split; [subst d; lia|].
  split; [destruct br; reflexivity|].
  split; [reflexivity|].
  split; [destruct br; reflexivity|].
  split; [destruct br; reflexivity|].
  split; [destruct br; cbn -[insert lookup]; apply lookup_insert_eq|].
  split; [intros ->; reflexivity|].
  exact Hall.
Qed.

(** The entropy word 345 makes the handler sleep 545 ms. *)
Lemma C6_checkInventory_delay_200_to_800_witness :
  let w := exampleWorld [345]%N openLogger in
  rw_status exampleWriter = None /\
  sleptDurations (requestCalls (CheckInventoryHandler exampleWriter exampleRequest) w)
    = [545].
Proof.
  intros w. split; [reflexivity|].
  pose proof (C6_checkInventory_delay_200_to_800 w exampleWriter exampleRequest eq_refl) as H.
  cbv zeta in H. destruct H as (_ & H & _). exact H.
Defined.

(** C6 as stated fails: when the entropy word is 600 the handler sleeps
    800 ms, outside 200..799. *)
Lemma C6_delay_can_reach_800 :
  let w := exampleWorld [600]%N openLogger in
  let cs := requestCalls (CheckInventoryHandler exampleWriter exampleRequest) w in
  sleptDurations cs = [800] /\
  ~ Forall (fun d => 200 <= d <= 799) (sleptDurations cs).
Proof.
  intros w cs.
  assert (E : sleptDurations cs = [800]) by (vm_compute; reflexivity).
  split; [exact E|]. rewrite E. intros H. inversion H; subst. lia.
Qed.

(** C7. When the context carries a valid span that is still recording,
    [Logger.log] appends to that span exactly one event, named "log", whose
    attributes are log.level, log.message and then the caller's attributes
    in their order; no other span changes and nothing is printed. *)
Theorem C7_log_event_on_active_span (w : World) (l : Logger) (ctx : Context)
    (level message : string) (attrs : list KeyValue) (h : nat) (sp : Span) :
  activeSpan w ctx h sp ->
  let w' := exec (Logger_log l ctx level message attrs) w in
  (exists sp',
     spans w' !! h = Some sp' /\
     sp_events sp' =
       sp_events sp ++
         [mkEvent "log"
            (attribute.String "log.level" level ::
             attribute.String "log.message" message :: attrs)] /\
     sp_name sp' = sp_name sp /\ sp_context sp' = sp_context sp /\
     sp_status sp' = sp_status sp /\ sp_ended sp' = false) /\
  length (spans w') = length (spans w) /\
  (forall i, i <> h -> spans w' !! i = spans w !! i) /\
  console w' = console w /\
  logfile w' = logfile w.
Proof.
  intros Ha w'. subst w'. unfold exec.
  rewrite (Logger_log_active l ctx level message attrs w h sp Ha). cbn [snd spans console logfile].
  destruct Ha as (Hc & Hl & Hv & He).
  assert (Hlt : (h < length (spans w))%nat) by (eapply lookup_lt_Some; exact Hl).
  split.
  { eexists. split; [apply list_lookup_insert_eq; exact Hlt|].
    cbn. repeat split; try reflexivity. exact He. }
  split; [apply length_insert|].
  split; [intros i Hi; apply list_lookup_insert_ne; congruence|].
  split; reflexivity.
Qed.

(** An Info record logged under the open root span becomes its one event. *)
Lemma C7_log_event_on_active_span_witness :
  let w := exampleWorld [] openLogger in
  let w' := exec (Logger_Info DefaultLogger (mkCtx (sdkSpan 0)) "hello"
                    [attribute.Int "n" 3]) w in
  activeSpan w (mkCtx (sdkSpan 0)) 0 rootSpan /\
  sp_events <$> spans w' !! 0%nat =
    Some [mkEvent "log" [attribute.String "log.level" "INFO";
                         attribute.String "log.message" "hello";
                         attribute.Int "n" 3]].
Proof.
  intros w w'.
  assert (Ha : activeSpan w (mkCtx (sdkSpan 0)) 0 rootSpan)
    by (repeat split; reflexivity).
  split; [exact Ha|].
  destruct (C7_log_event_on_active_span w DefaultLogger (mkCtx (sdkSpan 0))
              "INFO" "hello" [attribute.Int "n" 3] 0 rootSpan Ha)
    as ((sp' & Hl & He & _) & _).
  subst w'. unfold Logger_Info, LevelInfo. rewrite Hl. cbn [fmap option_fmap option_map].
  rewrite He. reflexivity.
Defined.

Lemma StructuredLogger_write_closed l ctx level message attrs w :
  sl_encoder l = None ->
  StructuredLogger_write l ctx level message attrs w =
    (tt, mkWorld (rand_src w) (rand_pos w) (clock w) (spans w)
           (ordersProcessedCounter w) (console w ++ [LogLine level message attrs])
           (logfile w) (JSONLogger w)
           (calls w ++ [CallStructuredWrite ctx level message attrs])).
Proof.
  intros He. unfold StructuredLogger_write, bind, record. cbn. rewrite He. reflexivity.
Qed.

Lemma attrsToMap_from_encodable attrs m :
  map_Forall (fun _ x => scalar_encodable x = true) m ->
  attrs_encodable attrs = true ->
  map_Forall (fun _ x => scalar_encodable x = true) (attrsToMap_from m attrs).
Proof.
  revert m. induction attrs as [|a attrs IH]; intros m Hm Ha; [exact Hm|].
  cbn in Ha. apply andb_true_iff in Ha as [Ha1 Ha2].
  cbn [attrsToMap_from]. apply IH; [|exact Ha2].
  apply map_Forall_insert_2; assumption.
Qed.

Lemma buildEntry_encodable now sc level message attrs :
  attrs_encodable attrs = true ->
  entry_encodable (buildEntry now sc level message attrs) = true.
Proof.
  intros Ha. unfold entry_encodable. apply bool_decide_eq_true.
  assert (Hattrs : value_encodable (JObject (attrsToMap attrs)) = true).
  { cbn. apply bool_decide_eq_true. apply attrsToMap_from_encodable; [|exact Ha].
    apply map_Forall_empty. }
  unfold buildEntry. destruct (IsValid sc);
    repeat (apply map_Forall_insert_2; [first [exact Hattrs | reflexivity]|]);
    apply map_Forall_empty.
Qed.

Lemma StructuredLogger_write_open l enc ctx level message attrs w :
  sl_encoder l = Some enc ->
  attrs_encodable attrs = true ->
  StructuredLogger_write l ctx level message attrs w =
    (tt, mkWorld (rand_src w) (rand_pos w) (clock w) (spans w)
           (ordersProcessedCounter w) (console w)
           (logfile w ++
              [buildEntry (clock w) (contextSpanContext w ctx) level message attrs])
           (JSONLogger w)
           (calls w ++ [CallStructuredWrite ctx level message attrs])).
Proof.
  intros He Ha. unfold StructuredLogger_write, bind, record, encoder_Encode,
    contextSpanContext, eval, span_SpanContext, time_Now.
  cbn -[buildEntry]. rewrite He. cbn -[buildEntry].
  rewrite (buildEntry_encodable _ _ _ _ _ Ha). reflexivity.
Qed.

Lemma buildEntry_ids now sc level message attrs :
  let entry := buildEntry now sc level message attrs in
  entry !! "trace_id" =
    (if IsValid sc then Some (JString (TraceID_String (TraceID sc))) else None) /\
  entry !! "span_id" =
    (if IsValid sc then Some (JString (SpanID_String (SpanID sc))) else None) /\
  entry !! "level" = Some (JString level) /\
  entry !! "message" = Some (JString message) /\
  entry !! "attributes" = Some (JObject (attrsToMap attrs)) /\
  entry !! "timestamp" = Some (JTime now).
Proof.
  unfold buildEntry. destruct (IsValid sc);
    repeat split;
    repeat first [ rewrite lookup_insert_eq; reflexivity
                 | rewrite lookup_insert_ne by discriminate
                 | apply lookup_empty ].
Qed.

Lemma activeSpan_context w ctx h sp :
  activeSpan w ctx h sp -> contextSpanContext w ctx = sp_context sp.
Proof.
  intros (Hc & Hl & _). unfold contextSpanContext, eval, span_SpanContext,
    spanContextIn, lookupSpan, trace_SpanFromContext. cbn. rewrite Hc, Hl. reflexivity.
Qed.

(** C8. When the log file cannot be opened, [NewStructured] prints the
    warning once and still returns a logger (one without encoder), start-up
    goes on to serve, and every later Info or Error call on that logger
    prints the very line [Logger.log] prints as its fallback and leaves the
    log file alone. *)
Theorem C8_unopenable_log_file (os : OS) (src : nat -> N) (path err : string) :
  path = (if String.eqb (os_Getenv os "APP_LOG_FILE") "" then "app.log"
          else os_Getenv os "APP_LOG_FILE") ->
  open_error os !! path = Some err ->
  (forall w,
     NewStructured os w =
       (mkSL None None, set_console (console w ++ [WarnOpenFailed path err]) w)) /\
  (exists w0,
     startup os None src = Serving w0 /\
     console w0 = [WarnOpenFailed path err] /\
     JSONLogger w0 = mkSL None None /\ logfile w0 = []) /\
  (forall w1 w ctx level message attrs,
     let l := eval (NewStructured os) w1 in
     let fallback := LogLine level message attrs in
     exec (StructuredLogger_write l ctx level message attrs) w =
       exec (record (CallStructuredWrite ctx level message attrs))
         (set_console (console w ++ [fallback]) w) /\
     (IsValid (contextSpanContext w ctx) = false ->
      console (exec (Logger_log DefaultLogger ctx level message attrs) w) =
        console w ++ [fallback])) /\
  (forall w1 w ctx message attrs,
     let l := eval (NewStructured os) w1 in
     let w' := exec (StructuredLogger_Info l ctx message attrs) w in
     let w'' := exec (StructuredLogger_Error l ctx message attrs) w' in
     console w'' = console w ++ [LogLine "INFO" message attrs; LogLine "ERROR" message attrs] /\
     logfile w'' = logfile w /\ spans w'' = spans w).
Proof.
  intros Hp He.
  assert (HN : forall w, NewStructured os w =
             (mkSL None None, set_console (console w ++ [WarnOpenFailed path err]) w)).
  { intros w. unfold NewStructured, os_OpenFile. rewrite <- Hp, He. reflexivity. }
  split; [exact HN|]. split.
  { eexists. split.
    - unfold startup, handlers_init, logging_init, exec. rewrite bind_unfold, HN.
      reflexivity.
    - repeat split; reflexivity. }
  split.
  { intros w1 w ctx level message attrs l fallback. subst l. unfold eval.
    rewrite HN. cbn [fst]. unfold exec at 1.
    rewrite StructuredLogger_write_closed by reflexivity. split; [reflexivity|].
    intros Hv. unfold exec. rewrite (Logger_log_fallback _ _ _ _ _ _ Hv). reflexivity. }
  intros w1 w ctx message attrs l w' w''. subst w'' w' l.
  unfold eval. rewrite HN. cbn [fst].
  unfold StructuredLogger_Info, StructuredLogger_Error, exec.
  rewrite !StructuredLogger_write_closed by reflexivity. cbn.
  rewrite <- app_assoc. repeat split; reflexivity.
Qed.

(** With "app.log" unopenable the process serves, one warning printed. *)
Lemma C8_unopenable_log_file_witness :
  exists w0,
    startup readOnlyOS None (entropy []) = Serving w0 /\
    console w0 = [WarnOpenFailed "app.log" "permission denied"].
Proof.
  destruct (C8_unopenable_log_file readOnlyOS (entropy []) "app.log" "permission denied"
              eq_refl eq_refl) as (_ & (w0 & Hs & Hc & _) & _).
  exists w0. split; [exact Hs | exact Hc].
Defined.

(** C5 as the code has it.  With a valid, recording span in the context
    the record becomes an event of that span and, when the log file is open
    and the attributes are encodable, a line of the file carrying that
    span's trace and span identifiers in hexadecimal; with the file not
    opened the second sink prints the console line, which has no
    identifiers.  With no valid span the first sink prints the console line
    and no span changes, while the second sink still appends a line to an
    open file, one without identifiers, and prints the console line only
    when the file was not opened. *)
Theorem C5_log_record_identifiers (w : World) (ctx : Context)
    (level message : string) (attrs : list KeyValue) :
  let sc := contextSpanContext w ctx in
  let w2 := exec (logBoth ctx level message attrs) w in
  let line := LogLine level message attrs in
  (forall h sp, activeSpan w ctx h sp ->
     sc = sp_context sp /\
     spans w2 = <[h := addEvent (logEvent level message attrs) sp]> (spans w) /\
     (forall enc,
        sl_encoder (JSONLogger w) = Some enc -> attrs_encodable attrs = true ->
        exists entry,
          logfile w2 = logfile w ++ [entry] /\
          entry !! "trace_id" = Some (JString (TraceID_String (TraceID sc))) /\
          entry !! "span_id" = Some (JString (SpanID_String (SpanID sc))) /\
          entry !! "level" = Some (JString level) /\
          entry !! "message" = Some (JString message) /\
          entry !! "attributes" = Some (JObject (attrsToMap attrs)) /\
          console w2 = console w) /\
     (sl_encoder (JSONLogger w) = None ->
        logfile w2 = logfile w /\ console w2 = console w ++ [line])) /\
  (IsValid sc = false ->
     spans w2 = spans w /\
     (forall enc,
        sl_encoder (JSONLogger w) = Some enc -> attrs_encodable attrs = true ->
        exists entry,
          logfile w2 = logfile w ++ [entry] /\
          entry !! "trace_id" = None /\ entry !! "span_id" = None /\
          entry !! "level" = Some (JString level) /\
          entry !! "message" = Some (JString message) /\
          entry !! "attributes" = Some (JObject (attrsToMap attrs)) /\
          console w2 = console w ++ [line]) /\
     (sl_encoder (JSONLogger w) = None ->
        logfile w2 = logfile w /\ console w2 = console w ++ [line; line])).
Proof.
  intros sc w2 line. subst w2. unfold logBoth, exec. rewrite bind_unfold. split.
  - intros h sp Ha.
    pose proof (activeSpan_context _ _ _ _ Ha) as Hsc. fold sc in Hsc.
    rewrite (Logger_log_active _ _ _ _ _ _ _ _ Ha). cbn [fst snd JSONLogger].
    set (w1 := mkWorld _ _ _ _ _ _ _ _ _).
    assert (Hsc1 : contextSpanContext w1 ctx = sc).
    { destruct Ha as (Hc & Hl & _).
      unfold contextSpanContext, eval, span_SpanContext, spanContextIn, lookupSpan,
        trace_SpanFromContext. cbn. rewrite Hc.
      rewrite list_lookup_insert_eq by (eapply lookup_lt_Some; exact Hl).
      cbn. symmetry. exact Hsc. }
    split; [exact Hsc|]. split; [|split].
    + destruct (StructuredLogger_write_frame (JSONLogger w) ctx level message attrs w1)
        as (con & lf & E).
      rewrite E. reflexivity.
    + intros enc He Henc.
      rewrite (StructuredLogger_write_open _ enc) by assumption.
      cbn [snd logfile console]. rewrite Hsc1.
      pose proof (buildEntry_ids (clock w1) sc level message attrs) as Hids.
      cbv zeta in Hids.
      destruct Ha as (_ & _ & Hv & _). rewrite <- Hsc in Hv. rewrite Hv in Hids.
      destruct Hids as (Ht & Hs & Hl & Hm & Hat & _).
      eexists. split; [reflexivity|].
      repeat split; assumption.
    + intros He.
      rewrite StructuredLogger_write_closed by assumption.
      split; reflexivity.
  - intros Hv.
    rewrite (Logger_log_fallback _ _ _ _ _ _ Hv). cbn [fst snd JSONLogger].
    set (w1 := mkWorld _ _ _ _ _ _ _ _ _).
    assert (Hsc1 : contextSpanContext w1 ctx = sc) by reflexivity.
    split; [|split].
    + destruct (StructuredLogger_write_frame (JSONLogger w) ctx level message attrs w1)
        as (con & lf & E).
      rewrite E. reflexivity.
    + intros enc He Henc.
      rewrite (StructuredLogger_write_open _ enc) by assumption.
      cbn [snd logfile console]. rewrite Hsc1.
      pose proof (buildEntry_ids (clock w1) sc level message attrs) as Hids.
      cbv zeta in Hids. rewrite Hv in Hids.
      destruct Hids as (Ht & Hs & Hl & Hm & Hat & _).
      eexists. split; [reflexivity|].
      repeat split; assumption.
    + intros He.
      rewrite StructuredLogger_write_closed by assumption.
      cbn. rewrite <- app_assoc. split; reflexivity.
Qed.

(** A record logged under the root span (trace 7, span 9) with the file
    open: the file line carries both identifiers in hexadecimal. *)
Lemma C5_log_record_identifiers_witness :
  let w := exampleWorld [] openLogger in
  let ctx := mkCtx (sdkSpan 0) in
  let w2 := exec (logBoth ctx "INFO" "hello" []) w in
  activeSpan w ctx 0 rootSpan /\
  exists entry,
    logfile w2 = [entry] /\
    entry !! "trace_id" = Some (JString "00000000000000000000000000000007") /\
    entry !! "span_id" = Some (JString "0000000000000009").
Proof.
  intros w ctx w2.
  assert (Ha : activeSpan w ctx 0 rootSpan) by (repeat split; reflexivity).
  split; [exact Ha|].
  destruct (C5_log_record_identifiers w ctx "INFO" "hello" []) as [H _].
  destruct (H 0%nat rootSpan Ha) as (_ & _ & Hopen & _).
  destruct (Hopen "app.log" eq_refl eq_refl) as (entry & Hl & Ht & Hs & _).
  exists entry. split; [exact Hl|]. split; [exact Ht | exact Hs].
Defined.

(** C5 as stated fails.  A record logged with no valid span in the context
    is not confined to the console: with the log file open it is appended
    to the file (without identifiers).  And a record logged under a valid
    span reaches no file line when the file could not be opened, nor when
    one of its attributes is a float that JSON cannot render (the encoder's
    error is discarded). *)
Lemma C5_record_without_span_reaches_file :
  (let w := idleWorld openLogger in
   let w2 := exec (logBoth backgroundContext "INFO" "hello" []) w in
   IsValid (contextSpanContext w backgroundContext) = false /\
   logfile w2 = [buildEntry 0 emptySpanContext "INFO" "hello" []] /\
   ~ consoleOnly w w2) /\
  (let w := exampleWorld [] closedLogger in
   let ctx := mkCtx (sdkSpan 0) in
   let w2 := exec (logBoth ctx "INFO" "hello" []) w in
   activeSpan w ctx 0 rootSpan /\
   logfile w2 = [] /\
   console w2 = [LogLine "INFO" "hello" []]) /\
  (let w := exampleWorld [] openLogger in
   let ctx := mkCtx (sdkSpan 0) in
   let w2 := exec (logBoth ctx "INFO" "hello" [notANumber]) w in
   activeSpan w ctx 0 rootSpan /\
   logfile w2 = [] /\ console w2 = []).
Proof.
  split; [|split].
  - intros w w2.
    assert (E : logfile w2 = [buildEntry 0 emptySpanContext "INFO" "hello" []]).
    { subst w2 w. unfold logBoth, exec. rewrite bind_unfold.
      rewrite Logger_log_fallback by reflexivity. cbn [fst snd JSONLogger idleWorld].
      erewrite StructuredLogger_write_open by reflexivity. reflexivity. }
    split; [reflexivity|]. split; [exact E|].
    intros [_ H]. rewrite E in H. discriminate H.
  - intros w ctx w2.
    assert (Ha : activeSpan w ctx 0 rootSpan) by (repeat split; reflexivity).
    split; [exact Ha|].
    subst w2. unfold logBoth, exec. rewrite bind_unfold.
    rewrite (Logger_log_active _ _ _ _ _ _ _ _ Ha). cbn [fst snd JSONLogger].
    rewrite StructuredLogger_write_closed by reflexivity. split; reflexivity.
  - intros w ctx w2.
    split; [repeat split; reflexivity|]. vm_compute. split; reflexivity.
Qed.

(* ===================================================================== *)
(** ** Concrete runs *)
(* ===================================================================== *)

Example SpanID_String_255 : SpanID_String 255 = "00000000000000ff".
Proof. reflexivity. Qed.

(** A routed order on the success path, with the entropy words 5, 3, 1,
    7, 123: the handler sets the request span to Ok, the middleware's
    Unset on the 200 does not lower it, and no span keeps a description. *)
Example success_path_marks_root_span :
  let w := servingWorld [5; 3; 1; 7; 123]%N openLogger in
  let w' := exec (dispatch createOrder exampleWriter incomingRequest) w in
  (fun sp => (sp_name sp, sp_status sp, sp_description sp, sp_ended sp)) <$> spans w'
    = [("POST /createOrder", codes.Ok, "", true);
       ("db.insert_order", codes.Ok, "", true);
       ("payment.process", codes.Ok, "", true)] /\
  counterTotal "success" w' = 1 /\ counterTotal "failure" w' = 0.
Proof. vm_compute. repeat split; reflexivity. Qed.

(** A routed order on the database-failure path, with the entropy words
    5, 0, 0, 7: the child span carries the error and its message, and the
    request span is marked Error by the middleware on the 500. *)
Example db_failure_path_run :
  let w := servingWorld [5; 0; 0; 7]%N openLogger in
  let w' := exec (dispatch createOrder exampleWriter incomingRequest) w in
  (fun sp => (sp_name sp, sp_status sp, sp_description sp, sp_ended sp)) <$> spans w'
    = [("POST /createOrder", codes.Error, "", true);
       ("db.insert_order", codes.Error, "database operation failed", true)] /\
  sleptDurations (calls w') = [35; 17] /\
  counterTotal "success" w' = 0 /\ counterTotal "failure" w' = 1 /\
  rw_status (eval (dispatch createOrder exampleWriter incomingRequest) w) = Some 500.
Proof. vm_compute. repeat split; reflexivity. Qed.

(** At the return of the handler itself the request span of that run is
    still Unset and open: the handler's [SetStatus] calls both reach the
    child span. *)
Example db_failure_path_handler :
  let w := exampleWorld [5; 0; 0; 7]%N openLogger in
  let w' := exec (CreateOrderHandler exampleWriter exampleRequest) w in
  (fun sp => (sp_name sp, sp_status sp, sp_ended sp)) <$> spans w'
    = [("POST /createOrder", codes.Unset, false);
       ("db.insert_order", codes.Error, true)].
Proof. vm_compute. reflexivity. Qed.

(** [SetStatus] on a span that is already Ok changes nothing. *)
Example setStatus_after_Ok :
  setStatus codes.Error "late" (setStatus codes.Ok "done" rootSpan)
    = setStatus codes.Ok "" rootSpan.
Proof. reflexivity. Qed.

(* ===================================================================== *)
(** ** The attribute map of the JSON logger *)
(* ===================================================================== *)

Lemma attrsToMap_from_lookup (k : string) (attrs : list KeyValue) (m : gmap string JVal) :
  attrsToMap_from m attrs !! k =
    match lastAttr k attrs with
    | Some a => Some (attrValue (attribute.Val a))
    | None => m !! k
    end.
Proof.
  revert m. induction attrs as [|a rest IH]; intros m; [reflexivity|].
  cbn [attrsToMap_from lastAttr]. rewrite IH.
  destruct (lastAttr k rest) as [b|]; [reflexivity|].
  destruct (String.eqb_spec (attribute.Key a) k) as [->|Hne].
  - apply lookup_insert_eq.
  - apply lookup_insert_ne. exact Hne.
Qed.

Lemma attrsToMap_from_union (attrs : list KeyValue) (m : gmap string JVal) :
  attrsToMap_from m attrs = attrsToMap attrs ∪ m.
Proof.
  apply map_eq. intros k. unfold attrsToMap.
  rewrite lookup_union, !attrsToMap_from_lookup.
  rewrite lookup_empty.
  destruct (lastAttr k attrs); destruct (m !! k); reflexivity.
Qed.

(** X1. Looking a key up in [attrsToMap attrs] gives the converted value
    of the last attribute with that key, and nothing when no attribute has
    it: a repeated key keeps the later value, the empty list gives the
    empty map. *)
Theorem attrsToMap_lookup_last (attrs : list KeyValue) (k : string) :
  attrsToMap attrs !! k =
    (fun a => attrValue (attribute.Val a)) <$> lastAttr k attrs /\
  (attrsToMap attrs !! k = None <-> k ∉ attribute.Key <$> attrs) /\
  (forall a, attrsToMap (attrs ++ [a]) !! attribute.Key a
               = Some (attrValue (attribute.Val a))) /\
  attrsToMap [] = ∅.
Proof.
  assert (Hl : forall l, attrsToMap l !! k =
             (fun a => attrValue (attribute.Val a)) <$> lastAttr k l).
  { intros l. unfold attrsToMap. rewrite attrsToMap_from_lookup.
    destruct (lastAttr k l); [reflexivity | apply lookup_empty]. }
  split; [apply Hl|]. split; [|split; [|reflexivity]].
  - rewrite Hl. induction attrs as [|a rest IH]; cbn [lastAttr fmap list_fmap].
    + split; [intros _; apply not_elem_of_nil | reflexivity].
    + rewrite not_elem_of_cons.
      destruct (lastAttr k rest) as [b|]; cbn in *.
      * split; [discriminate|]. intros [_ H]. apply IH in H. discriminate H.
      * destruct (String.eqb_spec (attribute.Key a) k) as [->|Hne]; cbn.
        -- split; [discriminate | tauto].
        -- split; [|reflexivity]. intros _. split; [congruence|]. apply IH. reflexivity.
  - intros a. unfold attrsToMap. rewrite attrsToMap_from_lookup.
    assert (H : forall l, lastAttr (attribute.Key a) (l ++ [a]) = Some a).
    { induction l as [|b l IH]; cbn [app lastAttr].
      - rewrite String.eqb_refl. reflexivity.
      - rewrite IH. reflexivity. }
    rewrite H. reflexivity.
Qed.

(** X2. The keys of [attrsToMap attrs] are exactly the keys of the
    attributes; the map never has more entries than the list, and has as
    many when the keys are pairwise distinct. *)
Theorem attrsToMap_keys (attrs : list KeyValue) :
  dom (attrsToMap attrs) = (list_to_set (attribute.Key <$> attrs) : gset string) /\
  (size (attrsToMap attrs) <= length attrs)%nat /\
  (NoDup (attribute.Key <$> attrs) -> size (attrsToMap attrs) = length attrs).
Proof.
  assert (Hd : forall l m,
            dom (attrsToMap_from m l) =
              (list_to_set (attribute.Key <$> l) ∪ dom m : gset string)).
  { induction l as [|a l IH]; intros m; cbn [attrsToMap_from fmap list_fmap list_to_set].
    - rewrite (left_id_L ∅ (∪)). reflexivity.
    - rewrite IH, dom_insert_L.
      rewrite (assoc_L (∪)), (comm_L (∪) (list_to_set _) {[attribute.Key a]}).
      reflexivity. }
  assert (Hs : forall l m,
            (size (attrsToMap_from m l) <= size m + length l)%nat).
  { induction l as [|a l IH]; intros m; cbn [attrsToMap_from length]; [lia|].
    etransitivity; [apply IH|].
    destruct (m !! attribute.Key a) eqn:E.
    - rewrite map_size_insert_Some by eauto. lia.
    - rewrite map_size_insert_None by exact E. lia. }
  assert (Hdom : dom (attrsToMap attrs) =
                   (list_to_set (attribute.Key <$> attrs) : gset string)).
  { unfold attrsToMap. rewrite Hd, dom_empty_L. apply (right_id_L ∅ (∪)). }
  split; [exact Hdom|]. split.
  - specialize (Hs attrs ∅). rewrite map_size_empty in Hs. exact Hs.
  - intros Hnd. rewrite <- size_dom, Hdom, size_list_to_set by exact Hnd.
    apply length_fmap.
Qed.

Lemma attrsToMap_keys_witness :
  size (attrsToMap [attribute.String "a" "x"; attribute.Int "b" 2]) = 2%nat.
Proof.
  apply (attrsToMap_keys [attribute.String "a" "x"; attribute.Int "b" 2]).
  cbn. apply NoDup_cons. split; [|apply NoDup_singleton].
  intros H. apply list_elem_of_singleton in H. discriminate H.
Defined.

(** X3. Converting a concatenation is converting the two parts and letting
    the later part win on common keys. *)
Theorem attrsToMap_app (attrs1 attrs2 : list KeyValue) :
  attrsToMap (attrs1 ++ attrs2) = attrsToMap attrs2 ∪ attrsToMap attrs1.
Proof.
  unfold attrsToMap at 1.
  assert (H : forall l1 l2 m,
            attrsToMap_from m (l1 ++ l2) = attrsToMap_from (attrsToMap_from m l1) l2).
  { induction l1 as [|a l1 IH]; intros l2 m; [reflexivity|]. cbn. apply IH. }
  rewrite H. apply attrsToMap_from_union.
Qed.

(* ===================================================================== *)
(** ** The JSON entry and the two loggers, in full *)
(* ===================================================================== *)

(** X4. The entry written to the log file has the four keys timestamp,
    level, message and attributes, and the two identifier keys together or
    not at all, according to the validity of the span context.  The
    caller's attributes sit under "attributes" only: whatever their keys,
    the record's own level and message are what the top-level keys hold. *)
Theorem buildEntry_shape (now : Z) (sc : SpanContext) (level message : string)
    (attrs : list KeyValue) :
  let entry := buildEntry now sc level message attrs in
  dom entry =
    (if IsValid sc
     then {["span_id"; "trace_id"; "attributes"; "message"; "level"; "timestamp"]}
     else {["attributes"; "message"; "level"; "timestamp"]} : gset string) /\
  size entry = (if IsValid sc then 6 else 4)%nat /\
  (is_Some (entry !! "trace_id") <-> IsValid sc = true) /\
  (is_Some (entry !! "span_id") <-> IsValid sc = true) /\
  entry !! "level" = Some (JString level) /\
  entry !! "message" = Some (JString message) /\
  entry !! "attributes" = Some (JObject (attrsToMap attrs)).
Proof.
  intros entry.
  destruct (buildEntry_ids now sc level message attrs)
    as (Ht & Hs & Hl & Hm & Ha & _). fold entry in Ht, Hs, Hl, Hm, Ha.
  assert (Hdom : dom entry =
    (if IsValid sc
     then {["span_id"; "trace_id"; "attributes"; "message"; "level"; "timestamp"]}
     else {["attributes"; "message"; "level"; "timestamp"]} : gset string)).
  { subst entry. unfold buildEntry. destruct (IsValid sc);
      rewrite !dom_insert_L, dom_empty_L, (right_id_L ∅ (∪)); reflexivity. }
  split; [exact Hdom|]. split.
  { rewrite <- size_dom, Hdom. destruct (IsValid sc); reflexivity. }
  rewrite Ht, Hs. destruct (IsValid sc);
    repeat split; try assumption; try (intros; eauto; fail);
    try (intros [x Hx]; discriminate Hx); try discriminate.
Qed.

Lemma Logger_log_run l ctx level message attrs w :
  let s := trace_SpanFromContext ctx in
  let valid := IsValid (spanContextIn (spans w) s) in
  Logger_log l ctx level message attrs w =
    (tt, mkWorld (rand_src w) (rand_pos w) (clock w)
           (if valid
            then updateStore s (addEvent (logEvent level message attrs)) (spans w)
            else spans w)
           (ordersProcessedCounter w)
           (if valid then console w else console w ++ [LogLine level message attrs])
           (logfile w) (JSONLogger w)
           (calls w ++ [CallLoggerLog ctx level message attrs])).
Proof.
  unfold Logger_log, bind, record, span_SpanContext. cbn.
  destruct (IsValid (spanContextIn (spans w) (trace_SpanFromContext ctx))); reflexivity.
Qed.

(** X5. [Logger.log] puts a record in at most one place and never in the
    log file: it prints the console line exactly when the context's span
    context is invalid, and then no span changes; with a valid span context
    nothing is printed and only that one span can change, and a span that
    has already ended does not take the event, so that record is lost.  The
    counter is never touched. *)
Theorem Logger_log_one_place (l : Logger) (ctx : Context) (level message : string)
    (attrs : list KeyValue) (w : World) :
  let w' := exec (Logger_log l ctx level message attrs) w in
  let sc := contextSpanContext w ctx in
  logfile w' = logfile w /\
  ordersProcessedCounter w' = ordersProcessedCounter w /\
  length (spans w') = length (spans w) /\
  (IsValid sc = false ->
     console w' = console w ++ [LogLine level message attrs] /\ spans w' = spans w) /\
  (IsValid sc = true ->
     console w' = console w /\
     (forall i, ctx_span ctx <> sdkSpan i -> spans w' !! i = spans w !! i)) /\
  (forall h sp, ctx_span ctx = sdkSpan h -> spans w !! h = Some sp ->
     sp_ended sp = true -> spans w' = spans w /\ console w' = console w ++
       (if IsValid (sp_context sp) then [] else [LogLine level message attrs])).
Proof.
  intros w' sc. subst w' sc. unfold exec, contextSpanContext, eval, span_SpanContext.
  rewrite Logger_log_run. cbn [fst snd spans console logfile ordersProcessedCounter].
  unfold trace_SpanFromContext.
  split; [reflexivity|]. split; [reflexivity|]. split.
  { destruct (IsValid _); [|reflexivity]. unfold updateStore.
    destruct (ctx_span ctx) as [|h]; [reflexivity|].
    destruct (spans w !! h) as [sp|]; [|reflexivity].
    destruct (sp_ended sp); [reflexivity | apply length_insert]. }
  split; [intros ->; split; reflexivity|]. split.
  { intros ->. split; [reflexivity|]. intros i Hi. unfold updateStore.
    destruct (ctx_span ctx) as [|h]; [reflexivity|].
    destruct (spans w !! h) as [sp|]; [|reflexivity].
    destruct (sp_ended sp); [reflexivity|].
    apply list_lookup_insert_ne. congruence. }
  intros h sp Hc Hl He. unfold spanContextIn, lookupSpan, updateStore.
  rewrite Hc, Hl, He. destruct (IsValid (sp_context sp)); split;
    rewrite ?app_nil_r; reflexivity.
Qed.

Lemma Logger_log_one_place_witness :
  let ended := endSpan rootSpan in
  let w := mkWorld (entropy []) 0 0 [ended] ∅ [] [] openLogger [] in
  let w' := exec (Logger_Info DefaultLogger (mkCtx (sdkSpan 0)) "late" []) w in
  spans w' = [ended] /\ console w' = [].
Proof.
  intros ended w w'.
  destruct (Logger_log_one_place DefaultLogger (mkCtx (sdkSpan 0)) "INFO" "late" [] w)
    as (_ & _ & _ & _ & _ & H).
  exact (H 0%nat ended eq_refl eq_refl eq_refl).
Defined.

Lemma StructuredLogger_write_run l ctx level message attrs w :
  let entry := buildEntry (clock w) (contextSpanContext w ctx) level message attrs in
  StructuredLogger_write l ctx level message attrs w =
    (tt, mkWorld (rand_src w) (rand_pos w) (clock w) (spans w)
           (ordersProcessedCounter w)
           (match sl_encoder l with
            | None => console w ++ [LogLine level message attrs]
            | Some _ => console w
            end)
           (match sl_encoder l with
            | None => logfile w
            | Some _ => if entry_encodable entry then logfile w ++ [entry] else logfile w
            end)
           (JSONLogger w)
           (calls w ++ [CallStructuredWrite ctx level message attrs])).
Proof.
  unfold StructuredLogger_write, bind, record, encoder_Encode, contextSpanContext,
    eval, span_SpanContext, time_Now. cbn -[buildEntry].
  destruct (sl_encoder l); [|reflexivity]. cbn -[buildEntry].
  destruct (entry_encodable _); reflexivity.
Qed.

(** X6. [StructuredLogger.write] produces at most one line, in one place:
    the console line when the logger has no encoder; otherwise one line
    appended to the log file, or nothing at all when the entry cannot be
    encoded.  Earlier lines of the file and of the console stay in place,
    and neither the spans nor the counter change. *)
Theorem StructuredLogger_write_one_line (l : StructuredLogger) (ctx : Context)
    (level message : string) (attrs : list KeyValue) (w : World) :
  let w' := exec (StructuredLogger_write l ctx level message attrs) w in
  let entry := buildEntry (clock w) (contextSpanContext w ctx) level message attrs in
  spans w' = spans w /\
  ordersProcessedCounter w' = ordersProcessedCounter w /\
  (sl_encoder l = None ->
     console w' = console w ++ [LogLine level message attrs] /\
     logfile w' = logfile w) /\
  (sl_encoder l <> None ->
     console w' = console w /\
     logfile w' = logfile w ++ (if entry_encodable entry then [entry] else [])) /\
  (length (console w') + length (logfile w')
     <= length (console w) + length (logfile w) + 1)%nat.
Proof.
  intros w' entry. subst w'. unfold exec. rewrite StructuredLogger_write_run.
  fold entry. cbn [snd spans console logfile ordersProcessedCounter].
  split; [reflexivity|]. split; [reflexivity|]. split; [|split].
  - intros ->. split; reflexivity.
  - intros Hne. destruct (sl_encoder l); [|congruence]. split; [reflexivity|].
    destruct (entry_encodable entry); [reflexivity | symmetry; apply app_nil_r].
  - destruct (sl_encoder l); [destruct (entry_encodable entry)|];
      rewrite ?length_app; cbn [length]; lia.
Qed.

Lemma StructuredLogger_write_one_line_witness :
  let w := idleWorld openLogger in
  let w' := exec (StructuredLogger_Info openLogger backgroundContext "hello" []) w in
  console w' = [] /\
  logfile w' = [buildEntry 0 emptySpanContext "INFO" "hello" []].
Proof.
  intros w w'.
  destruct (StructuredLogger_write_one_line openLogger backgroundContext
              "INFO" "hello" [] w) as (_ & _ & _ & H & _).
  apply H. discriminate.
Defined.

(** X7. [NewStructured] opens the file named by APP_LOG_FILE, or "app.log"
    when the variable is unset or empty.  When the file opens nothing is
    printed, the logger gets an encoder on that file, and from then on a
    record with encodable attributes is appended to the file as one line
    and never printed. *)
Theorem NewStructured_opens_log_file (os : OS) :
  (environ os !! "APP_LOG_FILE" = None -> logPath os = "app.log") /\
  (environ os !! "APP_LOG_FILE" = Some "" -> logPath os = "app.log") /\
  (forall p, environ os !! "APP_LOG_FILE" = Some p -> p <> "" -> logPath os = p) /\
  (open_error os !! logPath os = None ->
     forall w,
       NewStructured os w = (mkSL (Some (logPath os)) (Some (logPath os)), w) /\
       forall w1 ctx level message attrs,
         attrs_encodable attrs = true ->
         let w2 := exec (StructuredLogger_write (eval (NewStructured os) w)
                           ctx level message attrs) w1 in
         console w2 = console w1 /\
         logfile w2 =
           logfile w1 ++
             [buildEntry (clock w1) (contextSpanContext w1 ctx) level message attrs]).
Proof.
  unfold logPath, os_Getenv. split; [|split; [|split]].
  - intros ->. reflexivity.
  - intros ->. reflexivity.
  - intros p -> Hp. cbn. destruct (String.eqb_spec p ""); [contradiction | reflexivity].
  - intros Ho w.
    assert (HN : NewStructured os w =
              (mkSL (Some (logPath os)) (Some (logPath os)), w)).
    { unfold NewStructured, os_OpenFile. fold (logPath os).
      unfold logPath, os_Getenv in *. rewrite Ho. reflexivity. }
    split; [exact HN|]. intros w1 ctx level message attrs Ha.
    unfold eval, exec. fold (logPath os) in HN. unfold logPath, os_Getenv in HN.
    rewrite HN. cbn [fst].
    erewrite StructuredLogger_write_open by (try reflexivity; exact Ha).
    split; reflexivity.
Qed.

Lemma NewStructured_opens_log_file_witness :
  let os := mkOS {["APP_LOG_FILE" := "/var/log/app.json"]} ∅ in
  logPath os = "/var/log/app.json" /\
  NewStructured os (idleWorld closedLogger) =
    (mkSL (Some "/var/log/app.json") (Some "/var/log/app.json"), idleWorld closedLogger).
Proof.
  intros os.
  destruct (NewStructured_opens_log_file os) as (_ & _ & Hp & Ho).
  assert (E : logPath os = "/var/log/app.json")
    by (apply Hp; [reflexivity | discriminate]).
  split; [exact E|].
  rewrite <- E. apply Ho. rewrite E. reflexivity.
Defined.

(** X8. Package initialisation ends the process exactly when the counter
    cannot be created, whatever happens to the log file; when it serves,
    the process starts with no span, a counter at zero for every label, an
    empty history, and a console holding the open warning or nothing. *)
Theorem startup_fatal_only_without_counter (os : OS) (counterErr : option string)
    (src : nat -> N) :
  (forall err, counterErr = Some err ->
     startup os counterErr src =
       Fatal ("failed to create orders_processed_total counter: " +:+ err)) /\
  (counterErr = None ->
     exists w0,
       startup os counterErr src = Serving w0 /\
       spans w0 = [] /\ calls w0 = [] /\ logfile w0 = [] /\
       (forall label, counterTotal label w0 = 0) /\
       console w0 =
         match open_error os !! logPath os with
         | Some err => [WarnOpenFailed (logPath os) err]
         | None => []
         end /\
       (sl_encoder (JSONLogger w0) = None <-> open_error os !! logPath os <> None)).
Proof.
  split.
  - intros err ->. reflexivity.
  - intros ->. unfold startup, handlers_init, logging_init, exec.
    rewrite bind_unfold. unfold NewStructured, os_OpenFile. fold (logPath os).
    unfold logPath, os_Getenv.
    destruct (open_error os !! _) as [err|]; cbn;
      eexists; (split; [reflexivity|]); repeat split; try reflexivity;
      try (intros; unfold counterTotal; cbn; rewrite lookup_empty; reflexivity);
      try discriminate; try congruence.
Qed.

Lemma startup_fatal_only_without_counter_witness :
  startup readOnlyOS (Some "no meter provider") (entropy []) =
    Fatal "failed to create orders_processed_total counter: no meter provider".
Proof.
  apply (startup_fatal_only_without_counter readOnlyOS (Some "no meter provider")
           (entropy [])).
  reflexivity.
Defined.

(* ===================================================================== *)
(** ** The order pipeline: spans, latency, responses *)
(* ===================================================================== *)

Lemma Logger_log_spans l ctx level message attrs w :
  Logger_log l ctx level message attrs w =
    (tt, mkWorld (rand_src w) (rand_pos w) (clock w)
           (logSpans (trace_SpanFromContext ctx) level message attrs (spans w))
           (ordersProcessedCounter w)
           (if IsValid (spanContextIn (spans w) (trace_SpanFromContext ctx))
            then console w else console w ++ [LogLine level message attrs])
           (logfile w) (JSONLogger w)
           (calls w ++ [CallLoggerLog ctx level message attrs])).
Proof. apply Logger_log_run. Qed.

Ltac runp_cbn :=
  cbn -[insert lookup Logger_log JSONLogger_Info JSONLogger_Error updateStore newSpan
        spanContextIn logSpans IsValid errorResponse rw_Write Z.add N.modulo length];
  unfold trace_ContextWithSpan.

Ltac runp_simpl :=
  runp_cbn; rewrite ?insert_snoc; rewrite ?updateStore_snoc by reflexivity.

Ltac runp_logger :=
  lazymatch goal with
  | |- context [bind (Logger_log ?l ?c ?lv ?m ?a) ?k ?W] =>
      rewrite (bind_step _ k W _ _ (Logger_log_spans l c lv m a W))
  | |- context [bind (JSONLogger_Info ?c ?m ?a) ?k ?W] =>
      let E := fresh "E" in
      destruct (JSONLogger_Info_frame c m a W) as (? & ? & E);
      rewrite (bind_step _ k W _ _ E); clear E
  | |- context [bind (JSONLogger_Error ?c ?m ?a) ?k ?W] =>
      let E := fresh "E" in
      destruct (JSONLogger_Error_frame c m a W) as (? & ? & E);
      rewrite (bind_step _ k W _ _ E); clear E
  end.

(** As [run_step], keeping the span store exact across [Logger.log]. *)
Ltac runp_step :=
  rewrite ?bind_assoc;
  unfold Logger_Info, Logger_Error;
  first
    [ runp_logger
    | lazymatch goal with
      | |- context [bind ?m ?k ?W] =>
          erewrite (bind_step m k W) by (runp_simpl; reflexivity)
      end ];
  cbv beta iota.

Ltac runp := repeat runp_step; runp_simpl.

(** The span store an order request leaves on the success path. *)
Lemma CreateOrderHandler_success_spans w rw r :
  draw w 1 10 <> 0%N ->
  let h := length (spans w) in
  let s := ctx_span (r_ctx r) in
  let db := endSpan (setStatus codes.Ok "order record inserted"
              (newSpan (spanContextIn (spans w) s) h "db.insert_order")) in
  let pay := endSpan (setStatus codes.Ok "payment processed successfully"
               (newSpan (spanContextIn (spans w ++ [db]) s) (S h) "payment.process")) in
  let marked := updateStore s (setStatus codes.Ok "order created successfully")
                  (spans w ++ [db; pay]) in
  let logged := logSpans s "INFO" "Order created successfully"
                  [attribute.Int "order.id" (Z.of_N (draw w 4 1000))] marked in
  spans (exec (CreateOrderHandler rw r) w) =
    if rw_broken rw
    then logSpans s "ERROR" "Error encoding response"
           [attribute.String "error.reason" "write: broken pipe"] logged
    else logged.
Proof.
  destruct w as [src pos clk sps cnt con lf jl cs]; destruct r as [ctx];
    destruct rw as [hd st bd br].
  unfold draw. cbn -[N.modulo]. intros Hb.
  unfold exec, CreateOrderHandler. run_cbn.
  destruct (Z.of_N (src (S pos) mod 10) =? 0) eqn:Hz; [apply Z.eqb_eq in Hz; lia|].
  unfold trace_SpanFromContext.
  runp.
  destruct br, st; run_writer; runp;
    rewrite ?length_app; cbn [length]; rewrite ?Nat.add_1_r;
    rewrite <- ?app_assoc; reflexivity.
Qed.

Lemma updateStore_length s f ss : length (updateStore s f ss) = length ss.
Proof.
  unfold updateStore. destruct s as [|h]; [reflexivity|].
  destruct (ss !! h) as [sp|]; [|reflexivity].
  destruct (sp_ended sp); [reflexivity | apply length_insert].
Qed.

Lemma updateStore_lookup_other s f ss i :
  s <> sdkSpan i -> updateStore s f ss !! i = ss !! i.
Proof.
  intros Hs. unfold updateStore. destruct s as [|h]; [reflexivity|].
  destruct (ss !! h) as [sp|]; [|reflexivity].
  destruct (sp_ended sp); [reflexivity|].
  apply list_lookup_insert_ne. congruence.
Qed.

Lemma updateStore_lookup_ended s f ss i sp :
  ss !! i = Some sp -> sp_ended sp = true -> updateStore s f ss !! i = Some sp.
Proof.
  intros Hl He. destruct s as [|h]; [exact Hl|].
  destruct (Nat.eq_dec h i) as [->|Hne].
  - unfold updateStore. rewrite Hl, He. exact Hl.
  - rewrite updateStore_lookup_other by congruence. exact Hl.
Qed.

Lemma updateStore_active f ss h sp :
  ss !! h = Some sp -> sp_ended sp = false ->
  updateStore (sdkSpan h) f ss = <[h := f sp]> ss.
Proof. intros Hl He. unfold updateStore. rewrite Hl, He. reflexivity. Qed.

Lemma logSpans_length s level message attrs ss :
  length (logSpans s level message attrs ss) = length ss.
Proof. unfold logSpans. destruct (IsValid _); [apply updateStore_length | reflexivity]. Qed.

Lemma logSpans_lookup_other s level message attrs ss i :
  s <> sdkSpan i -> logSpans s level message attrs ss !! i = ss !! i.
Proof.
  intros Hs. unfold logSpans. destruct (IsValid _); [|reflexivity].
  apply updateStore_lookup_other. exact Hs.
Qed.

Lemma logSpans_lookup_ended s level message attrs ss i sp :
  ss !! i = Some sp -> sp_ended sp = true ->
  logSpans s level message attrs ss !! i = Some sp.
Proof.
  intros Hl He. unfold logSpans. destruct (IsValid _); [|exact Hl].
  apply updateStore_lookup_ended; assumption.
Qed.

Lemma logSpans_active level message attrs ss h sp :
  ss !! h = Some sp -> IsValid (sp_context sp) = true -> sp_ended sp = false ->
  logSpans (sdkSpan h) level message attrs ss =
    <[h := addEvent (logEvent level message attrs) sp]> ss.
Proof.
  intros Hl Hv He. unfold logSpans, spanContextIn, lookupSpan. rewrite Hl, Hv.
  apply updateStore_active; assumption.
Qed.

(** The spans an order request opens on the success path are in the store,
    ended, when it returns, whatever the request's context is. *)
Lemma CreateOrderHandler_success_children w rw r :
  draw w 1 10 <> 0%N ->
  let h := length (spans w) in
  let w' := exec (CreateOrderHandler rw r) w in
  exists db pay,
    length (spans w') = S (S h) /\
    spans w' !! h = Some db /\ spans w' !! S h = Some pay /\
    sp_name db = "db.insert_order" /\ sp_status db = codes.Ok /\ sp_ended db = true /\
    sp_name pay = "payment.process" /\ sp_status pay = codes.Ok /\ sp_ended pay = true /\
    (forall i, i <> h -> i <> S h -> ctx_span (r_ctx r) <> sdkSpan i ->
       spans w' !! i = spans w !! i).
Proof.
  intros Hb h w'. subst w'.
  pose proof (CreateOrderHandler_success_spans w rw r Hb) as E. cbv zeta in E.
  fold h in E.
  set (s := ctx_span (r_ctx r)) in *.
  set (db := endSpan (setStatus codes.Ok "order record inserted" _)) in E.
  set (pay := endSpan (setStatus codes.Ok "payment processed successfully" _)) in E.
  assert (Hdb : (spans w ++ [db; pay]) !! h = Some db).
  { subst h. rewrite lookup_app_r by lia. rewrite Nat.sub_diag. reflexivity. }
  assert (Hpay : (spans w ++ [db; pay]) !! S h = Some pay).
  { subst h. rewrite lookup_app_r by lia.
    replace (S (length (spans w)) - length (spans w))%nat with 1%nat by lia.
    reflexivity. }
  assert (Hlen : length (spans w ++ [db; pay]) = S (S h)).
  { rewrite length_app. cbn [length]. subst h. lia. }
  assert (Hold : forall i, i <> h -> i <> S h -> (spans w ++ [db; pay]) !! i = spans w !! i).
  { intros i H1 H2. destruct (Nat.lt_ge_cases i h) as [Hlt|Hge].
    - apply lookup_app_l. exact Hlt.
    - rewrite !lookup_ge_None_2; [reflexivity | subst h; lia | rewrite Hlen; lia]. }
  exists db, pay. rewrite E.
  destruct (rw_broken rw);
    rewrite ?logSpans_length, ?updateStore_length, Hlen;
    (split; [reflexivity|]);
    (split; [repeat first [apply logSpans_lookup_ended | apply updateStore_lookup_ended];
             solve [exact Hdb | reflexivity]|]);
    (split; [repeat first [apply logSpans_lookup_ended | apply updateStore_lookup_ended];
             solve [exact Hpay | reflexivity]|]);
    (repeat (split; [reflexivity|]));
    intros i H1 H2 Hs;
    rewrite ?logSpans_lookup_other, ?updateStore_lookup_other by exact Hs;
    apply Hold; assumption.
Qed.

(** X9. An order request on the success path, served under an active
    root span: the root span gets status Ok (the SDK keeps no description
    with Ok) and the Info record with the order identifier (0 to 999), and
    is still open when the handler returns; the two stage spans are
    children of the root span in the root's trace, Ok and ended; the success
    total grows by one; the response writer gets the JSON content type and
    the order body. *)
Theorem createOrder_success_under_root_span (w : World) (rw : ResponseWriter)
    (r : Request) (h0 : nat) (root : Span) :
  activeSpan w (r_ctx r) h0 root -> draw w 1 10 <> 0%N ->
  let w' := exec (CreateOrderHandler rw r) w in
  let rw' := eval (CreateOrderHandler rw r) w in
  let orderID := Z.of_N (draw w 4 1000) in
  let body := BodyOrder (mkOrderResponse "success" "Order created successfully") in
  let infoEv := logEvent "INFO" "Order created successfully"
                  [attribute.Int "order.id" orderID] in
  let errEv := logEvent "ERROR" "Error encoding response"
                 [attribute.String "error.reason" "write: broken pipe"] in
  0 <= orderID <= 999 /\
  (exists root' db pay,
     spans w' = <[h0 := root']> (spans w) ++ [db; pay] /\
     sp_status root' = codes.Ok /\
     sp_description root' = "" /\
     sp_ended root' = false /\
     sp_events root' = sp_events root ++ infoEv :: (if rw_broken rw then [errEv] else []) /\
     sp_name db = "db.insert_order" /\ sp_status db = codes.Ok /\ sp_ended db = true /\
     sp_parent db = sp_context root /\
     TraceID (sp_context db) = TraceID (sp_context root) /\
     sp_name pay = "payment.process" /\ sp_status pay = codes.Ok /\ sp_ended pay = true /\
     sp_parent pay = sp_context root /\
     TraceID (sp_context pay) = TraceID (sp_context root) /\
     SpanID (sp_context db) <> SpanID (sp_context pay)) /\
  counterTotal "success" w' = counterTotal "success" w + 1 /\
  counterTotal "failure" w' = counterTotal "failure" w /\
  rw' = (rw_Write (rw_HeaderSet rw "Content-Type" "application/json") body).1 /\
  (rw_status rw = None -> rw_status rw' = Some 200) /\
  (rw_broken rw = false -> rw_body rw' = rw_body rw ++ [body]).
Proof.
  intros Ha Hb w' rw' orderID body infoEv errEv.
  assert (Hid : (draw w 4 1000 < 1000)%N) by (apply draw_lt; lia).
  split; [subst orderID; lia|].
  destruct Ha as (Hc & Hl & Hv & He).
  assert (Hlt : (h0 < length (spans w))%nat) by (eapply lookup_lt_Some; exact Hl).
  split.
  { pose proof (CreateOrderHandler_success_spans w rw r Hb) as E. cbv zeta in E.
    rewrite Hc in E. subst w'. rewrite E. clear E.
    assert (Hp : forall k, spanContextIn (spans w ++ k) (sdkSpan h0) = sp_context root).
    { intros k. unfold spanContextIn, lookupSpan.
      rewrite lookup_app_l by exact Hlt. rewrite Hl. reflexivity. }
    rewrite (Hp [_]). specialize (Hp []). rewrite app_nil_r in Hp. rewrite Hp.
    set (db := endSpan _). set (pay := endSpan _).
    rewrite (updateStore_active _ _ h0 root)
      by (try (rewrite lookup_app_l by exact Hlt; exact Hl); exact He).
    set (marked := mkSpan (sp_name root) (sp_context root) (sp_parent root)
                     codes.Ok "" (sp_events root) (sp_ended root)).
    replace (setStatus codes.Ok "order created successfully" root) with marked
      by (unfold setStatus; destruct (sp_status root); reflexivity).
    rewrite (logSpans_active "INFO" _ _ _ h0 marked)
      by first [apply list_lookup_insert_eq; rewrite length_app; lia
               | exact Hv | exact He].
    rewrite list_insert_insert_eq.
    destruct (rw_broken rw).
    - rewrite (logSpans_active _ _ _ _ h0 (addEvent infoEv marked))
        by first [apply list_lookup_insert_eq; rewrite length_app; lia
               | exact Hv | exact He].
      rewrite list_insert_insert_eq, insert_app_l by exact Hlt.
      do 3 eexists. split; [reflexivity|].
      cbn. rewrite <- app_assoc. rewrite Hv.
      repeat split; try reflexivity; try exact He. lia.
    - rewrite insert_app_l by exact Hlt.
      do 3 eexists. split; [reflexivity|].
      cbn. rewrite Hv. repeat split; try reflexivity; try exact He. lia. }
  destruct (CreateOrderHandler_success w rw r Hb) as (ss & con & lf & E).
  subst w' rw'. unfold exec, eval, counterTotal. rewrite E.
  cbn [fst snd ordersProcessedCounter]. unfold statusSuccess.
  rewrite lookup_insert_eq, lookup_insert_ne by discriminate.
  split; [reflexivity|]. split; [reflexivity|]. split; [reflexivity|].
  destruct rw as [hd st bd br]. unfold rw_Write, rw_WriteHeader, rw_HeaderSet. cbn.
  split; [intros ->; destruct br; reflexivity|].
  intros ->. destruct st; reflexivity.
Qed.

(** The entropy words 5, 3, 1, 7, 123 under the open root span: the order
    identifier 123 is logged onto the root span. *)
Lemma createOrder_success_under_root_span_witness :
  let w := exampleWorld [5; 3; 1; 7; 123]%N openLogger in
  let w' := exec (CreateOrderHandler exampleWriter exampleRequest) w in
  activeSpan w (r_ctx exampleRequest) 0 rootSpan /\ draw w 1 10 <> 0%N /\
  counterTotal "success" w' = 1.
Proof.
  intros w w'.
  assert (Ha : activeSpan w (r_ctx exampleRequest) 0 rootSpan)
    by (repeat split; reflexivity).
  assert (Hb : draw w 1 10 <> 0%N) by (vm_compute; discriminate).
  split; [exact Ha|]. split; [exact Hb|].
  destruct (createOrder_success_under_root_span w exampleWriter exampleRequest 0
              rootSpan Ha Hb) as (_ & _ & H & _).
  exact H.
Defined.

(** X10. The simulated latency of an order request is the sum of its
    sleeps and is bounded on every path: 40 to 128 ms for a database
    failure (two sleeps), 80 to 228 ms for a payment failure (two sleeps),
    120 to 347 ms for a success (three sleeps); a failing request consumes
    four random values, a succeeding one five. *)
Theorem createOrder_latency_bounds (w : World) (rw : ResponseWriter) (r : Request) :
  let w' := exec (CreateOrderHandler rw r) w in
  let cs := requestCalls (CreateOrderHandler rw r) w in
  let elapsed := clock w' - clock w in
  elapsed = foldr Z.add 0 (sleptDurations cs) /\
  Forall (fun d => 10 <= d <= 149) (sleptDurations cs) /\
  40 <= elapsed <= 347 /\
  match pathOf w with
  | DBFailure =>
      length (sleptDurations cs) = 2%nat /\ 40 <= elapsed <= 128 /\
      rand_pos w' = (4 + rand_pos w)%nat
  | PaymentFailure =>
      length (sleptDurations cs) = 2%nat /\ 80 <= elapsed <= 228 /\
      rand_pos w' = (4 + rand_pos w)%nat
  | Success =>
      length (sleptDurations cs) = 3%nat /\ 120 <= elapsed <= 347 /\
      rand_pos w' = (5 + rand_pos w)%nat
  end.
Proof.
  intros w' cs elapsed. subst w' cs elapsed. unfold pathOf.
  assert (H0 : (draw w 0 50 < 50)%N) by (apply draw_lt; lia).
  destruct (N.eqb_spec (draw w 1 10) 0) as [Hb|Hb].
  - destruct (N.eqb_spec (draw w 2 2) 0) as [Hc|Hc].
    + destruct (CreateOrderHandler_db_failure w rw r Hb Hc) as (con & lf & E).
      assert (H3 : (draw w 3 40 < 40)%N) by (apply draw_lt; lia).
      rewrite (requestCalls_app _ _ _ (f_equal (fun p => calls p.2) E)).
      unfold exec. rewrite E. cbn [snd clock rand_pos sleptDurations omap list_omap foldr length].
      repeat split; try lia. repeat constructor; lia.
    + destruct (CreateOrderHandler_payment_failure w rw r Hb Hc) as (p & con & lf & E).
      assert (H3 : (draw w 3 100 < 100)%N) by (apply draw_lt; lia).
      rewrite (requestCalls_app _ _ _ (f_equal (fun p => calls p.2) E)).
      unfold exec. rewrite E. cbn [snd clock rand_pos sleptDurations omap list_omap foldr length].
      repeat split; try lia. repeat constructor; lia.
  - destruct (CreateOrderHandler_success w rw r Hb) as (ss & con & lf & E).
    assert (H2 : (draw w 2 100 < 100)%N) by (apply draw_lt; lia).
    assert (H3 : (draw w 3 80 < 80)%N) by (apply draw_lt; lia).
    rewrite (requestCalls_app _ _ _ (f_equal (fun p => calls p.2) E)).
    unfold exec. rewrite E.
    destruct (rw_broken rw);
      cbn [snd clock rand_pos sleptDurations omap list_omap foldr length app];
      (repeat split; try lia); repeat constructor; lia.
Qed.

Lemma statusesSet_nonempty (k : nat) (code : codes.Code) (d : string) (cs : list Call) :
  In (CallSetStatus (sdkSpan k) code d) cs -> statusesSet k cs <> [].
Proof.
  induction cs as [|c cs IH]; [intros []|]. intros [->|Hin].
  - cbn. rewrite Nat.eqb_refl. discriminate.
  - specialize (IH Hin). unfold statusesSet in *. cbn [omap list_omap].
    destruct (match c with
              | CallSetStatus (sdkSpan h') code0 _ =>
                  if Nat.eqb k h' then Some code0 else None
              | _ => None
              end); [discriminate | exact IH].
Qed.

Ltac status_set :=
  repeat constructor;
  first [ eapply (statusesSet_nonempty _ codes.Ok); cbn [beforeResponse app In];
          solve [repeat first [left; reflexivity | right]]
        | eapply (statusesSet_nonempty _ codes.Error); cbn [beforeResponse app In];
          solve [repeat first [left; reflexivity | right]] ].

(** X11. Every span an order request starts is ended, with a status set
    on it first, before the response is written: one span on the
    database-failure path, two on the other paths, ended in the order they
    were started.  In the span store they are the new entries, each ended
    and none left Unset. *)
Theorem createOrder_closes_its_spans (w : World) (rw : ResponseWriter) (r : Request) :
  let w' := exec (CreateOrderHandler rw r) w in
  let cs := requestCalls (CreateOrderHandler rw r) w in
  let h := length (spans w) in
  startedHandles cs =
    match pathOf w with DBFailure => [h] | _ => [h; S h] end /\
  endedHandles (beforeResponse cs) = startedHandles cs /\
  endedHandles cs = startedHandles cs /\
  Forall (fun k => statusesSet k (beforeResponse cs) <> []) (startedHandles cs) /\
  length (spans w') = (h + length (startedHandles cs))%nat /\
  (forall i sp, (h <= i)%nat -> spans w' !! i = Some sp ->
     sp_ended sp = true /\ sp_status sp <> codes.Unset).
Proof.
  intros w' cs h. subst w' cs. unfold pathOf.
  destruct (N.eqb_spec (draw w 1 10) 0) as [Hb|Hb].
  - destruct (N.eqb_spec (draw w 2 2) 0) as [Hc|Hc].
    + destruct (CreateOrderHandler_db_failure w rw r Hb Hc) as (con & lf & E).
      rewrite (requestCalls_app _ _ _ (f_equal (fun p => calls p.2) E)).
      unfold exec. rewrite E. cbn [snd spans]. subst h.
      cbn [startedHandles endedHandles beforeResponse omap list_omap length].
      split; [reflexivity|]. split; [reflexivity|]. split; [reflexivity|].
      split; [status_set|].
      split; [rewrite length_app; reflexivity|].
      intros i sp Hi Hl. rewrite lookup_app_r in Hl by exact Hi.
      destruct (i - length (spans w))%nat as [|n]; cbn in Hl; [|discriminate Hl].
      injection Hl as <-. split; [reflexivity | discriminate].
    + destruct (CreateOrderHandler_payment_failure w rw r Hb Hc) as (p & con & lf & E).
      rewrite (requestCalls_app _ _ _ (f_equal (fun p => calls p.2) E)).
      unfold exec. rewrite E. cbn [snd spans]. subst h.
      cbn [startedHandles endedHandles beforeResponse omap list_omap length].
      split; [reflexivity|]. split; [reflexivity|]. split; [reflexivity|].
      split; [status_set|].
      split; [rewrite length_app; reflexivity|].
      intros i sp Hi Hl. rewrite lookup_app_r in Hl by exact Hi.
      destruct (i - length (spans w))%nat as [|[|n]]; cbn in Hl; [| |discriminate Hl];
        injection Hl as <-; (split; [reflexivity | discriminate]).
  - destruct (CreateOrderHandler_success w rw r Hb) as (ss & con & lf & E).
    rewrite (requestCalls_app _ _ _ (f_equal (fun p => calls p.2) E)).
    destruct (CreateOrderHandler_success_children w rw r Hb)
      as (db & pay & Hlen & Hdb & Hpay & _ & Hsd & Hed & _ & Hsp & Hep & _).
    fold h in Hlen, Hdb, Hpay.
    assert (Hcalls :
      startedHandles (requestCalls (CreateOrderHandler rw r) w) = [h; S h]
      -> True) by trivial. clear Hcalls.
    split; [destruct (rw_broken rw); reflexivity|].
    split; [destruct (rw_broken rw); reflexivity|].
    split; [destruct (rw_broken rw); reflexivity|].
    split.
    { destruct (rw_broken rw);
        cbn [startedHandles endedHandles beforeResponse omap list_omap app];
        status_set. }
    split.
    { rewrite Hlen. destruct (rw_broken rw); cbn; lia. }
    intros i sp Hi Hl.
    destruct (Nat.eq_dec i h) as [->|H1].
    { rewrite Hdb in Hl. injection Hl as <-. split; [exact Hed | rewrite Hsd; discriminate]. }
    destruct (Nat.eq_dec i (S h)) as [->|H2].
    { rewrite Hpay in Hl. injection Hl as <-. split; [exact Hep | rewrite Hsp; discriminate]. }
    rewrite lookup_ge_None_2 in Hl by (rewrite Hlen; lia). discriminate Hl.
Qed.

(** X12. When the connection refuses the response write, both handlers
    only log it: the status line stays 200, no body is added, the two
    loggers each get one Error record naming the write error, and an order
    that succeeded is still counted as a success.  On the failure paths of
    the order handler the refused write is not even logged: the status is
    500 and the only Error records are those of the simulated failure. *)
Theorem refused_response_write_is_only_logged (w : World) (rw : ResponseWriter)
    (r : Request) :
  rw_broken rw = true -> rw_status rw = None ->
  let ctx := r_ctx r in
  let reason := [attribute.String "error.reason" "write: broken pipe"] in
  (let rw' := eval (CheckInventoryHandler rw r) w in
   let cs := requestCalls (CheckInventoryHandler rw r) w in
   rw_status rw' = Some 200 /\ rw_body rw' = rw_body rw /\
   errorLogs cs =
     [CallLoggerLog ctx "ERROR" "Error encoding inventory response" reason;
      CallStructuredWrite ctx "ERROR" "Error encoding inventory response" reason]) /\
  (let rw' := eval (CreateOrderHandler rw r) w in
   let cs := requestCalls (CreateOrderHandler rw r) w in
   rw_body rw' = rw_body rw /\
   (draw w 1 10 <> 0%N ->
      rw_status rw' = Some 200 /\
      counterAdds cs = [(1, "success")] /\
      errorLogs cs =
        [CallLoggerLog ctx "ERROR" "Error encoding response" reason;
         CallStructuredWrite ctx "ERROR" "Error encoding response" reason]) /\
   (draw w 1 10 = 0%N ->
      rw_status rw' = Some 500 /\
      counterAdds cs = [(1, "failure")] /\
      length (errorLogs cs) = 2%nat /\
      Forall (fun c => match c with
                       | CallLoggerLog _ _ m _ | CallStructuredWrite _ _ m _ =>
                           m = "database operation failed" \/
                           m = "payment processing failed"
                       | _ => False
                       end) (errorLogs cs))).
Proof.
  intros Hbr Hst ctx reason. destruct rw as [hd st bd br]. cbn in Hbr, Hst. subst br st.
  split.
  - destruct (CheckInventoryHandler_run w (mkRW hd None bd true) r) as (ss & con & lf & E).
    rewrite (requestCalls_app _ _ _ (f_equal (fun p => calls p.2) E)).
    unfold eval. rewrite E. repeat split; reflexivity.
  - destruct (N.eqb_spec (draw w 1 10) 0) as [Hb|Hb].
    + destruct (N.eqb_spec (draw w 2 2) 0) as [Hc|Hc].
      * destruct (CreateOrderHandler_db_failure w (mkRW hd None bd true) r Hb Hc)
          as (con & lf & E).
        rewrite (requestCalls_app _ _ _ (f_equal (fun p => calls p.2) E)).
        unfold eval. rewrite E.
        split; [reflexivity|]. split; [intros; contradiction|]. intros _.
        split; [reflexivity|]. split; [reflexivity|]. split; [reflexivity|].
        cbn. repeat constructor; tauto.
      * destruct (CreateOrderHandler_payment_failure w (mkRW hd None bd true) r Hb Hc)
          as (p & con & lf & E).
        rewrite (requestCalls_app _ _ _ (f_equal (fun p => calls p.2) E)).
        unfold eval. rewrite E.
        split; [reflexivity|]. split; [intros; contradiction|]. intros _.
        split; [reflexivity|]. split; [reflexivity|]. split; [reflexivity|].
        cbn. repeat constructor; tauto.
    + destruct (CreateOrderHandler_success w (mkRW hd None bd true) r Hb)
        as (ss & con & lf & E).
      rewrite (requestCalls_app _ _ _ (f_equal (fun p => calls p.2) E)).
      unfold eval. rewrite E.
      split; [reflexivity|]. split; [|intros; contradiction]. intros _.
      repeat split; reflexivity.
Qed.

(** An inventory request on a refusing connection: status 200, no body. *)
Lemma refused_response_write_is_only_logged_witness :
  let rw' := eval (CheckInventoryHandler brokenWriter exampleRequest)
               (exampleWorld [345]%N openLogger) in
  rw_broken brokenWriter = true /\ rw_status brokenWriter = None /\
  rw_status rw' = Some 200 /\ rw_body rw' = [].
Proof.
  intros rw'.
  destruct (refused_response_write_is_only_logged (exampleWorld [345]%N openLogger)
              brokenWriter exampleRequest eq_refl eq_refl) as ((Hs & Hb & _) & _).
  split; [reflexivity|]. split; [reflexivity|]. split; [exact Hs | exact Hb].
Defined.

(* ===================================================================== *)
(** ** What serving requests never undoes *)
(* ===================================================================== *)

Lemma laterSpan_refl sp : laterSpan sp sp.
Proof. repeat split; reflexivity. Qed.

Lemma laterSpan_trans sp1 sp2 sp3 :
  laterSpan sp1 sp2 -> laterSpan sp2 sp3 -> laterSpan sp1 sp3.
Proof.
  intros (Hn & Hc & Hp & He & Hf) (Hn' & Hc' & Hp' & He' & Hf').
  repeat split; try congruence.
  - etransitivity; eassumption.
  - intros Hend. specialize (Hf Hend). subst sp2. apply Hf'. exact Hend.
Qed.

Lemma laterWorld_refl w : laterWorld w w.
Proof.
  unfold laterWorld. repeat (split; [reflexivity|]).
  intros i sp Hl. exists sp. split; [exact Hl | apply laterSpan_refl].
Qed.

Lemma laterWorld_trans w1 w2 w3 :
  laterWorld w1 w2 -> laterWorld w2 w3 -> laterWorld w1 w3.
Proof.
  intros (Hs & Hp & Hj & Hc & Ho & Hf & Hn & Hsp) (Hs' & Hp' & Hj' & Hc' & Ho' & Hf' & Hn' & Hsp').
  repeat split; try congruence; try (etransitivity; eassumption).
  - intros label. specialize (Hn label). specialize (Hn' label). lia.
  - intros i sp Hl. destruct (Hsp i sp Hl) as (sp2 & Hl2 & H12).
    destruct (Hsp' i sp2 Hl2) as (sp3 & Hl3 & H23).
    exists sp3. split; [exact Hl3 | eapply laterSpan_trans; eassumption].
Qed.

Lemma advances_ret {A} (a : A) : advances (ret a).
Proof. intros w. apply laterWorld_refl. Qed.

Lemma advances_bind {A B} (m : M A) (k : A -> M B) :
  advances m -> (forall a, advances (k a)) -> advances (bind m k).
Proof.
  intros Hm Hk w. rewrite exec_bind.
  eapply laterWorld_trans; [apply Hm | apply Hk].
Qed.

Lemma laterWorld_intro w w' :
  rand_src w' = rand_src w -> (rand_pos w <= rand_pos w')%nat ->
  JSONLogger w' = JSONLogger w ->
  calls w `prefix_of` calls w' -> console w `prefix_of` console w' ->
  logfile w `prefix_of` logfile w' ->
  (forall label, counterTotal label w <= counterTotal label w') ->
  (forall i sp, spans w !! i = Some sp ->
     exists sp', spans w' !! i = Some sp' /\ laterSpan sp sp') ->
  laterWorld w w'.
Proof. unfold laterWorld. tauto. Qed.

Lemma laterWorld_spans_same w w' :
  rand_src w' = rand_src w -> (rand_pos w <= rand_pos w')%nat ->
  JSONLogger w' = JSONLogger w ->
  calls w `prefix_of` calls w' -> console w `prefix_of` console w' ->
  logfile w `prefix_of` logfile w' ->
  ordersProcessedCounter w' = ordersProcessedCounter w ->
  spans w' = spans w ->
  laterWorld w w'.
Proof.
  intros Hs Hp Hj Hc Ho Hf Hn Hsp. apply laterWorld_intro; try assumption.
  - intros label. unfold counterTotal. rewrite Hn. lia.
  - intros i sp Hl. exists sp. rewrite Hsp. split; [exact Hl | apply laterSpan_refl].
Qed.

Lemma advances_record c : advances (record c).
Proof.
  intros w. apply laterWorld_spans_same; cbn; try reflexivity.
  apply prefix_app_r. reflexivity.
Qed.

Lemma advances_rand_IntN n : advances (rand_IntN n).
Proof.
  intros w. apply laterWorld_spans_same; cbn; try reflexivity; [lia|].
  apply prefix_app_r. reflexivity.
Qed.

Lemma advances_time_Sleep ms : advances (time_Sleep ms).
Proof.
  intros w. apply laterWorld_spans_same; cbn; try reflexivity.
  apply prefix_app_r. reflexivity.
Qed.

Lemma advances_time_Now : advances time_Now.
Proof. intros w. apply laterWorld_refl. Qed.

Lemma advances_log_Printf line : advances (log_Printf line).
Proof.
  intros w. apply laterWorld_spans_same; cbn; try reflexivity.
  apply prefix_app_r. reflexivity.
Qed.

Lemma advances_span_SpanContext s : advances (span_SpanContext s).
Proof. intros w. apply laterWorld_refl. Qed.

Lemma advances_encoder_Encode enc entry : advances (encoder_Encode enc entry).
Proof.
  intros w. unfold exec, encoder_Encode. destruct (entry_encodable entry); cbn.
  - apply laterWorld_spans_same; cbn; try reflexivity.
    apply prefix_app_r. reflexivity.
  - apply laterWorld_refl.
Qed.

Lemma advances_updateSpan s f :
  (forall sp, sp_ended sp = false -> laterSpan sp (f sp)) -> advances (updateSpan s f).
Proof.
  intros Hf w. unfold exec, updateSpan. cbn [snd].
  apply laterWorld_intro; try reflexivity.
  - intros i sp Hl. cbn [spans set_spans].
    destruct s as [|h]; [exists sp; split; [exact Hl | apply laterSpan_refl]|].
    destruct (Nat.eq_dec h i) as [->|Hne].
    + unfold updateStore. rewrite Hl. destruct (sp_ended sp) eqn:He.
      * exists sp. split; [exact Hl | apply laterSpan_refl].
      * exists (f sp). split; [|apply Hf; exact He].
        apply list_lookup_insert_eq. eapply lookup_lt_Some. exact Hl.
    + exists sp. split; [|apply laterSpan_refl].
      rewrite updateStore_lookup_other by congruence. exact Hl.
Qed.

Lemma advances_span_SetStatus s c d : advances (span_SetStatus s c d).
Proof.
  apply advances_bind; [apply advances_record|]. intros _.
  apply advances_updateSpan. intros sp He.
  destruct (setStatus_fields c d sp) as (Hn & Hc & Hp & Hev & Hen).
  unfold laterSpan. rewrite Hn, Hc, Hp, Hev.
  repeat split; try reflexivity. intros He'. congruence.
Qed.

Lemma advances_span_AddEvent s name attrs : advances (span_AddEvent s name attrs).
Proof.
  apply advances_updateSpan. intros sp He.
  repeat split; try reflexivity.
  - cbn. apply prefix_app_r. reflexivity.
  - intros He'. congruence.
Qed.

Lemma advances_span_RecordError s err : advances (span_RecordError s err).
Proof.
  apply advances_bind; [apply advances_record|]. intros _.
  apply advances_updateSpan. intros sp He.
  repeat split; try reflexivity.
  - cbn. apply prefix_app_r. reflexivity.
  - intros He'. congruence.
Qed.

Lemma advances_span_End s : advances (span_End s).
Proof.
  apply advances_bind; [apply advances_record|]. intros _.
  apply advances_updateSpan. intros sp He.
  repeat split; try reflexivity. intros He'. congruence.
Qed.

Lemma advances_tracer_Start t ctx name : advances (tracer_Start t ctx name).
Proof.
  apply advances_bind; [apply advances_span_SpanContext|]. intros parent w.
  unfold exec. cbn [snd]. cbn.
  repeat split; try reflexivity.
  - apply prefix_app_r. reflexivity.
  - intros i sp Hl. exists sp. split; [|apply laterSpan_refl].
    cbn. apply lookup_app_l_Some. exact Hl.
Qed.

Lemma advances_counter_Add ctx incr label :
  0 <= incr -> advances (ordersProcessedCounter_Add ctx incr label).
Proof.
  intros Hi. apply advances_bind; [apply advances_record|]. intros _ w.
  unfold exec. cbn [snd].
  apply laterWorld_intro; try reflexivity.
  - intros l. unfold counterTotal at 2. cbn.
    destruct (String.eqb_spec label l) as [->|Hne].
    + rewrite lookup_insert_eq. cbn. lia.
    + rewrite lookup_insert_ne by exact Hne. unfold counterTotal. lia.
  - intros i sp Hl. exists sp. split; [exact Hl | apply laterSpan_refl].
Qed.

Lemma advances_Logger_log l ctx level message attrs :
  advances (Logger_log l ctx level message attrs).
Proof.
  unfold Logger_log.
  apply advances_bind; [apply advances_record|]. intros _.
  apply advances_bind; [apply advances_span_SpanContext|]. intros sc.
  destruct (negb (IsValid sc)); [apply advances_log_Printf | apply advances_span_AddEvent].
Qed.

Lemma advances_StructuredLogger_write l ctx level message attrs :
  advances (StructuredLogger_write l ctx level message attrs).
Proof.
  unfold StructuredLogger_write.
  apply advances_bind; [apply advances_record|]. intros _.
  destruct (sl_encoder l); [|apply advances_log_Printf].
  apply advances_bind; [apply advances_span_SpanContext|]. intros sc.
  apply advances_bind; [apply advances_time_Now|]. intros now.
  apply advances_bind; [apply advances_encoder_Encode|]. intros _.
  apply advances_ret.
Qed.

Lemma advances_JSONLogger_Info ctx message attrs :
  advances (JSONLogger_Info ctx message attrs).
Proof. intros w. apply advances_StructuredLogger_write. Qed.

Lemma advances_JSONLogger_Error ctx message attrs :
  advances (JSONLogger_Error ctx message attrs).
Proof. intros w. apply advances_StructuredLogger_write. Qed.

(** Symbolic proof that a computation only moves the process forward:
    split at every bind and branch, close with the fact of the
    primitive. *)
Ltac advance_step :=
  lazymatch goal with
  | |- advances (bind _ _) => apply advances_bind; [|intros ?]
  | |- advances (ret _) => apply advances_ret
  | |- advances (record _) => apply advances_record
  | |- advances (rand_IntN _) => apply advances_rand_IntN
  | |- advances (time_Sleep _) => apply advances_time_Sleep
  | |- advances (span_SetStatus _ _ _) => apply advances_span_SetStatus
  | |- advances (span_RecordError _ _) => apply advances_span_RecordError
  | |- advances (span_End _) => apply advances_span_End
  | |- advances (tracer_Start _ _ _) => apply advances_tracer_Start
  | |- advances (ordersProcessedCounter_Add _ _ _) => apply advances_counter_Add; lia
  | |- advances (Logger_log _ _ _ _ _) => apply advances_Logger_log
  | |- advances (JSONLogger_Info _ _ _) => apply advances_JSONLogger_Info
  | |- advances (JSONLogger_Error _ _ _) => apply advances_JSONLogger_Error
  | |- advances (let '(_, _) := ?p in _) => destruct p
  | |- advances (if ?c then _ else _) => destruct c
  | |- advances (match ?x with _ => _ end) => destruct x
  end.

Ltac advance := repeat advance_step.

Lemma advances_handleRequestError ctx span message err stage :
  advances (handleRequestError ctx span message err stage).
Proof. unfold handleRequestError, Logger_Error. advance. Qed.

Lemma advances_CreateOrderHandler rw r : advances (CreateOrderHandler rw r).
Proof.
  unfold CreateOrderHandler, handleDBError, handlePaymentError, Logger_Info,
    Logger_Error, header_Set, json_Encode, http_Error.
  repeat first [advance_step | apply advances_handleRequestError].
Qed.

Lemma advances_CheckInventoryHandler rw r : advances (CheckInventoryHandler rw r).
Proof.
  unfold CheckInventoryHandler, Logger_Info, Logger_Error, header_Set, json_Encode.
  advance.
Qed.

Lemma advances_NewHandler handler operation rw r :
  (forall rw' r', advances (handler rw' r')) ->
  advances (otelhttp.NewHandler handler operation rw r).
Proof.
  intros Hh. unfold otelhttp.NewHandler.
  repeat first [advance_step | apply Hh].
Qed.

Lemma advances_dispatch route rw r : advances (dispatch route rw r).
Proof.
  destruct route; cbn [dispatch]; apply advances_NewHandler;
    [apply advances_CreateOrderHandler | apply advances_CheckInventoryHandler].
Qed.

Lemma advances_serve reqs : advances (serve reqs).
Proof.
  induction reqs as [|[[route rw] r] reqs IH]; [apply advances_ret|].
  cbn [serve]. apply advances_bind.
  - apply advances_dispatch.
  - intros rw'. apply advances_bind; [exact IH|]. intros ws. apply advances_ret.
Qed.

(** X13. Serving any batch of requests never lowers a counter total: each
    label's total grows by at least zero and at most the number of order
    requests in the batch. *)
Theorem serve_never_decrements_counter (reqs : list (Route * ResponseWriter * Request))
    (w : World) (label : string) :
  let w' := exec (serve reqs) w in
  let orders := Z.of_nat (length (List.filter isCreateOrder reqs)) in
  counterTotal label w <= counterTotal label w' /\
  counterTotal "success" w' <= counterTotal "success" w + orders /\
  counterTotal "failure" w' <= counterTotal "failure" w + orders.
Proof.
  intros w' orders. subst w' orders.
  destruct (advances_serve reqs w) as (_ & _ & _ & _ & _ & _ & Hn & _).
  pose proof (serve_counterSum reqs w) as Hs. unfold counterSum in Hs.
  pose proof (Hn statusSuccess) as H1. pose proof (Hn statusFailure) as H2.
  unfold statusSuccess, statusFailure in *.
  split; [apply Hn|]. lia.
Qed.

(** X14. Serving any batch of requests only appends: the lines already in
    the log file, the lines already printed and the calls already made stay
    where they are, in order, and the JSON logger stays the one installed at
    start-up. *)
Theorem serve_only_appends (reqs : list (Route * ResponseWriter * Request)) (w : World) :
  let w' := exec (serve reqs) w in
  (exists lines, logfile w' = logfile w ++ lines) /\
  (exists printed, console w' = console w ++ printed) /\
  (exists made, calls w' = calls w ++ made) /\
  JSONLogger w' = JSONLogger w /\
  rand_src w' = rand_src w.
Proof.
  intros w'. subst w'.
  destruct (advances_serve reqs w) as (Hs & _ & Hj & Hc & Ho & Hf & _).
  repeat split; assumption.
Qed.

(** X15. Serving any batch of requests keeps every span in the store under
    its handle, with its name, identifiers and parent; events are only
    appended to it; and a span that had ended is not changed at all. *)
Theorem serve_keeps_spans (reqs : list (Route * ResponseWriter * Request)) (w : World)
    (i : nat) (sp : Span) :
  spans w !! i = Some sp ->
  exists sp',
    spans (exec (serve reqs) w) !! i = Some sp' /\
    sp_name sp' = sp_name sp /\ sp_context sp' = sp_context sp /\
    sp_parent sp' = sp_parent sp /\
    (exists events, sp_events sp' = sp_events sp ++ events) /\
    (sp_ended sp = true -> sp' = sp).
Proof.
  intros Hl.
  destruct (advances_serve reqs w) as (_ & _ & _ & _ & _ & _ & _ & Hsp).
  destruct (Hsp i sp Hl) as (sp' & Hl' & Hn & Hc & Hp & He & Hf).
  exists sp'. repeat split; assumption.
Qed.

(** Two requests served under the open root span: it is still span 0,
    with its name and identifiers. *)
Lemma serve_keeps_spans_witness :
  let w := exampleWorld [5; 3; 1; 7; 123; 345]%N openLogger in
  let reqs := [(createOrder, exampleWriter, exampleRequest);
               (checkInventory, exampleWriter, exampleRequest)] in
  exists sp',
    spans (exec (serve reqs) w) !! 0%nat = Some sp' /\
    sp_name sp' = "POST /createOrder" /\ sp_context sp' = mkSC 7 9.
Proof.
  intros w reqs.
  destruct (serve_keeps_spans reqs w 0 rootSpan eq_refl) as (sp' & Hl & Hn & Hc & _).
  exists sp'. split; [exact Hl|]. split; [exact Hn | exact Hc].
Defined.

(* ===================================================================== *)
(** ** Which spans a request can touch *)
(* ===================================================================== *)

(** The span store an inventory request leaves. *)
Lemma CheckInventoryHandler_spans w rw r :
  let s := ctx_span (r_ctx r) in
  let d := Z.of_N (draw w 0 601) + 200 in
  let logged := logSpans s "INFO" "Inventory checked successfully"
                  [attribute.Int "inventory.check.delay_ms" d] (spans w) in
  spans (exec (CheckInventoryHandler rw r) w) =
    if rw_broken rw
    then logSpans s "ERROR" "Error encoding inventory response"
           [attribute.String "error.reason" "write: broken pipe"] logged
    else logged.
Proof.
  destruct w as [src pos clk sps cnt con lf jl cs]; destruct r as [ctx];
    destruct rw as [hd st bd br].
  unfold draw, exec, CheckInventoryHandler, trace_SpanFromContext. runp.
  destruct br, st; run_writer; runp; reflexivity.
Qed.

Lemma updateStore_same_ended s f ss i sp :
  (forall x, sp_ended (f x) = sp_ended x) ->
  ss !! i = Some sp ->
  exists sp', updateStore s f ss !! i = Some sp' /\ sp_ended sp' = sp_ended sp.
Proof.
  intros Hf Hl. destruct s as [|h]; [exists sp; split; [exact Hl | reflexivity]|].
  destruct (Nat.eq_dec h i) as [->|Hne].
  - unfold updateStore. rewrite Hl. destruct (sp_ended sp) eqn:He.
    + exists sp. split; [exact Hl | exact He].
    + exists (f sp). split; [|rewrite Hf; exact He].
      apply list_lookup_insert_eq. eapply lookup_lt_Some. exact Hl.
  - exists sp. split; [|reflexivity].
    rewrite updateStore_lookup_other by congruence. exact Hl.
Qed.

Lemma logSpans_same_ended s level message attrs ss i sp :
  ss !! i = Some sp ->
  exists sp', logSpans s level message attrs ss !! i = Some sp' /\
              sp_ended sp' = sp_ended sp.
Proof.
  intros Hl. unfold logSpans. destruct (IsValid _).
  - apply updateStore_same_ended; [reflexivity | exact Hl].
  - exists sp. split; [exact Hl | reflexivity].
Qed.

(** X16. A request touches no span of the store other than the span of
    its own context and the spans it opens itself: every other span is
    exactly as before.  Neither handler ends the span of the request's
    context, and the inventory handler opens no span at all. *)
Theorem handlers_touch_only_their_spans (w : World) (rw : ResponseWriter) (r : Request)
    (i : nat) (sp : Span) :
  spans w !! i = Some sp ->
  let wo := exec (CreateOrderHandler rw r) w in
  let wi := exec (CheckInventoryHandler rw r) w in
  (ctx_span (r_ctx r) <> sdkSpan i ->
     spans wo !! i = Some sp /\ spans wi !! i = Some sp) /\
  (exists sp', spans wo !! i = Some sp' /\ sp_ended sp' = sp_ended sp) /\
  (exists sp', spans wi !! i = Some sp' /\ sp_ended sp' = sp_ended sp) /\
  length (spans wi) = length (spans w).
Proof.
  intros Hl wo wi. subst wo wi.
  assert (Hlt : (i < length (spans w))%nat) by (eapply lookup_lt_Some; exact Hl).
  pose proof (CheckInventoryHandler_spans w rw r) as Ei. cbv zeta in Ei.
  assert (Ho_other : ctx_span (r_ctx r) <> sdkSpan i ->
            spans (exec (CreateOrderHandler rw r) w) !! i = Some sp).
  { intros Hs. destruct (N.eqb_spec (draw w 1 10) 0) as [Hb|Hb].
    - destruct (N.eqb_spec (draw w 2 2) 0) as [Hc|Hc].
      + destruct (CreateOrderHandler_db_failure w rw r Hb Hc) as (con & lf & E).
        unfold exec. rewrite E. cbn [snd spans]. apply lookup_app_l_Some. exact Hl.
      + destruct (CreateOrderHandler_payment_failure w rw r Hb Hc) as (p & con & lf & E).
        unfold exec. rewrite E. cbn [snd spans]. apply lookup_app_l_Some. exact Hl.
    - destruct (CreateOrderHandler_success_children w rw r Hb)
        as (_ & _ & _ & _ & _ & _ & _ & _ & _ & _ & _ & Hold).
      rewrite Hold by (try lia; exact Hs). exact Hl. }
  split; [|split; [|split]].
  - intros Hs. split; [apply Ho_other; exact Hs|].
    rewrite Ei. destruct (rw_broken rw);
      rewrite ?logSpans_lookup_other by exact Hs; exact Hl.
  - destruct (N.eqb_spec (draw w 1 10) 0) as [Hb|Hb].
    + exists sp. split; [|reflexivity].
      destruct (N.eqb_spec (draw w 2 2) 0) as [Hc|Hc].
      * destruct (CreateOrderHandler_db_failure w rw r Hb Hc) as (con & lf & E).
        unfold exec. rewrite E. cbn [snd spans]. apply lookup_app_l_Some. exact Hl.
      * destruct (CreateOrderHandler_payment_failure w rw r Hb Hc) as (p & con & lf & E).
        unfold exec. rewrite E. cbn [snd spans]. apply lookup_app_l_Some. exact Hl.
    + pose proof (CreateOrderHandler_success_spans w rw r Hb) as E. cbv zeta in E.
      rewrite E. clear E.
      set (db := endSpan _). set (pay := endSpan (setStatus _ _ (newSpan _ (S _) _))).
      assert (H0 : (spans w ++ [db; pay]) !! i = Some sp)
        by (apply lookup_app_l_Some; exact Hl).
      destruct (updateStore_same_ended (ctx_span (r_ctx r))
                  (setStatus codes.Ok "order created successfully") _ i sp
                  (setStatus_ended _ _) H0) as (sp1 & H1 & E1).
      destruct (logSpans_same_ended (ctx_span (r_ctx r)) "INFO"
                  "Order created successfully"
                  [attribute.Int "order.id" (Z.of_N (draw w 4 1000))] _ i sp1 H1)
        as (sp2 & H2 & E2).
      destruct (rw_broken rw).
      * destruct (logSpans_same_ended (ctx_span (r_ctx r)) "ERROR"
                    "Error encoding response"
                    [attribute.String "error.reason" "write: broken pipe"] _ i sp2 H2)
          as (sp3 & H3 & E3).
        exists sp3. split; [exact H3 | congruence].
      * exists sp2. split; [exact H2 | congruence].
  - rewrite Ei.
    destruct (logSpans_same_ended (ctx_span (r_ctx r)) "INFO"
                "Inventory checked successfully"
                [attribute.Int "inventory.check.delay_ms" (Z.of_N (draw w 0 601) + 200)]
                _ i sp Hl) as (sp1 & H1 & E1).
    destruct (rw_broken rw).
    + destruct (logSpans_same_ended (ctx_span (r_ctx r)) "ERROR"
                  "Error encoding inventory response"
                  [attribute.String "error.reason" "write: broken pipe"] _ i sp1 H1)
        as (sp2 & H2 & E2).
      exists sp2. split; [exact H2 | congruence].
    + exists sp1. split; [exact H1 | exact E1].
  - rewrite Ei. destruct (rw_broken rw); rewrite ?logSpans_length; reflexivity.
Qed.

(** A second request, whose context has no span, leaves the open root span
    of the first as it is. *)
Lemma handlers_touch_only_their_spans_witness :
  let w := exampleWorld [5; 3; 1; 7; 123]%N openLogger in
  let other := mkRequest backgroundContext in
  spans (exec (CreateOrderHandler exampleWriter other) w) !! 0%nat = Some rootSpan.
Proof.
  intros w other.
  destruct (handlers_touch_only_their_spans w exampleWriter other 0 rootSpan eq_refl)
    as (H & _).
  apply H. discriminate.
Defined.

(* ===================================================================== *)
(** ** The log file line of an order request *)
(* ===================================================================== *)

Lemma JSONLogger_Info_run ctx message attrs w :
  JSONLogger_Info ctx message attrs w =
    (tt, mkWorld (rand_src w) (rand_pos w) (clock w) (spans w)
           (ordersProcessedCounter w)
           (match sl_encoder (JSONLogger w) with
            | None => console w ++ [LogLine "INFO" message attrs]
            | Some _ => console w
            end)
           (match sl_encoder (JSONLogger w) with
            | None => logfile w
            | Some _ =>
                if entry_encodable
                     (buildEntry (clock w)
                        (spanContextIn (spans w) (trace_SpanFromContext ctx))
                        "INFO" message attrs)
                then logfile w ++
                       [buildEntry (clock w)
                          (spanContextIn (spans w) (trace_SpanFromContext ctx))
                          "INFO" message attrs]
                else logfile w
            end)
           (JSONLogger w)
           (calls w ++ [CallStructuredWrite ctx "INFO" message attrs])).
Proof. apply StructuredLogger_write_run. Qed.

Lemma JSONLogger_Error_run ctx message attrs w :
  JSONLogger_Error ctx message attrs w =
    (tt, mkWorld (rand_src w) (rand_pos w) (clock w) (spans w)
           (ordersProcessedCounter w)
           (match sl_encoder (JSONLogger w) with
            | None => console w ++ [LogLine "ERROR" message attrs]
            | Some _ => console w
            end)
           (match sl_encoder (JSONLogger w) with
            | None => logfile w
            | Some _ =>
                if entry_encodable
                     (buildEntry (clock w)
                        (spanContextIn (spans w) (trace_SpanFromContext ctx))
                        "ERROR" message attrs)
                then logfile w ++
                       [buildEntry (clock w)
                          (spanContextIn (spans w) (trace_SpanFromContext ctx))
                          "ERROR" message attrs]
                else logfile w
            end)
           (JSONLogger w)
           (calls w ++ [CallStructuredWrite ctx "ERROR" message attrs])).
Proof. apply StructuredLogger_write_run. Qed.

Ltac runq_cbn :=
  cbn -[insert lookup Logger_log JSONLogger_Info JSONLogger_Error updateStore newSpan
        spanContextIn logSpans IsValid errorResponse rw_Write Z.add N.modulo length
        buildEntry entry_encodable];
  unfold trace_ContextWithSpan.

Ltac runq_simpl :=
  runq_cbn; rewrite ?insert_snoc; rewrite ?updateStore_snoc by reflexivity;
  rewrite ?buildEntry_encodable by reflexivity.

Ltac runq_logger :=
  lazymatch goal with
  | |- context [bind (Logger_log ?l ?c ?lv ?m ?a) ?k ?W] =>
      rewrite (bind_step _ k W _ _ (Logger_log_spans l c lv m a W))
  | |- context [bind (JSONLogger_Info ?c ?m ?a) ?k ?W] =>
      rewrite (bind_step _ k W _ _ (JSONLogger_Info_run c m a W))
  | |- context [bind (JSONLogger_Error ?c ?m ?a) ?k ?W] =>
      rewrite (bind_step _ k W _ _ (JSONLogger_Error_run c m a W))
  end.

(** As [runp_step], keeping the log file exact as well. *)
Ltac runq_step :=
  rewrite ?bind_assoc;
  unfold Logger_Info, Logger_Error;
  first
    [ runq_logger; runq_simpl
    | lazymatch goal with
      | |- context [bind ?m ?k ?W] =>
          erewrite (bind_step m k W) by (runq_simpl; reflexivity)
      end ];
  cbv beta iota.

Ltac runq := repeat runq_step; runq_simpl.

Lemma spanContextIn_updateStore s f ss s' :
  (forall x, sp_context (f x) = sp_context x) ->
  spanContextIn (updateStore s f ss) s' = spanContextIn ss s'.
Proof.
  intros Hf. unfold spanContextIn, lookupSpan. destruct s' as [|k]; [reflexivity|].
  unfold updateStore. destruct s as [|h]; [reflexivity|].
  destruct (ss !! h) as [sp|] eqn:Hl; [|reflexivity].
  destruct (sp_ended sp); [reflexivity|].
  destruct (Nat.eq_dec h k) as [->|Hne].
  - rewrite list_lookup_insert_eq by (eapply lookup_lt_Some; exact Hl).
    rewrite Hl. apply Hf.
  - rewrite list_lookup_insert_ne by exact Hne. reflexivity.
Qed.

Lemma spanContextIn_logSpans s level message attrs ss s' :
  spanContextIn (logSpans s level message attrs ss) s' = spanContextIn ss s'.
Proof.
  unfold logSpans. destruct (IsValid _); [|reflexivity].
  apply spanContextIn_updateStore. reflexivity.
Qed.

Lemma spanContextIn_snoc ss sp :
  spanContextIn (ss ++ [sp]) (sdkSpan (length ss)) = sp_context sp.
Proof. unfold spanContextIn, lookupSpan. rewrite lookup_snoc. reflexivity. Qed.

Lemma spanContextIn_app ss more s :
  (forall k, s = sdkSpan k -> (k < length ss)%nat) ->
  spanContextIn (ss ++ more) s = spanContextIn ss s.
Proof.
  intros Hk. unfold spanContextIn, lookupSpan. destruct s as [|k]; [reflexivity|].
  rewrite lookup_app_l by (apply Hk; reflexivity). reflexivity.
Qed.

Lemma logSpans_snoc level message attrs ss sp :
  IsValid (sp_context sp) = true -> sp_ended sp = false ->
  logSpans (sdkSpan (length ss)) level message attrs (ss ++ [sp]) =
    ss ++ [addEvent (logEvent level message attrs) sp].
Proof.
  intros Hv He. unfold logSpans. rewrite spanContextIn_snoc, Hv.
  apply updateStore_snoc. exact He.
Qed.

(** The world an order request leaves when the log file is open and the
    span of the request, if any, is in the store. *)
Lemma CreateOrderHandler_logfile w rw r enc :
  sl_encoder (JSONLogger w) = Some enc ->
  (forall k, ctx_span (r_ctx r) = sdkSpan k -> (k < length (spans w))%nat) ->
  let h := length (spans w) in
  let parent := spanContextIn (spans w) (ctx_span (r_ctx r)) in
  let t0 := clock w + (Z.of_N (draw w 0 50) + 30) in
  let w' := exec (CreateOrderHandler rw r) w in
  match pathOf w with
  | DBFailure =>
      let msg := "database operation failed" in
      let err := "simulated database constraint violation" in
      let db := newSpan parent h "db.insert_order" in
      let t := t0 + (Z.of_N (draw w 3 40) + 10) in
      clock w' = t /\
      logfile w' = logfile w ++
        [buildEntry t (sp_context db) "ERROR" msg (errorAttrs "database" err)] /\
      spans w' = spans w ++
        [endSpan (setStatus codes.Error msg (setStatus codes.Error msg
           (addEvent (exceptionEvent err)
              (addEvent (logEvent "ERROR" msg (errorAttrs "database" err)) db))))]
  | PaymentFailure =>
      let msg := "payment processing failed" in
      let err := "simulated payment provider error" in
      let pay := newSpan parent (S h) "payment.process" in
      let t := t0 + (Z.of_N (draw w 3 100) + 50) in
      clock w' = t /\
      logfile w' = logfile w ++
        [buildEntry t (sp_context pay) "ERROR" msg (errorAttrs "payment" err)] /\
      spans w' = spans w ++
        [endSpan (setStatus codes.Ok "order record inserted"
           (newSpan parent h "db.insert_order"));
         endSpan (setStatus codes.Error msg (setStatus codes.Error msg
           (addEvent (exceptionEvent err)
              (addEvent (logEvent "ERROR" msg (errorAttrs "payment" err)) pay))))]
  | Success =>
      let t := t0 + (Z.of_N (draw w 2 100) + 50) + (Z.of_N (draw w 3 80) + 40) in
      clock w' = t /\
      logfile w' = logfile w ++
        buildEntry t parent "INFO" "Order created successfully"
          [attribute.Int "order.id" (Z.of_N (draw w 4 1000))] ::
        (if rw_broken rw
         then [buildEntry t parent "ERROR" "Error encoding response"
                 [attribute.String "error.reason" "write: broken pipe"]]
         else [])
  end.
Proof.
  destruct w as [src pos clk sps cnt con lf [f e] cs]; destruct r as [ctx];
    destruct rw as [hd st bd br].
  cbn [JSONLogger sl_encoder r_ctx spans]. intros -> Hk.
  unfold pathOf, draw. cbn -[N.modulo exec CreateOrderHandler buildEntry newSpan].
  destruct (N.eqb_spec (src (S pos) mod 10) 0) as [Hb|Hb].
  - assert (Hb' : (Z.of_N (src (S pos) mod 10) =? 0) = true) by (apply Z.eqb_eq; lia).
    destruct (N.eqb_spec (src (S (S pos)) mod 2) 0) as [Hc|Hc].
    + assert (Hc' : (Z.of_N (src (S (S pos)) mod 2) =? 0) = true)
        by (apply Z.eqb_eq; lia).
      match goal with |- context [exec (CreateOrderHandler ?a ?b) ?c] =>
        eassert (E : CreateOrderHandler a b c = _) end.
      { unfold CreateOrderHandler. runq_cbn. rewrite Hb'. runq_step. runq_cbn.
        rewrite Hc'. unfold handleDBError, handleRequestError, trace_SpanFromContext.
        runq.
        rewrite !spanContextIn_logSpans, !spanContextIn_snoc.
        rewrite logSpans_snoc by (first [apply started_valid | reflexivity]).
        rewrite ?updateStore_snoc by reflexivity.
        reflexivity. }
      unfold exec. rewrite E. cbn [snd clock logfile spans]. repeat split.
    + assert (Hc' : (Z.of_N (src (S (S pos)) mod 2) =? 0) = false)
        by (apply Z.eqb_neq; lia).
      match goal with |- context [exec (CreateOrderHandler ?a ?b) ?c] =>
        eassert (E : CreateOrderHandler a b c = _) end.
      { unfold CreateOrderHandler. runq_cbn. rewrite Hb'. runq_step. runq_cbn.
        rewrite Hc'. unfold handlePaymentError, handleRequestError, trace_SpanFromContext.
        runq.
        rewrite !spanContextIn_logSpans, !spanContextIn_snoc.
        rewrite logSpans_snoc by (first [apply started_valid | reflexivity]).
        rewrite ?updateStore_snoc by reflexivity.
        rewrite !(spanContextIn_app sps _ _ Hk).
        rewrite !length_app. cbn [length]. rewrite !Nat.add_1_r.
        rewrite <- !app_assoc. cbn [app].
        reflexivity. }
      unfold exec. rewrite E. cbn [snd clock logfile spans]. repeat split.
  - assert (Hb' : (Z.of_N (src (S pos) mod 10) =? 0) = false) by (apply Z.eqb_neq; lia).
    destruct br, st.
    all: match goal with |- context [exec (CreateOrderHandler ?a ?b) ?c] =>
        eassert (E : CreateOrderHandler a b c = _) end;
      [ unfold CreateOrderHandler; runq_cbn; rewrite Hb';
        unfold trace_SpanFromContext; runq; run_writer; runq;
        rewrite !spanContextIn_logSpans;
        rewrite !spanContextIn_updateStore
          by first [reflexivity | intros ?; apply setStatus_fields];
        rewrite <- ?app_assoc;
        rewrite !(spanContextIn_app sps _ _ Hk);
        reflexivity
      | unfold exec; rewrite E; cbn [snd clock logfile spans rw_broken];
        rewrite <- ?app_assoc; repeat split; try reflexivity ].
Qed.

(** X17. With the log file open, an order request whose response is
    written appends exactly one line to the file, stamped with the time at
    which the handler's simulated work is over.  A successful order logs at
    INFO with the order id, under the identifiers of the request's own span
    (none when the request has no valid span).  A failed order logs at
    ERROR with the stage and the reason, under the identifiers of the stage
    span the request opened last, "db.insert_order" or "payment.process":
    that span is a child of the request's span, is in the request's trace
    when the request has a valid span, and its identifier is always on the
    line. *)
Theorem createOrder_log_file_line (w : World) (rw : ResponseWriter) (r : Request)
    (enc : string) :
  sl_encoder (JSONLogger w) = Some enc ->
  rw_broken rw = false ->
  (forall k, ctx_span (r_ctx r) = sdkSpan k -> (k < length (spans w))%nat) ->
  let w' := exec (CreateOrderHandler rw r) w in
  let root := contextSpanContext w (r_ctx r) in
  let failed (name stage message reason : string) (entry : gmap string JVal) :=
    exists sp,
      last (spans w') = Some sp /\ sp_name sp = name /\ sp_parent sp = root /\
      (IsValid root = true -> TraceID (sp_context sp) = TraceID root) /\
      entry = buildEntry (clock w') (sp_context sp) "ERROR" message
                [attribute.String "error.stage" stage;
                 attribute.String "error.reason" reason] /\
      entry !! "span_id" = Some (JString (SpanID_String (SpanID (sp_context sp)))) in
  exists entry,
    logfile w' = logfile w ++ [entry] /\
    entry !! "timestamp" = Some (JTime (clock w')) /\
    match pathOf w with
    | Success =>
        entry = buildEntry (clock w') root "INFO" "Order created successfully"
                  [attribute.Int "order.id" (Z.of_N (draw w 4 1000))]
    | DBFailure =>
        failed "db.insert_order" "database" "database operation failed"
          "simulated database constraint violation" entry
    | PaymentFailure =>
        failed "payment.process" "payment" "payment processing failed"
          "simulated payment provider error" entry
    end.
Proof.
  intros Henc Hrw Hk w' root failed. subst failed.
  pose proof (CreateOrderHandler_logfile w rw r enc Henc Hk) as H. cbv zeta in H.
  fold w' in H.
  change (spanContextIn (spans w) (ctx_span (r_ctx r))) with root in H.
  assert (Htrace : forall h name, IsValid root = true ->
            TraceID (sp_context (newSpan root h name)) = TraceID root).
  { intros h name Hv. cbn [newSpan sp_context TraceID]. rewrite Hv. reflexivity. }
  destruct (pathOf w).
  - destruct H as (Hc & Hl). rewrite Hrw in Hl. rewrite <- Hc in Hl.
    eexists. split; [exact Hl|]. split; [apply buildEntry_ids | reflexivity].
  - destruct H as (Hc & Hl & Hs). rewrite <- Hc in Hl.
    eexists. split; [exact Hl|]. split; [apply buildEntry_ids|].
    eexists. split; [rewrite Hs; apply last_snoc|].
    split; [reflexivity|]. split; [reflexivity|].
    split; [apply Htrace|]. split; [reflexivity|].
    pose proof (buildEntry_ids (clock w')
                  (sp_context (newSpan root (length (spans w)) "db.insert_order"))
                  "ERROR" "database operation failed"
                  (errorAttrs "database" "simulated database constraint violation"))
      as (_ & Hid & _).
    rewrite started_valid in Hid. exact Hid.
  - destruct H as (Hc & Hl & Hs). rewrite <- Hc in Hl.
    eexists. split; [exact Hl|]. split; [apply buildEntry_ids|].
    eexists. split.
    { rewrite Hs.
      match goal with |- last (?l ++ [?a; ?b]) = _ =>
        change (l ++ [a; b]) with (l ++ [a] ++ [b]) end.
      rewrite app_assoc. apply last_snoc. }
    split; [reflexivity|]. split; [reflexivity|].
    split; [apply Htrace|]. split; [reflexivity|].
    pose proof (buildEntry_ids (clock w')
                  (sp_context (newSpan root (S (length (spans w))) "payment.process"))
                  "ERROR" "payment processing failed"
                  (errorAttrs "payment" "simulated payment provider error"))
      as (_ & Hid & _).
    rewrite started_valid in Hid. exact Hid.
Qed.

(** A request that fails in the database stage leaves one line. *)
Lemma createOrder_log_file_line_witness :
  let w := exampleWorld [5; 0; 0; 7]%N openLogger in
  length (logfile (exec (CreateOrderHandler exampleWriter exampleRequest) w)) = 1%nat.
Proof.
  intros w.
  destruct (createOrder_log_file_line w exampleWriter exampleRequest "app.log"
              eq_refl eq_refl) as (entry & Hl & _).
  - intros k Hk. injection Hk as <-. cbn. lia.
  - rewrite Hl. reflexivity.
Defined.

(* ===================================================================== *)
(** ** Log file lines per request *)
(* ===================================================================== *)

Ltac lines_done E :=
  unfold exec; rewrite E; cbn [snd logfile JSONLogger sl_encoder rw_broken];
  rewrite <- ?app_assoc;
  eexists; split;
    [ first [reflexivity | symmetry; apply app_nil_r]
    | split;
      [ intros He; first [reflexivity | discriminate He]
      | intros He; first [ exfalso; apply He; reflexivity
                         | split; [cbn [length app]; lia
                                  | intros Hr; first [reflexivity | discriminate Hr]] ] ] ].

(** The lines the order handler adds to the log file. *)
Lemma CreateOrderHandler_lines rw r w :
  exists lines,
    logfile (exec (CreateOrderHandler rw r) w) = logfile w ++ lines /\
    (sl_encoder (JSONLogger w) = None -> lines = []) /\
    (sl_encoder (JSONLogger w) <> None ->
       (1 <= length lines <= 2)%nat /\
       (rw_broken rw = false -> length lines = 1%nat)).
Proof.
  destruct w as [src pos clk sps cnt con lf [f e] cs]; destruct r as [ctx];
    destruct rw as [hd st bd br].
  destruct (Z.of_N (src (S pos) mod 10) =? 0) eqn:Hb.
  - destruct (Z.of_N (src (S (S pos)) mod 2) =? 0) eqn:Hc.
    + destruct e.
      all: match goal with |- context [exec (CreateOrderHandler ?a ?b) ?c] =>
             eassert (E : CreateOrderHandler a b c = _) end;
        [ unfold CreateOrderHandler; runq_cbn; rewrite Hb; runq_step; runq_cbn;
          rewrite Hc; unfold handleDBError, handleRequestError, trace_SpanFromContext;
          runq; reflexivity
        | lines_done E ].
    + destruct e.
      all: match goal with |- context [exec (CreateOrderHandler ?a ?b) ?c] =>
             eassert (E : CreateOrderHandler a b c = _) end;
        [ unfold CreateOrderHandler; runq_cbn; rewrite Hb; runq_step; runq_cbn;
          rewrite Hc;
          unfold handlePaymentError, handleRequestError, trace_SpanFromContext;
          runq; reflexivity
        | lines_done E ].
  - destruct e, br, st.
    all: match goal with |- context [exec (CreateOrderHandler ?a ?b) ?c] =>
           eassert (E : CreateOrderHandler a b c = _) end;
      [ unfold CreateOrderHandler; runq_cbn; rewrite Hb;
        unfold trace_SpanFromContext; runq; run_writer; runq; reflexivity
      | lines_done E ].
Qed.

(** The lines the inventory handler adds to the log file. *)
Lemma CheckInventoryHandler_lines rw r w :
  exists lines,
    logfile (exec (CheckInventoryHandler rw r) w) = logfile w ++ lines /\
    (sl_encoder (JSONLogger w) = None -> lines = []) /\
    (sl_encoder (JSONLogger w) <> None ->
       (1 <= length lines <= 2)%nat /\
       (rw_broken rw = false -> length lines = 1%nat)).
Proof.
  destruct w as [src pos clk sps cnt con lf [f e] cs]; destruct r as [ctx];
    destruct rw as [hd st bd br].
  destruct e, br, st.
  all: match goal with |- context [exec (CheckInventoryHandler ?a ?b) ?c] =>
         eassert (E : CheckInventoryHandler a b c = _) end;
    [ unfold CheckInventoryHandler, trace_SpanFromContext; runq; run_writer; runq;
      reflexivity
    | lines_done E ].
Qed.

(** The lines one routed request adds to the log file: the middleware
    adds none. *)
Lemma dispatch_logfile route rw r w :
  exists lines,
    logfile (exec (dispatch route rw r) w) = logfile w ++ lines /\
    (sl_encoder (JSONLogger w) = None -> lines = []) /\
    (sl_encoder (JSONLogger w) <> None ->
       (1 <= length lines <= 2)%nat /\
       (rw_broken rw = false -> length lines = 1%nat)).
Proof.
  destruct route; cbn [dispatch]; unfold exec; rewrite NewHandler_run;
    cbn [snd logfile].
  - match goal with |- context [CreateOrderHandler ?a ?b ?c] =>
      destruct (CreateOrderHandler_lines a b c) as (lines & Hl & Hn & Hs)
    end.
    exists lines. split; [exact Hl|]. split; [exact Hn | exact Hs].
  - match goal with |- context [CheckInventoryHandler ?a ?b ?c] =>
      destruct (CheckInventoryHandler_lines a b c) as (lines & Hl & Hn & Hs)
    end.
    exists lines. split; [exact Hl|]. split; [exact Hn | exact Hs].
Qed.

(** X18. With the log file open, serving a batch of requests adds at least
    one and at most two lines per request to the log file, and exactly one
    per request when no response writer refuses its write.  Without the log
    file, nothing is added. *)
Theorem serve_one_line_per_request (reqs : list (Route * ResponseWriter * Request))
    (w : World) :
  let w' := exec (serve reqs) w in
  let n := length reqs in
  exists lines,
    logfile w' = logfile w ++ lines /\
    (sl_encoder (JSONLogger w) = None -> lines = []) /\
    (sl_encoder (JSONLogger w) <> None ->
       (n <= length lines <= 2 * n)%nat /\
       (Forall (fun q => rw_broken q.1.2 = false) reqs -> length lines = n)).
Proof.
  cbv zeta. revert w.
  induction reqs as [|[[route rw] r] reqs IH]; intros w.
  - exists []. split; [symmetry; apply app_nil_r|].
    split; [reflexivity|]. intros _. split; [cbn; lia | reflexivity].
  - assert (E : exec (serve ((route, rw, r) :: reqs)) w =
                exec (serve reqs) (exec (dispatch route rw r) w)).
    { unfold exec. cbn [serve]. unfold bind, ret.
      destruct (dispatch route rw r w) as [rw' w1]. cbn [snd].
      destruct (serve reqs w1). reflexivity. }
    rewrite E. clear E.
    destruct (dispatch_logfile route rw r w) as (l1 & Hl1 & Hn1 & Hs1).
    assert (Hj : JSONLogger (exec (dispatch route rw r) w) = JSONLogger w).
    { destruct (advances_dispatch route rw r w) as (_ & _ & Hj & _). exact Hj. }
    destruct (IH (exec (dispatch route rw r) w)) as (l2 & Hl2 & Hn2 & Hs2).
    rewrite Hj in Hn2, Hs2.
    exists (l1 ++ l2). split; [rewrite Hl2, Hl1; symmetry; apply app_assoc|].
    split.
    + intros He. rewrite (Hn1 He), (Hn2 He). reflexivity.
    + intros He. destruct (Hs1 He) as (Hb1 & Hu1). destruct (Hs2 He) as (Hb2 & Hu2).
      rewrite length_app. cbn [length]. split; [lia|].
      intros Hall. apply Forall_cons in Hall as [Hrw Hall]. cbn in Hrw.
      rewrite (Hu1 Hrw), (Hu2 Hall). reflexivity.
Qed.

(** An order and an inventory check, both answered: two lines. *)
Lemma serve_one_line_per_request_witness :
  let w := exampleWorld [5; 3; 1; 7; 123; 400]%N openLogger in
  let reqs := [(createOrder, exampleWriter, exampleRequest);
               (checkInventory, exampleWriter, exampleRequest)] in
  length (logfile (exec (serve reqs) w)) = 2%nat.
Proof.
  intros w reqs.
  destruct (serve_one_line_per_request reqs w) as (lines & Hl & _ & Hs).
  destruct Hs as (_ & Hu); [discriminate|].
  rewrite Hl, length_app, Hu; [reflexivity|].
  repeat constructor.
Defined.
